(** * FinCerta: loan arithmetic, payment registration, payment
    de-duplication, the screens that read them and the activity log,
    embedded from the TypeScript sources.

    Conventions of the embedding.
    - A JavaScript [number] is an IEEE-754 binary64 value.  It is modelled by
      [spec_float] with the binary64 parameters, and every arithmetic
      operator of the source is the correctly rounded operation of
      [SpecFloat].
    - Integer columns ([total_weeks], [weeks_paid], [week_number]) are [Z].
    - A calendar date (the [YYYY-MM-DD] strings of the source) is a day
      number in [Z], counted in UTC as [toISOString] does; [addDays] and
      [addWeeks] on day numbers are the calendar arithmetic of a host
      whose UTC offset does not change.  [HostDate] has the arithmetic of
      [Date] and date-fns for any time zone, and [registerPaymentIn] uses
      it.
    - The remote data store is a record of tables.  Every remote call takes
      the reply of the backend as an argument: [None] is success, [Some e]
      is the [error] object returned by the call, in which case the call
      has no effect on the store.  A table keeps a row as it was sent;
      what its [DECIMAL] columns hold and return for that row is given by
      [Decimal.decimal] and [stored_loan].
    - [new Date()] / [Date.now()] is the argument [today], and the key the
      backend generates for an inserted row is the argument [newId].
    - A string is a sequence of [ascii] characters.
    - An instant (a [Date] compared with another) is a number of
      milliseconds in [Z]; a calendar day starts at its day number times
      86400000.
    - Functions of the host that are not rebuilt here ([toLowerCase], the
      parsing of a timestamp, [Array.prototype.sort]) are arguments of the
      functions that call them. *)

From Stdlib Require Import ZArith Lia Bool List Ascii String.
From Stdlib Require Import Floats.SpecFloat.
From stdpp Require Import base decidable option list strings pretty gmap.

Local Open Scope Z_scope.

(** ** JavaScript numbers *)

Module JS.

Definition prec : Z := 53.
Definition emax : Z := 1024.

Definition number : Type := spec_float.

Definition NaN : number := S754_nan.

(** The double nearest to an integer (numeric literals such as [35],
    [100], [7], and integer columns read as numbers). *)
Definition of_Z (z : Z) : number := binary_normalize prec emax z 0 false.

Definition add : number -> number -> number := SFadd prec emax.
Definition sub : number -> number -> number := SFsub prec emax.
Definition mul : number -> number -> number := SFmul prec emax.
Definition div : number -> number -> number := SFdiv prec emax.

(** [x < y] and [x > y]: false as soon as an operand is NaN. *)
Definition lt (x y : number) : bool := SFltb x y.
Definition gt (x y : number) : bool := SFltb y x.

(** [Math.min(x, y)]: NaN if an operand is NaN, and -0 below +0. *)
Definition Math_min (x y : number) : number :=
  match x, y with
  | S754_nan, _ | _, S754_nan => S754_nan
  | S754_zero sx, S754_zero sy => S754_zero (sx || sy)
  | _, _ => if SFltb y x then y else x
  end.

(** [Math.max(x, y)]: NaN if an operand is NaN, and +0 above -0. *)
Definition Math_max (x y : number) : number :=
  match x, y with
  | S754_nan, _ | _, S754_nan => S754_nan
  | S754_zero sx, S754_zero sy => S754_zero (sx && sy)
  | _, _ => if SFltb x y then y else x
  end.

(** [x || 0]: NaN and the two zeros are falsy. *)
Definition or_zero (x : number) : number :=
  match x with
  | S754_nan | S754_zero _ => of_Z 0
  | _ => x
  end.

(** A number that a JSON document or a literal can denote. *)
Definition valid (x : number) : Prop := valid_binary prec emax x = true.

(** [xs.reduce((sum, x) => sum + x, 0)] *)
Definition sum (xs : list number) : number :=
  fold_left add xs (of_Z 0).

End JS.

Abbreviation number := JS.number.

(** ** [DECIMAL(p, 2)] columns *)

Module Decimal.

(** [k * m * 2^e] rounded to the nearest integer. *)
Definition scaled (k : Z) (m : positive) (e : Z) : Z :=
  if 0 <=? e then k * Z.pos m * 2 ^ e
  else (2 * k * Z.pos m + 2 ^ (- e)) / 2 ^ (- e + 1).

(** The number of cents a [DECIMAL(p, 2)] column holds for the magnitude
    [m * 2^e] sent in a JSON document.  The document has the shortest
    decimal text that reads back as the same double, and the column rounds
    that text to two decimals, halves away from zero.  When a text of at
    most three decimals reads back as the double, it is the shortest one,
    and it is rounded; otherwise no half lies between the text and the
    double, and the double is rounded. *)
Definition cents (m : positive) (e : Z) : Z :=
  let thousandths := scaled 1000 m e in
  if SFeqb (JS.div (JS.of_Z thousandths) (JS.of_Z 1000)) (S754_finite false m e)
  then (thousandths + 5) / 10
  else scaled 100 m e.

(** What a [DECIMAL(p, 2) NOT NULL] column returns for a number sent:
    nothing when the insert or update is refused (NaN and the infinities
    are sent as [null]; a value of [10^(p-2)] or more overflows the
    column), else the double nearest to the cents held. *)
Definition decimal (p : Z) (x : number) : option number :=
  match x with
  | S754_zero _ => Some (S754_zero false)
  | S754_finite s m e =>
    let q := cents m e in
    if 10 ^ p <=? q then None
    else Some (JS.div (JS.of_Z (if s then - q else q)) (JS.of_Z 100))
  | _ => None
  end.


End Decimal.

(** ** The host's clock and calendar *)

Module HostDate.

Definition msPerDay : Z := 86400000.

(** The time zone of the host: the offset of local time from UTC, in
    milliseconds, at a UTC instant and at a local time. *)
Record Zone : Type := mkZone {
  offsetAtUTC : Z -> Z;
  offsetAtLocal : Z -> Z
}.

(** [new Date("YYYY-MM-DD")]: midnight UTC of that day. *)
Definition parseDate (d : Z) : Z := d * msPerDay.

(** [t.toISOString().split('T')[0]]: the day of an instant, in UTC. *)
Definition isoDate (t : Z) : Z := t / msPerDay.

(** [t.setDate(t.getDate() + n)]: [n] days later on the local calendar,
    at the same local time of day. *)
Definition setDatePlus (zone : Zone) (t n : Z) : Z :=
  let local := t + offsetAtUTC zone t in
  let local' := local + n * msPerDay in
  local' - offsetAtLocal zone local'.

(** date-fns [addDays] and [addWeeks]. *)
Definition addDays (zone : Zone) (t n : Z) : Z :=
  if n =? 0 then t else setDatePlus zone t n.
Definition addWeeks (zone : Zone) (t n : Z) : Z := addDays zone t (n * 7).

(** By how much the offset has grown between an instant and the local time
    [n] days later. *)
Definition shift (zone : Zone) (t n : Z) : Z :=
  offsetAtLocal zone (t + offsetAtUTC zone t + n * msPerDay) - offsetAtUTC zone t.

End HostDate.

(** ** Data model (the remote schema, as the components read and write it) *)

Definition date : Type := Z.

(** [d.setDate(d.getDate() + n)] and date-fns [addWeeks]. *)
Definition addDays (d : date) (n : Z) : date := d + n.
Definition addWeeks (d : date) (n : Z) : date := addDays d (n * 7).

Record Client : Type := mkClient {
  cl_id : string;
  full_name : string;
  credit_limit : number;
  available_credit : number;
  is_first_loan : bool
}.

Record Loan : Type := mkLoan {
  ln_id : string;
  ln_user_id : string;
  client_id : string;
  loan_amount : number;
  interest_rate : number;
  total_amount : number;
  weekly_payment : number;
  total_weeks : Z;
  weeks_paid : Z;
  loan_date : date;
  due_date : date;
  next_payment_date : option date;
  status : string
}.

Record LoanPayment : Type := mkPayment {
  p_id : string;
  loan_id : string;
  p_user_id : string;
  payment_amount : number;
  payment_date : date;
  week_number : Z
}.

Record Store : Type := mkStore {
  clients : list Client;
  loans : list Loan;
  loan_payments : list LoanPayment
}.

(** The [error] object of a remote reply; only its message is kept. *)
Definition Error : Type := string.
Definition Reply : Type := option Error.

(** The [variant] of a toast: absent, or ["destructive"] for errors. *)
Inductive ToastVariant : Type := plain | destructive.

(** A toast; its description text is not kept. *)
Record Toast : Type := mkToast { title : string; variant : ToastVariant }.

(** *** Remote calls *)

(** [supabase.from("loans").insert(row)] *)
Definition insert_loan (row : Loan) (db : Store) : Store :=
  mkStore (clients db) (loans db ++ [row]) (loan_payments db).

(** [supabase.from("loan_payments").insert(row)] *)
Definition insert_payment (row : LoanPayment) (db : Store) : Store :=
  mkStore (clients db) (loans db) (loan_payments db ++ [row]).

(** [supabase.from("clients").update(patch).eq("id", id)] *)
Definition update_client (id : string) (patch : Client -> Client) (db : Store) : Store :=
  mkStore (map (fun c => if String.eqb (cl_id c) id then patch c else c) (clients db))
          (loans db) (loan_payments db).

(** [supabase.from("loans").update(patch).eq("id", id)] *)
Definition update_loan (id : string) (patch : Loan -> Loan) (db : Store) : Store :=
  mkStore (clients db)
          (map (fun l => if String.eqb (ln_id l) id then patch l else l) (loans db))
          (loan_payments db).

(** [supabase.from("clients").select(...).eq("id", id).single()] *)
Definition select_client (id : string) (db : Store) : option Client :=
  List.find (fun c => String.eqb (cl_id c) id) (clients db).

(** [supabase.from("loan_payments").delete().eq("loan_id", id)] *)
Definition delete_payments_of (id : string) (db : Store) : Store :=
  mkStore (clients db) (loans db)
          (List.filter (fun p => negb (String.eqb (loan_id p) id)) (loan_payments db)).

(** [supabase.from("loans").delete().eq("id", id)].  The schema declares
    [loan_payments.loan_id] with [ON DELETE CASCADE]: the payments of a
    deleted loan go with it. *)
Definition delete_loan (id : string) (db : Store) : Store :=
  mkStore (clients db)
          (List.filter (fun l => negb (String.eqb (ln_id l) id)) (loans db))
          (List.filter (fun p => negb (String.eqb (loan_id p) id)) (loan_payments db)).

(** The patches [{ available_credit }] and [{ available_credit, is_first_loan }]. *)
Definition set_available_credit (v : number) (first : option bool) (c : Client) : Client :=
  mkClient (cl_id c) (full_name c) (credit_limit c) v
           (match first with Some b => b | None => is_first_loan c end).


(** ** LoanForm *)

Module LoanForm.

Record LoanDetails : Type := mkLoanDetails {
  loanAmount : number;
  interestRate : number;
  totalAmount : number;
  weeklyPayment : number;
  weeks : option Z
}.

(** The number [parseInt] returned: an integer, or NaN ([None]). *)
Definition weeks_number (w : option Z) : number :=
  match w with Some z => JS.of_Z z | None => JS.NaN end.

Section Component.

(** The two parsers of the host language: [parseFloat] yields a number,
    [parseInt] an integer or NaN. *)
Variable parseFloat : string -> number.
Variable parseInt : string -> option Z.

(** Component inputs: the [clients] prop and the three form fields. *)
Variable clientsProp : list Client.
Variable selectedClientId loanAmountField totalWeeksField : string.

Definition selectedClient : option Client :=
  List.find (fun c => String.eqb (cl_id c) selectedClientId) clientsProp.

Definition calculateLoanDetails : option LoanDetails :=
  match selectedClient with
  | None => None
  | Some _ =>
    if String.eqb loanAmountField "" then None
    else
      let amount := parseFloat loanAmountField in
      let weeks := parseInt totalWeeksField in
      let interestRate := JS.of_Z 35 in
      let totalAmount :=
        JS.mul amount (JS.add (JS.of_Z 1) (JS.div interestRate (JS.of_Z 100))) in
      let weeklyPayment := JS.div totalAmount (weeks_number weeks) in
      Some (mkLoanDetails amount interestRate totalAmount weeklyPayment weeks)
  end.

Definition loanDetails : option LoanDetails := calculateLoanDetails.

(** [handleSubmit].  [user] is the signed-in user's id, [newId] the key
    the backend gives the inserted row, [loanError] and [clientError] the
    replies of the two remote calls.  With [weeks] NaN the due date is an
    invalid [Date] and [toISOString] throws inside the [try]. *)
Definition handleSubmit (user : option string) (today : date) (newId : string)
    (loanError clientError : Reply) (db : Store) : Store * list Toast :=
  match user, selectedClient, loanDetails with
  | Some uid, Some client, Some d =>
    if JS.gt (loanAmount d) (available_credit client) then
      (db, [mkToast "Erro" destructive])
    else
      match weeks d with
      | None => (db, [mkToast "Erro ao criar empréstimo" destructive])
      | Some w =>
        let loanDate := today in
        let nextPaymentDate := addDays today 7 in
        let dueDate := addDays today (w * 7) in
        match loanError with
        | Some _ => (db, [mkToast "Erro ao criar empréstimo" destructive])
        | None =>
          let db1 :=
            insert_loan
              (mkLoan newId uid selectedClientId (loanAmount d) (interestRate d)
                      (totalAmount d) (weeklyPayment d) w 0 loanDate dueDate
                      (Some nextPaymentDate) "active") db in
          let newAvailableCredit :=
            JS.sub (available_credit client) (loanAmount d) in
          match clientError with
          | Some _ => (db1, [mkToast "Erro ao criar empréstimo" destructive])
          | None =>
            (update_client selectedClientId
               (set_available_credit newAvailableCredit (Some false)) db1,
             [mkToast "Empréstimo criado!" plain])
          end
        end
      end
  | _, _, _ => (db, [])
  end.

End Component.

End LoanForm.

(** ** LoanSimulator *)

Module LoanSimulator.

Record ScheduleEntry : Type := mkEntry {
  week : Z;
  entry_date : date;
  amount : number
}.

Record LoanDetails : Type := mkLoanDetails {
  loanAmount : number;
  interestRate : number;
  totalAmount : number;
  jurosValor : number;
  weeklyPayment : number;
  weeks : Z;
  nextPaymentDate : date;
  dueDate : date;
  paymentSchedule : list ScheduleEntry
}.

Section Component.

(** Component state: the client list it fetched, the selected id, the two
    amounts, the week count (slider and numeric field, step 1) and the
    date of the first installment. *)
Variable clientsState : list Client.
Variable selectedClientId : string.
Variable loanAmountState totalAmountState : number.
Variable totalWeeks : Z.
Variable firstPaymentDate : date.

Definition selectedClient : option Client :=
  List.find (fun c => String.eqb (cl_id c) selectedClientId) clientsState.

(** [Array.from({ length: totalWeeks }, (_, i) => ...)] *)
Definition schedule (weeklyPayment : number) : list ScheduleEntry :=
  map (fun i : nat =>
         mkEntry (Z.of_nat i + 1) (addDays firstPaymentDate (Z.of_nat i * 7)) weeklyPayment)
      (seq 0 (Z.to_nat totalWeeks)).

Definition calculateLoanDetails : option LoanDetails :=
  match selectedClient with
  | None => None
  | Some _ =>
    let amount := loanAmountState in
    let total := totalAmountState in
    let jurosValor := JS.sub total amount in
    let interestRate :=
      if JS.gt amount (JS.of_Z 0)
      then JS.mul (JS.div jurosValor amount) (JS.of_Z 100)
      else JS.of_Z 0 in
    let weeklyPayment := JS.div total (JS.of_Z totalWeeks) in
    let firstPayment := firstPaymentDate in
    let dueDate := addWeeks firstPayment (totalWeeks - 1) in
    Some (mkLoanDetails amount interestRate total jurosValor weeklyPayment
            totalWeeks firstPayment dueDate (schedule weeklyPayment))
  end.

Definition loanDetails : option LoanDetails := calculateLoanDetails.

(** [handleLoanCreation]; arguments as for [LoanForm.handleSubmit]. *)
Definition handleLoanCreation (user : option string) (today : date) (newId : string)
    (loanError creditError : Reply) (db : Store) : Store * list Toast :=
  match user, selectedClient, loanDetails with
  | Some uid, Some client, Some d =>
    if JS.gt (loanAmount d) (available_credit client) then
      (db, [mkToast "Erro" destructive])
    else
      let loanDate := today in
      let firstPayment := firstPaymentDate in
      let dueDate := addWeeks firstPayment (totalWeeks - 1) in
      match loanError with
      | Some _ => (db, [mkToast "Erro ao criar empréstimo" destructive])
      | None =>
        let db1 :=
          insert_loan
            (mkLoan newId uid selectedClientId (loanAmount d) (interestRate d)
                    (totalAmount d) (weeklyPayment d) (weeks d) 0 loanDate dueDate
                    (Some firstPaymentDate) "pending") db in
        let newAvailableCredit :=
          JS.sub (available_credit client) (loanAmount d) in
        match creditError with
        | Some _ => (db1, [mkToast "Erro ao criar empréstimo" destructive])
        | None =>
          (update_client selectedClientId
             (set_available_credit newAvailableCredit (Some false)) db1,
           [mkToast "Empréstimo aprovado!" plain])
        end
      end
  | _, _, _ => (db, [])
  end.

(** [handleAmountChange(value)] of the amount slider and field: the next
    values of the states [loanAmount] and [totalAmount]. *)
Definition handleAmountChange (value : number) : number * number :=
  match selectedClient with
  | None => (loanAmountState, totalAmountState)
  | Some client =>
    let newAmount := JS.Math_min value (available_credit client) in
    if JS.gt newAmount (JS.of_Z 0) && JS.gt loanAmountState (JS.of_Z 0) then
      let ratio := JS.div newAmount loanAmountState in
      let currentJuros := JS.sub totalAmountState loanAmountState in
      let newJuros := JS.mul currentJuros ratio in
      (newAmount, JS.add newAmount newJuros)
    else (newAmount, totalAmountState)
  end.

(** [handleTotalAmountChange(value)]: the next value of [totalAmount]. *)
Definition handleTotalAmountChange (value : number) : number :=
  match selectedClient with
  | None => totalAmountState
  | Some _ =>
    let minTotal := JS.add loanAmountState (JS.of_Z 50) in
    JS.Math_max value minTotal
  end.

(** The effect run when the selected client changes: for a first loan the
    two amounts are set to a suggestion.  The literal [0.35] is the double
    nearest to 35/100, which is what the division returns. *)
Definition suggestOnSelect : number * number :=
  match selectedClient with
  | None => (loanAmountState, totalAmountState)
  | Some client =>
    if is_first_loan client then
      let suggestedAmount := JS.Math_min (JS.of_Z 500) (available_credit client) in
      (suggestedAmount,
       JS.add suggestedAmount
              (JS.mul suggestedAmount (JS.div (JS.of_Z 35) (JS.of_Z 100))))
    else (loanAmountState, totalAmountState)
  end.

End Component.

End LoanSimulator.

(** ** Payment registration (three screens) *)

(** The object passed to [.update({ weeks_paid, status, next_payment_date })] *)
Definition patch_loan (wp : Z) (st : string) (next : option date) (l : Loan) : Loan :=
  mkLoan (ln_id l) (ln_user_id l) (client_id l) (loan_amount l) (interest_rate l)
         (total_amount l) (weekly_payment l) (total_weeks l) wp (loan_date l)
         (due_date l) next st.

(** [new Date(s)] for a date column: [null] reads as the epoch. *)
Definition new_Date (d : option date) : date :=
  match d with Some x => x | None => 0 end.

(** [.select(...).eq("id", id).single()]: the row, or nothing when the call
    fails or no row matches. *)
Definition fetch_client (id : string) (fetchError : Reply) (db : Store) : option Client :=
  match fetchError with
  | Some _ => None
  | None => select_client id db
  end.

Module LoanPayments.

(** [registerPayment(loanId)] of the per-client payments screen.  [loansState]
    is the loan list the screen holds, [clientId] its prop; the four replies
    are those of the calls in source order. *)
Definition registerPayment (user : option string) (loansState : list Loan)
    (clientId loanId : string) (today : date) (newId : string)
    (loanError paymentError fetchError clientError : Reply)
    (db : Store) : Store * list Toast :=
  match user with
  | None => (db, [])
  | Some uid =>
    match List.find (fun l => String.eqb (ln_id l) loanId) loansState with
    | None => (db, [])
    | Some loan =>
      let newWeeksPaid := weeks_paid loan + 1 in
      let isCompleted := total_weeks loan <=? newWeeksPaid in
      let nextPaymentDate :=
        if isCompleted then None
        else Some (addWeeks (new_Date (next_payment_date loan)) 1) in
      match loanError with
      | Some _ => (db, [mkToast "Erro ao registrar pagamento" destructive])
      | None =>
        let db1 :=
          update_loan loanId
            (patch_loan newWeeksPaid (if isCompleted then "completed" else "pending")
                        nextPaymentDate) db in
        match paymentError with
        | Some _ => (db1, [mkToast "Erro ao registrar pagamento" destructive])
        | None =>
          let db2 :=
            insert_payment
              (mkPayment newId loanId uid (weekly_payment loan) today newWeeksPaid) db1 in
          let db3 :=
            if isCompleted then
              match fetch_client clientId fetchError db2 with
              | None => db2
              | Some clientData =>
                let newCredit :=
                  JS.add (available_credit clientData) (loan_amount loan) in
                match clientError with
                | Some _ => db2
                | None =>
                  update_client clientId (set_available_credit newCredit None) db2
                end
              end
            else db2 in
          (db3, [mkToast "Pagamento registrado!" plain])
        end
      end
    end
  end.

(** [addWeeks(new Date(loan.next_payment_date), 1).toISOString().split('T')[0]]
    with the host's time zone. *)
Definition nextPaymentDateIn (zone : HostDate.Zone) (previous : option date) : date :=
  HostDate.isoDate
    (HostDate.addWeeks zone (HostDate.parseDate (new_Date previous)) 1).

(** [registerPayment(loanId)] on a host in time zone [zone]: as above, the
    next payment date being computed by the host's calendar. *)
Definition registerPaymentIn (zone : HostDate.Zone) (user : option string)
    (loansState : list Loan) (clientId loanId : string) (today : date) (newId : string)
    (loanError paymentError fetchError clientError : Reply)
    (db : Store) : Store * list Toast :=
  match user with
  | None => (db, [])
  | Some uid =>
    match List.find (fun l => String.eqb (ln_id l) loanId) loansState with
    | None => (db, [])
    | Some loan =>
      let newWeeksPaid := weeks_paid loan + 1 in
      let isCompleted := total_weeks loan <=? newWeeksPaid in
      let nextPaymentDate :=
        if isCompleted then None
        else Some (nextPaymentDateIn zone (next_payment_date loan)) in
      match loanError with
      | Some _ => (db, [mkToast "Erro ao registrar pagamento" destructive])
      | None =>
        let db1 :=
          update_loan loanId
            (patch_loan newWeeksPaid (if isCompleted then "completed" else "pending")
                        nextPaymentDate) db in
        match paymentError with
        | Some _ => (db1, [mkToast "Erro ao registrar pagamento" destructive])
        | None =>
          let db2 :=
            insert_payment
              (mkPayment newId loanId uid (weekly_payment loan) today newWeeksPaid) db1 in
          let db3 :=
            if isCompleted then
              match fetch_client clientId fetchError db2 with
              | None => db2
              | Some clientData =>
                let newCredit :=
                  JS.add (available_credit clientData) (loan_amount loan) in
                match clientError with
                | Some _ => db2
                | None =>
                  update_client clientId (set_available_credit newCredit None) db2
                end
              end
            else db2 in
          (db3, [mkToast "Pagamento registrado!" plain])
        end
      end
    end
  end.

End LoanPayments.

Module LoanDetails.

(** [handleRegisterPayment(loan)] of the client-detail screen. *)
Definition handleRegisterPayment (user : option string) (clientId : string)
    (loan : Loan) (today : date) (newId : string)
    (paymentError loanError fetchError clientError : Reply)
    (db : Store) : Store * list Toast :=
  match user with
  | None => (db, [])
  | Some uid =>
    let newWeeksPaid := weeks_paid loan + 1 in
    let isCompleted := total_weeks loan <=? newWeeksPaid in
    match paymentError with
    | Some _ => (db, [mkToast "Erro ao registrar pagamento" destructive])
    | None =>
      let db1 :=
        insert_payment
          (mkPayment newId (ln_id loan) uid (weekly_payment loan) today newWeeksPaid) db in
      let nextPaymentDate :=
        if isCompleted then None else Some (addDays today 7) in
      match loanError with
      | Some _ => (db1, [mkToast "Erro ao registrar pagamento" destructive])
      | None =>
        let db2 :=
          update_loan (ln_id loan)
            (patch_loan newWeeksPaid (if isCompleted then "completed" else "active")
                        nextPaymentDate) db1 in
        let db3 :=
          if isCompleted then
            match fetch_client clientId fetchError db2 with
            | None => db2
            | Some clientData =>
              let newAvailableCredit :=
                JS.add (available_credit clientData) (loan_amount loan) in
              let finalCredit :=
                JS.Math_min newAvailableCredit (credit_limit clientData) in
              match clientError with
              | Some _ => db2
              | None =>
                update_client clientId (set_available_credit finalCredit None) db2
              end
            end
          else db2 in
        (db3, [mkToast "Pagamento registrado!" plain])
      end
    end
  end.

(** One entry of the payment schedule shown for a loan; the two dates are
    kept as dates, not as the formatted text. *)
Record ScheduleRow : Type := mkRow {
  week : Z;
  row_date : date;
  amount : number;
  isPaid : bool;
  isOverdue : bool;
  isCurrent : bool;
  paymentDate : option date
}.

(** The instant, in milliseconds, at which a calendar day starts. *)
Definition startOfDay (d : date) : Z := d * 86400000.

(** [generatePaymentSchedule(loan)].  [now] is the instant of the call and
    [loanPayments] the payments the screen holds for the loan
    ([payments[loan.id] || []]). *)
Definition generatePaymentSchedule (now : Z) (loanPayments : list LoanPayment)
    (loan : Loan) : list ScheduleRow :=
  map (fun i : nat =>
         let week := Z.of_nat i + 1 in
         let paymentDate := addDays (loan_date loan) (week * 7) in
         let payment := List.find (fun p => week_number p =? week) loanPayments in
         let isPaid := match payment with Some _ => true | None => false end in
         let isOverdue := negb isPaid && (startOfDay paymentDate <? now) in
         let isCurrent := week =? weeks_paid loan + 1 in
         mkRow week paymentDate (weekly_payment loan) isPaid isOverdue isCurrent
               (option_map payment_date payment))
      (seq 0 (Z.to_nat (total_weeks loan))).

End LoanDetails.

(** The loan list of [src/unnamed/part_003]. *)
Module LoanList003.

Definition markPayment (user : option string) (loanId : string)
    (loan : Loan) (today : date) (newId : string)
    (paymentError loanError fetchError clientError : Reply)
    (db : Store) : Store * list Toast :=
  match user with
  | None => (db, [])
  | Some uid =>
    let newWeeksPaid := weeks_paid loan + 1 in
    let isCompleted := total_weeks loan <=? newWeeksPaid in
    match paymentError with
    | Some _ => (db, [mkToast "Erro ao registrar pagamento" destructive])
    | None =>
      let db1 :=
        insert_payment
          (mkPayment newId loanId uid (weekly_payment loan) today newWeeksPaid) db in
      let nextPaymentDate :=
        if isCompleted then None else Some (addDays today 7) in
      match loanError with
      | Some _ => (db1, [mkToast "Erro ao registrar pagamento" destructive])
      | None =>
        let db2 :=
          update_loan loanId
            (patch_loan newWeeksPaid (if isCompleted then "completed" else "active")
                        nextPaymentDate) db1 in
        let db3 :=
          if isCompleted then
            match fetch_client (client_id loan) fetchError db2 with
            | None => db2
            | Some clientData =>
              let newAvailableCredit :=
                JS.add (available_credit clientData) (loan_amount loan) in
              match clientError with
              | Some _ => db2
              | None =>
                update_client (client_id loan)
                  (set_available_credit newAvailableCredit None) db2
              end
            end
          else db2 in
        (db3, [mkToast "Pagamento registrado!" plain])
      end
    end
  end.

End LoanList003.

(** ** [Map]: keyed store that remembers insertion order *)

Module JSMap.
Section Map.
Context {K V : Type} `{EqDecision K}.

Definition t : Type := list (K * V).

Definition empty : t := [].

Fixpoint get (m : t) (k : K) : option V :=
  match m with
  | [] => None
  | (k', v) :: m' => if decide (k' = k) then Some v else get m' k
  end.

Definition has (m : t) (k : K) : bool :=
  match get m k with Some _ => true | None => false end.

(** [set] keeps the position of a key that is already present. *)
Fixpoint set (m : t) (k : K) (v : V) : t :=
  match m with
  | [] => [(k, v)]
  | (k', v') :: m' =>
    if decide (k' = k) then (k', v) :: m' else (k', v') :: set m' k v
  end.

Definition keys (m : t) : list K := map fst m.
Definition values (m : t) : list V := map snd m.
End Map.
End JSMap.

(** ** Paid totals: de-duplication by week number *)

(** [payment.week_number || `${payment.payment_date}_${payment.id}`]: the
    week number unless it is falsy (0), else a string no number key equals. *)
Inductive WeekKey : Type :=
  | WeekNumber (w : Z)
  | Fallback (d : date) (id : string).

Global Instance WeekKey_eq_dec : EqDecision WeekKey.
Proof. solve_decision. Defined.

Definition weekKey (payment : LoanPayment) : WeekKey :=
  if week_number payment =? 0
  then Fallback (payment_date payment) (p_id payment)
  else WeekNumber (week_number payment).

(** The body of the [forEach] that fills [uniquePayments]; the same text
    appears in the cash-flow screen and in both reports. *)
Definition dedupStep (uniquePayments : JSMap.t (K := WeekKey) (V := LoanPayment))
    (payment : LoanPayment) : JSMap.t :=
  match JSMap.get uniquePayments (weekKey payment) with
  | None => JSMap.set uniquePayments (weekKey payment) payment
  | Some kept =>
    if payment_date payment <? payment_date kept
    then JSMap.set uniquePayments (weekKey payment) payment
    else uniquePayments
  end.

Definition uniquePayments (payments : list LoanPayment)
  : JSMap.t (K := WeekKey) (V := LoanPayment) :=
  fold_left dedupStep payments JSMap.empty.

(** [Array.from(uniquePayments.values()).reduce((sum, p) => sum + Number(p.payment_amount), 0)] *)
Definition totalPaid (payments : list LoanPayment) : number :=
  JS.sum (map payment_amount (JSMap.values (uniquePayments payments))).

(** A loan row with its embedded [clients(full_name)] and [loan_payments(...)]. *)
Record JoinedLoan : Type := mkJoined {
  jl_loan : Loan;
  jl_client_name : option string;
  jl_payments : list LoanPayment
}.

Module CashFlow.

Record LoanSummary : Type := mkSummary {
  id : string;
  client_name : string;
  s_loan_amount : number;
  s_total_amount : number;
  amount_paid : number;
  amount_remaining : number;
  s_status : string;
  s_next_payment_date : option date;
  s_loan_date : date;
  s_weeks_paid : Z;
  s_total_weeks : Z
}.

Record CashSummary : Type := mkCash {
  totalLoaned : number;
  totalReceived : number;
  totalInStreet : number;
  cashBalance : number;
  activeLoansCount : nat;
  completedLoansCount : nat
}.

(** The four accumulators of the [forEach] over the fetched loans. *)
Record Acc : Type := mkAcc {
  activeLoansData : list LoanSummary;
  completedLoansData : list LoanSummary;
  totalLoanedAmount : number;
  totalReceivedAmount : number
}.

Definition summarize (loan : JoinedLoan) : LoanSummary :=
  let paid := totalPaid (jl_payments loan) in
  let remaining := JS.sub (total_amount (jl_loan loan)) paid in
  mkSummary (ln_id (jl_loan loan))
            (match jl_client_name loan with
             | Some n => if String.eqb n "" then "N/A" else n
             | None => "N/A"
             end)
            (loan_amount (jl_loan loan)) (total_amount (jl_loan loan))
            paid remaining (status (jl_loan loan))
            (next_payment_date (jl_loan loan)) (loan_date (jl_loan loan))
            (weeks_paid (jl_loan loan)) (total_weeks (jl_loan loan)).

Definition step (acc : Acc) (loan : JoinedLoan) : Acc :=
  let loanSummary := summarize loan in
  let loaned := JS.add (totalLoanedAmount acc) (s_loan_amount loanSummary) in
  let received := JS.add (totalReceivedAmount acc) (amount_paid loanSummary) in
  if String.eqb (status (jl_loan loan)) "pending"
     && JS.gt (amount_remaining loanSummary) (JS.of_Z 0)
  then mkAcc (activeLoansData acc ++ [loanSummary]) (completedLoansData acc) loaned received
  else mkAcc (activeLoansData acc) (completedLoansData acc ++ [loanSummary]) loaned received.

Record State : Type := mkState {
  activeLoans : list LoanSummary;
  completedLoans : list LoanSummary;
  cashSummary : CashSummary
}.

(** The computation of [loadCashFlowData] on the rows the query returned. *)
Definition process (loansData : list JoinedLoan) : State :=
  let acc := fold_left step loansData (mkAcc [] [] (JS.of_Z 0) (JS.of_Z 0)) in
  let totalInStreet := JS.sum (map amount_remaining (activeLoansData acc)) in
  let cashBalance := totalReceivedAmount acc in
  mkState (activeLoansData acc) (completedLoansData acc)
          (mkCash (totalLoanedAmount acc) (totalReceivedAmount acc) totalInStreet
                  cashBalance (length (activeLoansData acc))
                  (length (completedLoansData acc))).

Definition loadCashFlowData (user : option string) (loansError : Reply)
    (loansData : list JoinedLoan) (st : State) : State * list Toast :=
  match user with
  | None => (st, [])
  | Some _ =>
    match loansError with
    | Some _ => (st, [mkToast "Erro ao carregar dados do caixa" destructive])
    | None => (process loansData, [])
    end
  end.

End CashFlow.

Module Reports.

(** [totalReceived] of one month of [loadMonthlyReports]: per loan, the
    payments dated inside the month are de-duplicated and summed.  The
    month window is given by its first and last day. *)
Definition monthReceived (monthStart monthEnd : date) (loans : list JoinedLoan) : number :=
  fold_left
    (fun totalReceived loan =>
       let loanMonthPayments :=
         List.filter (fun payment =>
                        (monthStart <=? payment_date payment)
                        && (payment_date payment <=? monthEnd))
                     (jl_payments loan) in
       JS.add totalReceived (totalPaid loanMonthPayments))
    loans (JS.of_Z 0).

(** [totalPaid] of one loan in [loadClientReports]. *)
Definition clientLoanPaid (loan : JoinedLoan) : number :=
  totalPaid (jl_payments loan).






End Reports.

(** ** LoanList: status from payments, cleanup and sync *)

Module LoanList.

(** [new Set(loan.loan_payments.map(p => p.week_number))] *)
Definition uniqueWeeks (weeks : list Z) : gset Z := list_to_set weeks.

(** The [map] callback of [fetchLoans]: weeks paid and status are
    recomputed from the distinct week numbers. *)
Definition withRealStatus (loan : JoinedLoan) : Loan :=
  let actualWeeksPaid :=
    Z.of_nat (size (uniqueWeeks (map week_number (jl_payments loan)))) in
  let isCompleted := total_weeks (jl_loan loan) <=? actualWeeksPaid in
  patch_loan actualWeeksPaid (if isCompleted then "completed" else "pending")
             (next_payment_date (jl_loan loan)) (jl_loan loan).

Definition fetchLoans (data : list JoinedLoan) : list Loan :=
  map withRealStatus data.

(** [`${payment.loan_id}_${payment.week_number}`] *)
Definition groupKey (payment : LoanPayment) : string :=
  loan_id payment +:+ "_" +:+ pretty (week_number payment).

(** The [forEach] that fills [paymentGroups]: [push] extends in place the
    array held under the key. *)
Definition groupStep (paymentGroups : JSMap.t (K := string) (V := list LoanPayment))
    (payment : LoanPayment) : JSMap.t :=
  let key := groupKey payment in
  let groups :=
    if JSMap.has paymentGroups key then paymentGroups
    else JSMap.set paymentGroups key [] in
  match JSMap.get groups key with
  | Some group => JSMap.set groups key (group ++ [payment])
  | None => groups
  end.

Definition paymentGroups (payments : list LoanPayment)
  : JSMap.t (K := string) (V := list LoanPayment) :=
  fold_left groupStep payments JSMap.empty.

(** [group.slice(1)] when [group.length > 1] *)
Definition toDelete (group : list LoanPayment) : list LoanPayment :=
  if (1 <? length group)%nat then drop 1 group else [].

(** [supabaseAdmin.from('loan_payments').delete().eq('id', id)] *)
Definition delete_payment (id : string) (db : Store) : Store :=
  mkStore (clients db) (loans db)
          (List.filter (fun p => negb (String.eqb (p_id p) id)) (loan_payments db)).

(** One awaited delete; its reply is not inspected by the caller. *)
Definition deleteOne (deleteReply : string -> Reply) (db : Store)
    (payment : LoanPayment) : Store :=
  match deleteReply (p_id payment) with
  | Some _ => db
  | None => delete_payment (p_id payment) db
  end.

(** [cleanupDuplicatePayments].  [payments] is the data of the select
    ordered by [payment_date]; [deleteReply id] is the reply to the delete
    of row [id]. *)
Definition cleanupDuplicatePayments (user : option string) (selectError : Reply)
    (payments : list LoanPayment) (deleteReply : string -> Reply)
    (db : Store) : Store :=
  match user with
  | None => db
  | Some _ =>
    match selectError with
    | Some _ => db
    | None =>
      fold_left
        (fun db '(key, group) => fold_left (deleteOne deleteReply) (toDelete group) db)
        (paymentGroups payments) db
    end
  end.

(** One iteration of the loop of [syncLoanStatus]. *)
Definition syncOne (updateReply : string -> Reply) (db : Store)
    (loan : JoinedLoan) : Store :=
  let l := jl_loan loan in
  let actualWeeksPaid :=
    Z.of_nat (size (uniqueWeeks (map week_number (jl_payments loan)))) in
  let shouldBeCompleted := total_weeks l <=? actualWeeksPaid in
  if negb (weeks_paid l =? actualWeeksPaid)
     || (shouldBeCompleted && negb (String.eqb (status l) "completed"))
     || (negb shouldBeCompleted && String.eqb (status l) "completed")
  then
    match updateReply (ln_id l) with
    | Some _ => db
    | None =>
      update_loan (ln_id l)
        (patch_loan actualWeeksPaid
           (if shouldBeCompleted then "completed" else "pending")
           (if shouldBeCompleted then None else next_payment_date l)) db
    end
  else db.

Definition syncLoanStatus (user : option string) (selectError : Reply)
    (loansData : list JoinedLoan) (updateReply : string -> Reply)
    (db : Store) : Store :=
  match user with
  | None => db
  | Some _ =>
    match selectError with
    | Some _ => db
    | None => fold_left (syncOne updateReply) loansData db
    end
  end.

(** [markPayment(loanId, loan)] of the current loan list: the payment is
    inserted and the loan row is left alone, the list recomputing weeks paid
    and status from the payments when it loads. *)
Definition markPayment (user : option string) (loanId : string)
    (loan : Loan) (today : date) (newId : string)
    (paymentError fetchError clientError : Reply)
    (db : Store) : Store * list Toast :=
  match user with
  | None => (db, [])
  | Some uid =>
    let newWeeksPaid := weeks_paid loan + 1 in
    let isCompleted := total_weeks loan <=? newWeeksPaid in
    let validUserId :=
      if String.eqb uid "" then "a6bc2ebf-d61a-4f8e-b79e-4b83c3f37c8d" else uid in
    match paymentError with
    | Some _ => (db, [mkToast "Erro ao registrar pagamento" destructive])
    | None =>
      let db1 :=
        insert_payment
          (mkPayment newId loanId validUserId (weekly_payment loan) today
                     newWeeksPaid) db in
      let db2 :=
        if isCompleted then
          match fetch_client (client_id loan) fetchError db1 with
          | None => db1
          | Some clientData =>
            let newAvailableCredit :=
              JS.add (available_credit clientData) (loan_amount loan) in
            match clientError with
            | Some _ => db1
            | None =>
              update_client (client_id loan)
                (set_available_credit newAvailableCredit None) db1
            end
          end
        else db1 in
      (db2, [mkToast "Pagamento registrado!" plain])
    end
  end.

(** [registerSimplePaymentForLoan(loan)]: one insert through the admin
    client, then the receipt.  [receiptError] is the exception the receipt
    generation may raise inside the [try]. *)
Definition registerSimplePaymentForLoan (user : option string) (loan : Loan)
    (today : date) (newId : string) (paymentError receiptError : Reply)
    (db : Store) : Store * list Toast :=
  let newWeeksPaid := weeks_paid loan + 1 in
  let validUserId :=
    match user with
    | Some uid =>
      if String.eqb uid "" then "a6bc2ebf-d61a-4f8e-b79e-4b83c3f37c8d" else uid
    | None => "a6bc2ebf-d61a-4f8e-b79e-4b83c3f37c8d"
    end in
  match paymentError with
  | Some _ => (db, [mkToast "Erro ao registrar pagamento" destructive])
  | None =>
    let db1 :=
      insert_payment
        (mkPayment newId (ln_id loan) validUserId (weekly_payment loan) today
                   newWeeksPaid) db in
    match receiptError with
    | Some _ => (db1, [mkToast "Erro ao registrar pagamento" destructive])
    | None => (db1, [mkToast "Pagamento registrado!" plain])
    end
  end.

(** [registerSimplePayment()]: the same on the loan selected in the dialog. *)
Definition registerSimplePayment (user : option string) (selectedLoan : option Loan)
    (today : date) (newId : string) (paymentError receiptError : Reply)
    (db : Store) : Store * list Toast :=
  match selectedLoan with
  | None => (db, [])
  | Some loan =>
    registerSimplePaymentForLoan user loan today newId paymentError receiptError db
  end.

(** [deleteLoan(loan)].  [confirmacao] is the answer to [window.confirm];
    the replies are those of the four calls in source order, of which only
    the last is inspected. *)
Definition deleteLoan (confirmacao : bool) (loan : Loan)
    (paymentsReply fetchError creditReply loanReply : Reply)
    (db : Store) : Store * list Toast :=
  if negb confirmacao then (db, [])
  else
    let db1 :=
      match paymentsReply with
      | Some _ => db
      | None => delete_payments_of (ln_id loan) db
      end in
    let db2 :=
      if negb (String.eqb (status loan) "completed") then
        match fetch_client (client_id loan) fetchError db1 with
        | None => db1
        | Some client =>
          match creditReply with
          | Some _ => db1
          | None =>
            update_client (client_id loan)
              (set_available_credit
                 (JS.add (available_credit client) (loan_amount loan)) None) db1
          end
        end
      else db1 in
    match loanReply with
    | Some _ => (db2, [mkToast "ERRO!" destructive])
    | None => (delete_loan (ln_id loan) db2, [mkToast "EXCLUÍDO!" plain])
    end.

End LoanList.

(** ** UpcomingPayments *)

Module UpcomingPayments.

(** [registerSimplePayment()].  [selectedPayment] is the row of the list
    picked in the dialog, of which the loan columns are read.  With no
    signed-in user, [user.id] raises once the loan has been updated. *)
Definition registerSimplePayment (user : option string) (selectedPayment : option Loan)
    (today : date) (newId : string) (loanError paymentError : Reply)
    (db : Store) : Store * list Toast :=
  match selectedPayment with
  | None => (db, [])
  | Some sp =>
    let newWeeksPaid := weeks_paid sp + 1 in
    let isCompleted := total_weeks sp <=? newWeeksPaid in
    let nextPaymentDate :=
      if isCompleted then None
      else Some (addWeeks (new_Date (next_payment_date sp)) 1) in
    match loanError with
    | Some _ => (db, [mkToast "Erro ao registrar pagamento" destructive])
    | None =>
      let db1 :=
        update_loan (ln_id sp)
          (patch_loan newWeeksPaid (if isCompleted then "completed" else "pending")
                      nextPaymentDate) db in
      match user with
      | None => (db1, [mkToast "Erro ao registrar pagamento" destructive])
      | Some uid =>
        match paymentError with
        | Some _ => (db1, [mkToast "Erro ao registrar pagamento" destructive])
        | None =>
          (insert_payment
             (mkPayment newId (ln_id sp) uid (weekly_payment sp) today newWeeksPaid)
             db1,
           [mkToast "Pagamento registrado!" plain])
        end
      end
    end
  end.

End UpcomingPayments.

(** ** Dashboard *)

Module Dashboard.

Record LoanStats : Type := mkStats {
  activeLoans : nat;
  totalLent : number;
  pendingPayments : Z
}.

(** The rows of [.eq("user_id", user.id).eq("status", "active")]. *)
Definition activeLoansOf (uid : string) (db : Store) : list Loan :=
  List.filter (fun l => String.eqb (ln_user_id l) uid && String.eqb (status l) "active")
              (loans db).

(** [fetchLoanStats]: the next value of the state [loanStats]. *)
Definition fetchLoanStats (user : option string) (activeError : Reply)
    (db : Store) (loanStats : LoanStats) : LoanStats :=
  match user with
  | None => loanStats
  | Some uid =>
    match activeError with
    | Some _ => loanStats
    | None =>
      let activeLoans := activeLoansOf uid db in
      let totalLent :=
        JS.or_zero
          (fold_left (fun sum loan => JS.add sum (loan_amount loan)) activeLoans
                     (JS.of_Z 0)) in
      let pendingPayments :=
        fold_left (fun sum loan => sum + (total_weeks loan - weeks_paid loan))
                  activeLoans 0 in
      mkStats (length activeLoans) totalLent pendingPayments
    end
  end.

End Dashboard.

(** ** ActivityLogger *)

Module ActivityLogger.

Inductive LogType : Type := create | update | delete | payment | login | system.

Record ActivityLog : Type := mkLog {
  id : string;
  timestamp : string;
  user : string;
  action : string;
  entity : string;
  entityId : option string;
  details : string;
  type : LogType
}.

(** The two private fields of the class. *)
Record t : Type := mkLogger {
  logs : list ActivityLog;
  currentUser : string
}.

Definition init : t := mkLogger [] "Sistema".

(** [details || `${action} realizada em ${entity}`] *)
Definition detailsOrDefault (details : option string) (action entity : string) : string :=
  match details with
  | Some d => if String.eqb d "" then action +:+ " realizada em " +:+ entity else d
  | None => action +:+ " realizada em " +:+ entity
  end.

(** [log(action, entity, entityId, details, type)].  [freshId] and [now]
    stand for the generated id and the ISO timestamp. *)
Definition log (freshId now : string) (action entity : string)
    (entityId details : option string) (type : LogType) (self : t) : t * ActivityLog :=
  let logEntry :=
    mkLog freshId now (currentUser self) action entity entityId
          (detailsOrDefault details action entity) type in
  let logs1 := logEntry :: logs self in
  let logs2 := if (1000 <? length logs1)%nat then take 1000 logs1 else logs1 in
  (mkLogger logs2 (currentUser self), logEntry).

Definition logSystemAction (freshId now action details : string) (self : t) : t * ActivityLog :=
  log freshId now action "Sistema" None (Some details) system self.

Definition setCurrentUser (freshId now username loginDetails : string) (self : t) : t :=
  fst (log freshId now "Login realizado" "Sistema" None (Some loginDetails) login
           (mkLogger (logs self) username)).

Global Instance LogType_eq_dec : EqDecision LogType.
Proof. solve_decision. Defined.

(** [s.includes(sub)] *)
Fixpoint includes (s sub : string) : bool :=
  String.prefix sub s
  || match s with
     | EmptyString => false
     | String _ rest => includes rest sub
     end.

(** [a >= b] and [a <= b] on two [Date]s, read as instants in
    milliseconds; [None] is the invalid date, on which every comparison is
    false. *)
Definition date_ge (a b : option Z) : bool :=
  match a, b with
  | Some x, Some y => y <=? x
  | _, _ => false
  end.
Definition date_le (a b : option Z) : bool :=
  match a, b with
  | Some x, Some y => x <=? y
  | _, _ => false
  end.

(** [l.slice(0, k)] for an integer [k]: a negative [k] counts from the end. *)
Definition slice_to {A : Type} (l : list A) (k : Z) : list A :=
  if k <? 0 then take (Z.to_nat (Z.of_nat (length l) + k)) l
  else take (Z.to_nat k) l.

(** The argument of [getLogs]; an absent field is [None].  A date field
    holds a [Date], valid or not. *)
Record LogFilter : Type := mkFilter {
  f_user : option string;
  f_type : option LogType;
  f_entity : option string;
  f_limit : option Z;
  f_startDate : option (option Z);
  f_endDate : option (option Z)
}.

(** The result of [getStats], without [byUser]. *)
Record Stats : Type := mkStats {
  total : nat;
  todayLogs : nat;
  byType : JSMap.t (K := LogType) (V := nat)
}.

Section Host.

(** Two functions of the host: [String.prototype.toLowerCase], and the
    instant [new Date(s)] denotes ([None] when it is invalid). *)
Variable toLowerCase : string -> string.
Variable parseDate : string -> option Z.

(** [getLogs(filter)] *)
Definition getLogs (filter : option LogFilter) (self : t) : list ActivityLog :=
  let filteredLogs := logs self in
  match filter with
  | None => filteredLogs
  | Some f =>
    let byUser :=
      match f_user f with
      | Some u =>
        if String.eqb u "" then filteredLogs
        else List.filter
               (fun log => includes (toLowerCase (user log)) (toLowerCase u))
               filteredLogs
      | None => filteredLogs
      end in
    let byType :=
      match f_type f with
      | Some ty => List.filter (fun log => bool_decide (type log = ty)) byUser
      | None => byUser
      end in
    let byEntity :=
      match f_entity f with
      | Some e =>
        if String.eqb e "" then byType
        else List.filter
               (fun log => includes (toLowerCase (entity log)) (toLowerCase e))
               byType
      | None => byType
      end in
    let fromStart :=
      match f_startDate f with
      | Some startDate =>
        List.filter (fun log => date_ge (parseDate (timestamp log)) startDate) byEntity
      | None => byEntity
      end in
    let toEnd :=
      match f_endDate f with
      | Some endDate =>
        List.filter (fun log => date_le (parseDate (timestamp log)) endDate) fromStart
      | None => fromStart
      end in
    match f_limit f with
    | Some limit => if limit =? 0 then toEnd else slice_to toEnd limit
    | None => toEnd
    end
  end.

(** [acc[k] = (acc[k] || 0) + 1] *)
Definition countUp (acc : JSMap.t (K := LogType) (V := nat)) (k : LogType) : JSMap.t :=
  JSMap.set acc k (match JSMap.get acc k with Some n => n | None => 0 end + 1)%nat.

(** [getStats()].  [today] is the instant of today's midnight.  The tally
    [byUser] is left out: it is keyed by free text on a plain object, where
    a user name that is also a property of [Object.prototype] does not
    count as a number. *)
Definition getStats (today : Z) (self : t) : Stats :=
  let total := length (logs self) in
  let byType := fold_left (fun acc log => countUp acc (type log)) (logs self) JSMap.empty in
  let todayLogs :=
    length (List.filter (fun log => date_ge (parseDate (timestamp log)) (Some today))
                        (logs self)) in
  mkStats total todayLogs byType.

(** [clearOldLogs(daysToKeep)].  [now] is the instant of the call, [freshId]
    and [nowIso] the id and timestamp of the entry it may write. *)
Definition clearOldLogs (freshId nowIso : string) (now : Z) (daysToKeep : Z)
    (self : t) : t :=
  let cutoffDate := now - daysToKeep * 86400000 in
  let initialCount := length (logs self) in
  let kept :=
    List.filter (fun log => date_ge (parseDate (timestamp log)) (Some cutoffDate))
                (logs self) in
  let removedCount := (initialCount - length kept)%nat in
  if (0 <? removedCount)%nat then
    fst (logSystemAction freshId nowIso "Limpeza de logs"
           ("Removidos " +:+ pretty (Z.of_nat removedCount)
            +:+ " logs antigos (mais de " +:+ pretty daysToKeep +:+ " dias)")
           (mkLogger kept (currentUser self)))
  else mkLogger kept (currentUser self).

End Host.

End ActivityLogger.

(** ** ActivityLogs: the log viewer *)

Module ActivityLogs.
Import ActivityLogger.

(** The string a [type] is in the source. *)
Definition typeName (ty : LogType) : string :=
  match ty with
  | create => "create"
  | update => "update"
  | delete => "delete"
  | payment => "payment"
  | login => "login"
  | system => "system"
  end.

(** [[...new Set(xs)]]: the first occurrence of each value, in order. *)
Fixpoint uniqueInOrder (xs : list string) : list string :=
  match xs with
  | [] => []
  | x :: rest =>
    x :: List.filter (fun y => negb (String.eqb y x)) (uniqueInOrder rest)
  end.

Section Component.

Variable toLowerCase : string -> string.
Variable parseDate : string -> option Z.

(** Component state: the loaded logs and the three filters. *)
Variable logsState : list ActivityLog.
Variable searchTerm typeFilter userFilter : string.

(** [loadSystemLogs]: the next value of the state [logs]. *)
Definition loadSystemLogs (logger : ActivityLogger.t) : list ActivityLog :=
  getLogs toLowerCase parseDate
          (Some (mkFilter None None None (Some 200) None None)) logger.

(** [filterLogs]: the next value of the state [filteredLogs]. *)
Definition filterLogs : list ActivityLog :=
  let filtered := logsState in
  let byText :=
    if String.eqb searchTerm "" then filtered
    else List.filter
           (fun log =>
              includes (toLowerCase (action log)) (toLowerCase searchTerm)
              || includes (toLowerCase (details log)) (toLowerCase searchTerm)
              || includes (toLowerCase (user log)) (toLowerCase searchTerm))
           filtered in
  let byType :=
    if negb (String.eqb typeFilter "all")
    then List.filter (fun log => String.eqb (typeName (type log)) typeFilter) byText
    else byText in
  if negb (String.eqb userFilter "all")
  then List.filter (fun log => String.eqb (user log) userFilter) byType
  else byType.

Definition getUniqueUsers : list string :=
  let users := uniqueInOrder (map user logsState) in
  List.filter (fun user => negb (String.eqb user "Sistema")) users.

End Component.

End ActivityLogs.

(** ** formatCPF *)

Module Formatters.

(** [\D] is every character but the ten digits. *)
Definition isDigit (c : ascii) : bool :=
  (48 <=? Ascii.nat_of_ascii c)%nat && (Ascii.nat_of_ascii c <=? 57)%nat.

(** [value.replace(/\D/g, '')] *)
Fixpoint removeNonDigits (value : string) : string :=
  match value with
  | EmptyString => EmptyString
  | String c rest =>
    if isDigit c then String c (removeNonDigits rest) else removeNonDigits rest
  end.

(** [s.slice(a, b)] and [s.slice(a)] for [0 <= a <= b] *)
Definition slice (s : string) (a b : nat) : string := String.substring a (b - a) s.
Definition sliceFrom (s : string) (a : nat) : string :=
  String.substring a (String.length s - a) s.

Definition formatCPF (value : string) : string :=
  let cpf := removeNonDigits value in
  if (String.length cpf <=? 3)%nat then cpf
  else if (String.length cpf <=? 6)%nat then
    slice cpf 0 3 +:+ "." +:+ sliceFrom cpf 3
  else if (String.length cpf <=? 9)%nat then
    slice cpf 0 3 +:+ "." +:+ slice cpf 3 6 +:+ "." +:+ sliceFrom cpf 6
  else
    slice cpf 0 3 +:+ "." +:+ slice cpf 3 6 +:+ "." +:+ slice cpf 6 9
      +:+ "-" +:+ slice cpf 9 11.

Definition formatPhone (value : string) : string :=
  let phone := removeNonDigits value in
  if (String.length phone <=? 2)%nat then
    if (String.length phone =? 0)%nat then phone else "(" +:+ phone
  else if (String.length phone <=? 7)%nat then
    "(" +:+ slice phone 0 2 +:+ ") " +:+ sliceFrom phone 2
  else
    "(" +:+ slice phone 0 2 +:+ ") " +:+ slice phone 2 7
      +:+ "-" +:+ slice phone 7 11.

End Formatters.


(** ** ClientForm: the form state *)

Module ClientForm.

Record FormData : Type := mkFormData {
  fd_full_name : string;
  cpf : string;
  phone : string;
  address : string;
  fd_credit_limit : number
}.

Definition initialFormData : FormData :=
  mkFormData "" "" "" "" (JS.of_Z 1000).

(** The inputs whose [onChange] is [handleChange], by their [name]. *)
Inductive InputName : Type := full_name_input | cpf_input | phone_input | address_input.

Record Reference : Type := mkReference {
  ref_name : string;
  ref_phone : string;
  relationship : string
}.

Inductive ReferenceField : Type := name_field | phone_field | relationship_field.

Definition blankReference : Reference := mkReference "" "" "".

Definition initialReferences : list Reference := [blankReference].

Section Component.

(** [capitalizeWords] of the formatters, which is left abstract. *)
Variable capitalizeWords : string -> string.

(** [handleChange(e)] with [e.target] the input [name] holding [value]: the
    next form state. *)
Definition handleChange (name : InputName) (value : string) (prev : FormData) : FormData :=
  match name with
  | full_name_input =>
    mkFormData (capitalizeWords value) (cpf prev) (phone prev) (address prev)
               (fd_credit_limit prev)
  | cpf_input =>
    mkFormData (fd_full_name prev) (Formatters.formatCPF value) (phone prev)
               (address prev) (fd_credit_limit prev)
  | phone_input =>
    mkFormData (fd_full_name prev) (cpf prev) (Formatters.formatPhone value)
               (address prev) (fd_credit_limit prev)
  | address_input =>
    mkFormData (fd_full_name prev) (cpf prev) (phone prev) value
               (fd_credit_limit prev)
  end.

End Component.

(** [newReferences[index][field] = value] *)
Definition setField (field : ReferenceField) (value : string) (r : Reference) : Reference :=
  match field with
  | name_field => mkReference value (ref_phone r) (relationship r)
  | phone_field => mkReference (ref_name r) value (relationship r)
  | relationship_field => mkReference (ref_name r) (ref_phone r) value
  end.

(** [handleReferenceChange(index, field, value)]: the next state; an index
    past the end raises before the state is set. *)
Definition handleReferenceChange (index : nat) (field : ReferenceField) (value : string)
    (references : list Reference) : list Reference :=
  match references !! index with
  | Some r => <[index := setField field value r]> references
  | None => references
  end.

Definition addReference (references : list Reference) : list Reference :=
  references ++ [blankReference].

(** [removeReference(index)]: [splice(index, 1)] removes nothing past the
    end. *)
Definition removeReference (index : nat) (references : list Reference) : list Reference :=
  if (1 <? length references)%nat then delete index references else references.

End ClientForm.

(** ** Concrete inputs used by the examples *)

Module Sample.

(** Unsigned decimal integer literals, on which [parseInt] and [parseFloat]
    agree with this reading; any other string reads as NaN here. *)
Fixpoint digitsValue (s : string) (acc : Z) : option Z :=
  match s with
  | EmptyString => Some acc
  | String c rest =>
    if Formatters.isDigit c
    then digitsValue rest (10 * acc + (Z.of_nat (Ascii.nat_of_ascii c) - 48))
    else None
  end.

Definition parseInt (s : string) : option Z :=
  if String.eqb s "" then None else digitsValue s 0.

Definition parseFloat (s : string) : number :=
  LoanForm.weeks_number (parseInt s).






Definition maria : Client :=
  mkClient "c1" "Maria" (JS.of_Z 1000) (JS.of_Z 1000) true.

Definition db0 : Store := mkStore [maria] [] [].

(** The table holding the same client with 300 of credit left. *)
Definition db300 : Store :=
  mkStore [mkClient "c1" "Maria" (JS.of_Z 1000) (JS.of_Z 300) false] [] [].

(** A loan of 500 over 4 weeks, first installment due on day 10. *)
Definition loan1 : Loan :=
  mkLoan "L1" "u1" "c1" (JS.of_Z 500) (JS.of_Z 35) (JS.of_Z 675)
         (JS.div (JS.of_Z 675) (JS.of_Z 4)) 4 0 3 31 (Some 10) "active".

Definition db1 : Store := mkStore [maria] [loan1] [].



(** Week 1 of [loan1] registered twice, on day 12 and on day 10. *)
Definition paidDay12 : LoanPayment := mkPayment "P1" "L1" "u1" (JS.of_Z 100) 12 1.
Definition paidDay10 : LoanPayment := mkPayment "P2" "L1" "u1" (JS.of_Z 100) 10 1.

Definition dbTwice : Store := mkStore [maria] [loan1] [paidDay12; paidDay10].

End Sample.

(** ** Vocabulary of the statements *)

(** "Not below zero": what [x < 0] being false means; it holds of NaN. *)
Definition not_negative (x : number) : Prop := JS.lt x (JS.of_Z 0) = false.


(** Whether the payment being registered is the last one. *)
Definition completes (loan : Loan) : bool :=
  total_weeks loan <=? weeks_paid loan + 1.


(** What holds of an entry [(k, q)] of [uniquePayments] once the payments
    [ps] have been folded in: [q] is one of them, filed under its own key,
    and none of them under that key is dated before it. *)
Definition kept_ok (ps : list LoanPayment) (kq : WeekKey * LoanPayment) : Prop :=
  weekKey (snd kq) = fst kq /\
  In (snd kq) ps /\
  forall p, In p ps -> weekKey p = fst kq -> payment_date (snd kq) <= payment_date p.

(** The state of [uniquePayments] after the payments [ps]. *)
Definition dedup_inv (ps : list LoanPayment)
    (m : JSMap.t (K := WeekKey) (V := LoanPayment)) : Prop :=
  NoDup (JSMap.keys m) /\
  (forall kq, In kq m -> kept_ok ps kq) /\
  (forall p, In p ps -> exists q, JSMap.get m (weekKey p) = Some q).

(** The test of [loadMonthlyReports] that keeps the payments of a month. *)
Definition in_month (monthStart monthEnd : date) (payment : LoanPayment) : bool :=
  (monthStart <=? payment_date payment) && (payment_date payment <=? monthEnd).

(** The test of the cash-flow screen that files a loan under the active
    loans: status ["pending"] and something left to receive. *)
Definition cash_active (loan : JoinedLoan) : bool :=
  String.eqb (status (jl_loan loan)) "pending"
  && JS.gt (JS.sub (total_amount (jl_loan loan)) (totalPaid (jl_payments loan)))
           (JS.of_Z 0).

(** The [clients] table after the credit of a paid-off loan is given back
    on the per-client payments screen and on the loan lists: the principal
    is added to the available credit read, with no upper bound. *)
Definition added_back (clientId : string) (clientData : Client) (loan : Loan)
    (cs : list Client) : list Client :=
  map (fun c => if String.eqb (cl_id c) clientId
                then mkClient (cl_id c) (full_name c) (credit_limit c)
                       (JS.add (available_credit clientData) (loan_amount loan))
                       (is_first_loan c)
                else c) cs.

(** The rows of a table that do not belong to loan [id]. *)
Definition other_loans (id : string) (ls : list Loan) : list Loan :=
  List.filter (fun l => negb (String.eqb (ln_id l) id)) ls.
Definition other_payments (id : string) (ps : list LoanPayment) : list LoanPayment :=
  List.filter (fun p => negb (String.eqb (loan_id p) id)) ps.

(** A fetched loan once one more payment of it is in the table. *)
Definition with_payment (loan : JoinedLoan) (p : LoanPayment) : JoinedLoan :=
  mkJoined (jl_loan loan) (jl_client_name loan) (jl_payments loan ++ [p]).

(** The week numbers 1 to [n]. *)
Definition weeks_upto (n : nat) : list Z :=
  map (fun i : nat => Z.of_nat i + 1) (seq 0 n).

(** The payments of a loan in the store, and the loan row joined with them,
    as the nested select of the loan list returns it. *)
Definition payments_of (id : string) (db : Store) : list LoanPayment :=
  List.filter (fun p => String.eqb (loan_id p) id) (loan_payments db).
Definition joined_from (db : Store) (l : Loan) (name : option string) : JoinedLoan :=
  mkJoined l name (payments_of (ln_id l) db).

(** The columns that the loan list does not recompute. *)
Definition same_terms (l l' : Loan) : Prop :=
  ln_id l' = ln_id l /\ ln_user_id l' = ln_user_id l /\ client_id l' = client_id l /\
  loan_amount l' = loan_amount l /\ interest_rate l' = interest_rate l /\
  total_amount l' = total_amount l /\ weekly_payment l' = weekly_payment l /\
  total_weeks l' = total_weeks l /\ loan_date l' = loan_date l /\
  due_date l' = due_date l.

Module SyncSpec.

(** The loan row stored under an id. *)
Definition stored (id : string) (db : Store) : option Loan :=
  List.find (fun l => String.eqb (ln_id l) id) (loans db).

(** The number of distinct weeks paid of a fetched loan. *)
Definition actual (j : JoinedLoan) : Z :=
  Z.of_nat (size (LoanList.uniqueWeeks (map week_number (jl_payments j)))).

(** A fetched loan agrees with its payments: [weeks_paid] is the number of
    distinct weeks, and the status is ["completed"] exactly when that number
    reaches [total_weeks]. *)
Definition synced (j : JoinedLoan) : bool :=
  (weeks_paid (jl_loan j) =? actual j)
  && Bool.eqb (String.eqb (status (jl_loan j)) "completed")
              (total_weeks (jl_loan j) <=? actual j).

(** The same fetch once more: the row now stored, with the same payments. *)
Definition refetched (db : Store) (j : JoinedLoan) : JoinedLoan :=
  mkJoined (match stored (ln_id (jl_loan j)) db with
            | Some l => l
            | None => jl_loan j
            end)
           (jl_client_name j) (jl_payments j).

(** What one iteration of [syncLoanStatus] makes of the row it updates. *)
Definition repaired (j : JoinedLoan) (l : Loan) : Loan :=
  if synced j then l
  else patch_loan (actual j)
         (if total_weeks (jl_loan j) <=? actual j then "completed" else "pending")
         (if total_weeks (jl_loan j) <=? actual j then None
          else next_payment_date (jl_loan j)) l.

End SyncSpec.

Module ReportSpec.
Import Reports.






End ReportSpec.

(** The CPF and phone fields of the client form hold masked text that
    fits their inputs ([maxLength] 14 and 15). *)
Definition well_masked (s : ClientForm.FormData) : Prop :=
  Formatters.formatCPF (ClientForm.cpf s) = ClientForm.cpf s /\
  Formatters.formatPhone (ClientForm.phone s) = ClientForm.phone s /\
  (String.length (ClientForm.cpf s) <= 14)%nat /\
  (String.length (ClientForm.phone s) <= 15)%nat.

Module LogSpec.
Import ActivityLogger.

(** The tests of [getLogs] on one entry, all at once: an absent or empty
    text field, and an absent type or date, let every entry through. *)
Definition matches (toLowerCase : string -> string) (parseDate : string -> option Z)
    (f : LogFilter) (log : ActivityLog) : bool :=
  match f_user f with
  | Some u => String.eqb u "" || includes (toLowerCase (user log)) (toLowerCase u)
  | None => true
  end
  && match f_type f with
     | Some ty => bool_decide (type log = ty)
     | None => true
     end
  && match f_entity f with
     | Some e => String.eqb e "" || includes (toLowerCase (entity log)) (toLowerCase e)
     | None => true
     end
  && match f_startDate f with
     | Some startDate => date_ge (parseDate (timestamp log)) startDate
     | None => true
     end
  && match f_endDate f with
     | Some endDate => date_le (parseDate (timestamp log)) endDate
     | None => true
     end.

(** The cut [getLogs] makes for a [limit]: none when it is absent or 0. *)
Definition cut (limit : option Z) (l : list ActivityLog) : list ActivityLog :=
  match limit with
  | Some n => if n =? 0 then l else slice_to l n
  | None => l
  end.

(** The number of entries of a type. *)
Definition count_type (ty : LogType) (l : list ActivityLog) : nat :=
  length (List.filter (fun log => bool_decide (type log = ty)) l).

(** The count held under a key of [byType], 0 when the key is absent. *)
Definition held (m : JSMap.t (K := LogType) (V := nat)) (k : LogType) : nat :=
  match JSMap.get m k with Some n => n | None => 0%nat end.

(** The state of [byType] once the entries [l] have been counted. *)
Definition counted (l : list ActivityLog) (m : JSMap.t (K := LogType) (V := nat)) : Prop :=
  NoDup (JSMap.keys m) /\
  (forall ty, JSMap.get m ty =
              if decide (count_type ty l = 0%nat) then None
              else Some (count_type ty l)) /\
  list_sum (JSMap.values m) = length l.

(** Whether an entry is not older than an instant. *)
Definition recent (parseDate : string -> option Z) (cutoff : Z) (log : ActivityLog) : bool :=
  date_ge (parseDate (timestamp log)) (Some cutoff).

End LogSpec.

Module FormatSpec.
Import Formatters.

(** The mask applied to the digits. *)
Definition mask (cpf : string) : string :=
  if (String.length cpf <=? 3)%nat then cpf
  else if (String.length cpf <=? 6)%nat then
    slice cpf 0 3 +:+ "." +:+ sliceFrom cpf 3
  else if (String.length cpf <=? 9)%nat then
    slice cpf 0 3 +:+ "." +:+ slice cpf 3 6 +:+ "." +:+ sliceFrom cpf 6
  else
    slice cpf 0 3 +:+ "." +:+ slice cpf 3 6 +:+ "." +:+ slice cpf 6 9
      +:+ "-" +:+ slice cpf 9 11.

(** The mask [formatPhone] applies to the digits. *)
Definition phoneMask (phone : string) : string :=
  if (String.length phone <=? 2)%nat then
    if (String.length phone =? 0)%nat then phone else "(" +:+ phone
  else if (String.length phone <=? 7)%nat then
    "(" +:+ slice phone 0 2 +:+ ") " +:+ sliceFrom phone 2
  else
    "(" +:+ slice phone 0 2 +:+ ") " +:+ slice phone 2 7
      +:+ "-" +:+ slice phone 7 11.

(** Every character of [s] is a digit. *)
Fixpoint all_digits (s : string) : Prop :=
  match s with
  | EmptyString => True
  | String c rest => isDigit c = true /\ all_digits rest
  end.

End FormatSpec.

Module CleanupSpec.
Import LoanList.

(** The character [c] occurs in [s]. *)
Fixpoint occurs (c : ascii) (s : string) : Prop :=
  match s with
  | EmptyString => False
  | String c' rest => c' = c \/ occurs c rest
  end.

(** The payment is filed under the key [k]. *)
Definition same_key (k : string) (p : LoanPayment) : bool :=
  String.eqb (groupKey p) k.

(** Membership in the group of loan [lid] and week [w]. *)
Definition in_group (lid : string) (w : Z) (p : LoanPayment) : bool :=
  String.eqb (loan_id p) lid && (week_number p =? w).

(** The state of [paymentGroups] after the payments [ps]: each key holds,
    in fetch order, the payments filed under it. *)
Definition group_inv (ps : list LoanPayment)
    (m : JSMap.t (K := string) (V := list LoanPayment)) : Prop :=
  NoDup (JSMap.keys m) /\
  (forall kg, In kg m ->
              snd kg = List.filter (same_key (fst kg)) ps /\ snd kg <> []) /\
  (forall p, In p ps -> exists g, JSMap.get m (groupKey p) = Some g).

(** The payments handed to [delete], in the order of the calls. *)
Definition doomed (groups : JSMap.t (K := string) (V := list LoanPayment))
  : list LoanPayment :=
  concat (map (fun kg => toDelete (snd kg)) groups).

(** A row survives the deletes of [D] when none of them names its id. *)
Definition keep (D : list LoanPayment) (p : LoanPayment) : bool :=
  negb (existsb (fun d => String.eqb (p_id p) (p_id d)) D).

(** The payments of the select come sorted by [payment_date]. *)
Fixpoint ascending (ps : list LoanPayment) : bool :=
  match ps with
  | [] => true
  | p :: rest =>
    forallb (fun q => payment_date p <=? payment_date q) rest && ascending rest
  end.

End CleanupSpec.

(** * Properties *)

(** ** Loan creation *)

Section LoanFormFacts.

Variable parseFloat : string -> number.
Variable parseInt : string -> option Z.
Variable clientsProp : list Client.
Variable selectedClientId loanAmountField totalWeeksField : string.

Let submit := LoanForm.handleSubmit parseFloat parseInt clientsProp
                selectedClientId loanAmountField totalWeeksField.
Let details := LoanForm.calculateLoanDetails parseFloat parseInt clientsProp
                selectedClientId loanAmountField totalWeeksField.

Lemma calculateLoanDetails_fields d :
  details = Some d ->
  LoanForm.loanAmount d = parseFloat loanAmountField /\
  LoanForm.interestRate d = JS.of_Z 35 /\
  LoanForm.totalAmount d =
    JS.mul (LoanForm.loanAmount d)
           (JS.add (JS.of_Z 1) (JS.div (LoanForm.interestRate d) (JS.of_Z 100))) /\
  LoanForm.weeklyPayment d =
    JS.div (LoanForm.totalAmount d) (LoanForm.weeks_number (LoanForm.weeks d)).
Proof.
  unfold details, LoanForm.calculateLoanDetails.
  destruct (LoanForm.selectedClient _ _) as [c|]; [|discriminate].
  destruct (String.eqb loanAmountField ""); [discriminate|].
  intros [= <-]. simpl. auto.
Qed.

(** What a run of [handleSubmit] can do to the [loans] table: nothing, or
    append one row built from the computed details. *)
Lemma handleSubmit_loans user today newId loanError clientError db :
  loans (fst (submit user today newId loanError clientError db)) = loans db \/
  exists uid d w,
    user = Some uid /\ details = Some d /\ LoanForm.weeks d = Some w /\
    loanError = None /\
    loans (fst (submit user today newId loanError clientError db)) =
      loans db ++
      [mkLoan newId uid selectedClientId (LoanForm.loanAmount d)
              (LoanForm.interestRate d) (LoanForm.totalAmount d)
              (LoanForm.weeklyPayment d) w 0 today (addDays today (w * 7))
              (Some (addDays today 7)) "active"].
Proof.
  unfold submit, LoanForm.handleSubmit, LoanForm.loanDetails. fold details.
  destruct user as [uid|]; [|by left].
  destruct (LoanForm.selectedClient _ _) as [c|]; [|by left].
  destruct details as [d|] eqn:Hd; [|by left].
  destruct (JS.gt _ _); [by left|].
  destruct (LoanForm.weeks d) as [w|] eqn:Hw; [|by left].
  destruct loanError; [by left|].
  right. exists uid, d, w. repeat split; try done.
  by destruct clientError.
Qed.

End LoanFormFacts.

(** A submission that gets as far as a successful insert: what it returns. *)
Lemma handleSubmit_success pf pi cs sel amt wks uid today newId clientError db client w :
  LoanForm.selectedClient cs sel = Some client ->
  amt <> "" ->
  pi wks = Some w ->
  JS.gt (pf amt) (available_credit client) = false ->
  let total := JS.mul (pf amt) (JS.add (JS.of_Z 1) (JS.div (JS.of_Z 35) (JS.of_Z 100))) in
  let row := mkLoan newId uid sel (pf amt) (JS.of_Z 35) total (JS.div total (JS.of_Z w))
                    w 0 today (addDays today (w * 7)) (Some (addDays today 7))
                    "active" in
  LoanForm.handleSubmit pf pi cs sel amt wks (Some uid) today newId None clientError db =
    match clientError with
    | Some _ => (insert_loan row db, [mkToast "Erro ao criar empréstimo" destructive])
    | None =>
      (update_client sel
         (set_available_credit (JS.sub (available_credit client) (pf amt)) (Some false))
         (insert_loan row db),
       [mkToast "Empréstimo criado!" plain])
    end.
Proof.
  intros Hsel Hamt Hw Hgt total row.
  unfold LoanForm.handleSubmit, LoanForm.loanDetails, LoanForm.calculateLoanDetails.
  rewrite Hsel. apply String.eqb_neq in Hamt. rewrite Hamt.
  cbn [LoanForm.loanAmount LoanForm.weeks LoanForm.interestRate LoanForm.totalAmount
       LoanForm.weeklyPayment].
  rewrite Hgt, Hw. by destruct clientError.
Qed.





Section LoanSimulatorFacts.

Variable clientsState : list Client.
Variable selectedClientId : string.
Variable loanAmountState totalAmountState : number.
Variable totalWeeks : Z.
Variable firstPaymentDate : date.

Let create := LoanSimulator.handleLoanCreation clientsState selectedClientId
                loanAmountState totalAmountState totalWeeks firstPaymentDate.
Let details := LoanSimulator.calculateLoanDetails clientsState selectedClientId
                loanAmountState totalAmountState totalWeeks firstPaymentDate.


Lemma handleLoanCreation_loans user today newId loanError creditError db :
  loans (fst (create user today newId loanError creditError db)) = loans db \/
  exists uid d,
    user = Some uid /\ details = Some d /\ loanError = None /\
    loans (fst (create user today newId loanError creditError db)) =
      loans db ++
      [mkLoan newId uid selectedClientId (LoanSimulator.loanAmount d)
              (LoanSimulator.interestRate d) (LoanSimulator.totalAmount d)
              (LoanSimulator.weeklyPayment d) (LoanSimulator.weeks d) 0 today
              (addWeeks firstPaymentDate (totalWeeks - 1))
              (Some firstPaymentDate) "pending"].
Proof.
  unfold create, LoanSimulator.handleLoanCreation, LoanSimulator.loanDetails.
  fold details.
  destruct user as [uid|]; [|by left].
  destruct (LoanSimulator.selectedClient _ _) as [c|]; [|by left].
  destruct details as [d|] eqn:Hd; [|by left].
  destruct (JS.gt _ _); [by left|].
  destruct loanError; [by left|].
  right. exists uid, d. repeat split; try done.
  by destruct creditError.
Qed.



End LoanSimulatorFacts.


(** ** Payment registration: what each screen writes *)

Ltac break_match :=
  match goal with
  | |- context [match ?x with _ => _ end] => destruct x eqn:?
  end.

Lemma registerPayment_payments user loansState clientId loanId today newId e1 e2 e3 e4 db :
  let db' := fst (LoanPayments.registerPayment user loansState clientId loanId
                    today newId e1 e2 e3 e4 db) in
  loan_payments db' = loan_payments db \/
  exists uid loan,
    user = Some uid /\
    List.find (fun l => String.eqb (ln_id l) loanId) loansState = Some loan /\
    loan_payments db' =
      loan_payments db ++
      [mkPayment newId loanId uid (weekly_payment loan) today (weeks_paid loan + 1)].
Proof.
  unfold LoanPayments.registerPayment.
  destruct user as [uid|]; [|by left].
  destruct (List.find _ loansState) as [loan|]; [|by left].
  destruct e1; [by left|]. destruct e2; [by left|].
  right. exists uid, loan. repeat split.
  repeat break_match; reflexivity.
Qed.




(** A creation in the simulator that gets as far as a successful insert:
    what it returns. *)
Lemma handleLoanCreation_success cs sel amount total wks fpd uid today newId
    creditError db client :
  LoanSimulator.selectedClient cs sel = Some client ->
  JS.gt amount (available_credit client) = false ->
  let rate :=
    if JS.gt amount (JS.of_Z 0)
    then JS.mul (JS.div (JS.sub total amount) amount) (JS.of_Z 100)
    else JS.of_Z 0 in
  let row := mkLoan newId uid sel amount rate total (JS.div total (JS.of_Z wks))
                    wks 0 today (addWeeks fpd (wks - 1)) (Some fpd) "pending" in
  LoanSimulator.handleLoanCreation cs sel amount total wks fpd (Some uid) today newId
    None creditError db =
    match creditError with
    | Some _ => (insert_loan row db, [mkToast "Erro ao criar empréstimo" destructive])
    | None =>
      (update_client sel
         (set_available_credit (JS.sub (available_credit client) amount) (Some false))
         (insert_loan row db),
       [mkToast "Empréstimo aprovado!" plain])
    end.
Proof.
  intros Hsel Hgt rate row.
  unfold LoanSimulator.handleLoanCreation, LoanSimulator.loanDetails,
    LoanSimulator.calculateLoanDetails.
  rewrite Hsel.
  cbn [LoanSimulator.loanAmount LoanSimulator.interestRate LoanSimulator.totalAmount
       LoanSimulator.weeklyPayment LoanSimulator.weeks].
  rewrite Hgt. by destruct creditError.
Qed.





(** ** Facts about numbers *)

Module NumberFacts.

Lemma digits2_pos_bounds m :
  2 ^ (Z.pos (digits2_pos m) - 1) <= Z.pos m < 2 ^ Z.pos (digits2_pos m).
Proof.
  induction m as [p IH|p IH|]; simpl digits2_pos.
  - rewrite Pos2Z.inj_succ.
    replace (Z.succ (Z.pos (digits2_pos p)) - 1) with (Z.succ (Z.pos (digits2_pos p) - 1)) by lia.
    rewrite !Z.pow_succ_r by lia. lia.
  - rewrite Pos2Z.inj_succ.
    replace (Z.succ (Z.pos (digits2_pos p)) - 1) with (Z.succ (Z.pos (digits2_pos p) - 1)) by lia.
    rewrite !Z.pow_succ_r by lia. lia.
  - simpl. lia.
Qed.

Lemma iter_xO_value m d : Z.pos (Pos.iter xO m d) = Z.pos m * 2 ^ Z.pos d.
Proof.
  induction d as [|d IH] using Pos.peano_ind.
  - simpl. lia.
  - rewrite Pos.iter_succ, Pos2Z.inj_xO, IH, Pos2Z.inj_succ, Z.pow_succ_r by lia. lia.
Qed.

Lemma shl_align_value m e e' :
  e' <= e -> Z.pos (fst (shl_align m e e')) = Z.pos m * 2 ^ (e - e').
Proof.
  intros Hle. unfold shl_align.
  destruct (e' - e) as [|d|d] eqn:Hd; try lia; simpl.
  - replace (e - e') with 0 by lia. lia.
  - rewrite iter_xO_value. f_equal. f_equal. lia.
Qed.

(** The canonical form of binary64 values: below the least exponent the
    mantissa has at most 53 bits, above it exactly 53. *)
Lemma canonical_cases m e :
  canonical_mantissa JS.prec JS.emax m e = true ->
  Z.pos m < 2 ^ JS.prec /\
  emin JS.prec JS.emax <= e /\
  (emin JS.prec JS.emax < e -> 2 ^ (JS.prec - 1) <= Z.pos m).
Proof.
  unfold canonical_mantissa, fexp. intros H%Z.eqb_eq.
  pose proof (digits2_pos_bounds m) as [Hlo Hhi].
  assert (Hd : Z.pos (digits2_pos m) <= JS.prec) by lia.
  repeat split.
  - eapply Z.lt_le_trans; [exact Hhi|]. apply Z.pow_le_mono_r; lia.
  - lia.
  - intros He. assert (Z.pos (digits2_pos m) = JS.prec) as <- by lia. exact Hlo.
Qed.

(** Magnitudes of two canonical finite values, aligned on the smaller
    exponent, are ordered as exponent-then-mantissa comparison says. *)
Lemma aligned_order mx ex my ey :
  canonical_mantissa JS.prec JS.emax mx ex = true ->
  canonical_mantissa JS.prec JS.emax my ey = true ->
  let ez := Z.min ex ey in
  let X := Z.pos (fst (shl_align mx ex ez)) in
  let Y := Z.pos (fst (shl_align my ey ez)) in
  match (match ex ?= ey with
         | Lt => Lt | Gt => Gt | Eq => Pos.compare_cont Eq mx my end) with
  | Lt => X < Y
  | Eq => X = Y
  | Gt => Y < X
  end.
Proof.
  intros Hx Hy ez X Y. subst X Y.
  rewrite !shl_align_value by (subst ez; lia).
  apply canonical_cases in Hx as (Hxhi & Hxe & Hxlo).
  apply canonical_cases in Hy as (Hyhi & Hye & Hylo).
  destruct (Z.compare_spec ex ey) as [->|Hlt|Hgt].
  - subst ez. rewrite Z.min_id, Z.sub_diag, !Z.mul_1_r.
    change (Pos.compare_cont Eq mx my) with (Pos.compare mx my).
    destruct (Pos.compare_spec mx my); subst; lia.
  - subst ez. rewrite Z.min_l by lia. rewrite Z.sub_diag, Z.mul_1_r.
    specialize (Hylo ltac:(lia)).
    assert (2 ^ 1 <= 2 ^ (ey - ex)) by (apply Z.pow_le_mono_r; lia).
    assert (2 ^ JS.prec = 2 ^ (JS.prec - 1) * 2 ^ 1) as Hp
      by (rewrite <- Z.pow_add_r by (unfold JS.prec; lia); f_equal; lia).
    nia.
  - subst ez. rewrite Z.min_r by lia. rewrite Z.sub_diag, Z.mul_1_r.
    specialize (Hxlo ltac:(lia)).
    assert (2 ^ 1 <= 2 ^ (ex - ey)) by (apply Z.pow_le_mono_r; lia).
    assert (2 ^ JS.prec = 2 ^ (JS.prec - 1) * 2 ^ 1) as Hp
      by (rewrite <- Z.pow_add_r by (unfold JS.prec; lia); f_equal; lia).
    nia.
Qed.

Lemma binary_round_aux_pos_not_negative m e l :
  not_negative (binary_round_aux JS.prec JS.emax false m e l).
Proof.
  unfold not_negative, binary_round_aux.
  destruct (shr_fexp _ _ m e l) as [mrs e'].
  destruct (shr_fexp _ _ _ e' loc_Exact) as [mrs' e''].
  destruct (shr_m mrs'); [reflexivity| |reflexivity].
  destruct (e'' <=? _); reflexivity.
Qed.

Lemma binary_normalize_not_negative m e :
  0 <= m -> not_negative (binary_normalize JS.prec JS.emax m e false).
Proof.
  intros Hm. destruct m as [|p|p]; [reflexivity| |lia].
  unfold binary_normalize, binary_round.
  destruct (shl_align _ _ _) as [mz ez].
  apply binary_round_aux_pos_not_negative.
Qed.

(** [x - y] is not below zero when [y > x] is false. *)
Lemma sub_not_negative x y :
  JS.valid x -> JS.valid y -> JS.gt y x = false ->
  not_negative (JS.sub x y).
Proof.
  unfold JS.valid, JS.gt, SFltb, JS.sub.
  intros Hx Hy Hcmp.
  destruct x as [sx|sx| |sx mx ex], y as [sy|sy| |sy my ey];
    try reflexivity;
    try (destruct sx; try reflexivity; destruct sy; try reflexivity; discriminate);
    try (destruct sx; try reflexivity; discriminate);
    try (destruct sy; try reflexivity; discriminate).
  simpl in Hx, Hy. unfold bounded in Hx, Hy.
  apply andb_prop in Hx as [Hx _]. apply andb_prop in Hy as [Hy _].
  pose proof (aligned_order mx ex my ey Hx Hy) as Hord. simpl in Hord.
  unfold SFsub. apply binary_normalize_not_negative.
  unfold SFcompare in Hcmp.
  destruct sx, sy; simpl cond_Zopp; try discriminate; try lia.
  - destruct (ex ?= ey); [destruct (Pos.compare_cont Eq mx my)|..];
      simpl in Hcmp; try discriminate; lia.
  - destruct (ex ?= ey); [destruct (Pos.compare_cont Eq mx my)|..];
      simpl in Hcmp; try discriminate; lia.
Qed.

(** [<] is asymmetric. *)
Lemma SFltb_asym x y : SFltb x y = true -> SFltb y x = false.
Proof.
  unfold SFltb, SFcompare.
  destruct x as [sx|sx| |sx mx ex], y as [sy|sy| |sy my ey];
    try discriminate; try reflexivity;
    try (destruct sx; try discriminate; destruct sy; try discriminate; reflexivity);
    try (destruct sx; try discriminate; reflexivity);
    try (destruct sy; try discriminate; reflexivity).
  destruct sx, sy; try discriminate; try reflexivity.
  - rewrite (Z.compare_antisym ex ey).
    destruct (ex ?= ey) eqn:He; simpl; try discriminate; try reflexivity.
    change (Pos.compare_cont Eq mx my) with (Pos.compare mx my).
    change (Pos.compare_cont Eq my mx) with (Pos.compare my mx).
    rewrite (Pos.compare_antisym mx my).
    destruct (Pos.compare mx my); simpl; try discriminate; reflexivity.
  - rewrite (Z.compare_antisym ex ey).
    destruct (ex ?= ey) eqn:He; simpl; try discriminate; try reflexivity.
    change (Pos.compare_cont Eq mx my) with (Pos.compare mx my).
    change (Pos.compare_cont Eq my mx) with (Pos.compare my mx).
    rewrite (Pos.compare_antisym mx my).
    destruct (Pos.compare mx my); simpl; try discriminate; reflexivity.
Qed.

Lemma SFltb_irrefl x : SFltb x x = false.
Proof.
  destruct (SFltb x x) eqn:H; [|reflexivity].
  by rewrite (SFltb_asym _ _ H) in H.
Qed.

(** [Math.min(x, y)] is never above [y]. *)
Lemma Math_min_not_above x y : JS.gt (JS.Math_min x y) y = false.
Proof.
  unfold JS.gt.
  assert (Hgen : SFltb y (if SFltb y x then y else x) = false).
  { destruct (SFltb y x) eqn:H; [apply SFltb_irrefl|exact H]. }
  destruct x as [sx|sx| |sx mx ex], y as [sy|sy| |sy my ey];
    try exact Hgen; reflexivity.
Qed.

End NumberFacts.

(** ** Credit guard at loan creation *)

(** What a [DECIMAL] column holds for a number not below zero is not below
    zero. *)
Lemma scaled_not_negative k m e : 0 <= k -> 0 <= Decimal.scaled k m e.
Proof.
  intros Hk. unfold Decimal.scaled. destruct (0 <=? e) eqn:He.
  - apply Z.leb_le in He. assert (0 <= 2 ^ e) by (apply Z.pow_nonneg; lia). nia.
  - apply Z.leb_gt in He.
    assert (0 < 2 ^ (- e)) by (apply Z.pow_pos_nonneg; lia).
    assert (0 < 2 ^ (- e + 1)) by (apply Z.pow_pos_nonneg; lia).
    apply Z.div_pos; nia.
Qed.

Lemma cents_not_negative m e : 0 <= Decimal.cents m e.
Proof.
  unfold Decimal.cents.
  pose proof (scaled_not_negative 1000 m e ltac:(lia)).
  pose proof (scaled_not_negative 100 m e ltac:(lia)).
  destruct (SFeqb _ _); [apply Z.div_pos; lia|done].
Qed.

Lemma binary_round_aux_pos_sign m e l :
  match binary_round_aux JS.prec JS.emax false m e l with
  | S754_zero s | S754_infinity s | S754_finite s _ _ => s = false
  | S754_nan => True
  end.
Proof.
  unfold binary_round_aux.
  destruct (shr_fexp _ _ m e l) as [mrs e'].
  destruct (shr_fexp _ _ _ e' loc_Exact) as [mrs' e''].
  destruct (shr_m mrs'); [reflexivity| |exact I].
  destruct (e'' <=? _); reflexivity.
Qed.

Lemma cents_value_not_negative q :
  0 <= q -> not_negative (JS.div (JS.of_Z q) (JS.of_Z 100)).
Proof.
  intros Hq. set (h := JS.of_Z 100). vm_compute in h. subst h.
  destruct q as [|q|q]; [reflexivity| |lia].
  unfold JS.of_Z, binary_normalize, binary_round.
  destruct (shl_align _ _ _) as [mz ez].
  pose proof (binary_round_aux_pos_sign (Z.pos mz) ez loc_Exact) as Hs.
  destruct (binary_round_aux _ _ false (Z.pos mz) ez loc_Exact) as [s|s| |s mx ex];
    try subst s; try reflexivity.
  unfold JS.div, SFdiv.
  destruct (SFdiv_core_binary _ _ _ _ _ _) as [[mq eq] lq].
  apply NumberFacts.binary_round_aux_pos_not_negative.
Qed.

Lemma decimal_not_negative p x y :
  not_negative x -> Decimal.decimal p x = Some y -> not_negative y.
Proof.
  destruct x as [s|s| |s m e]; try discriminate.
  - by intros _ [= <-].
  - intros Hx. simpl. destruct (10 ^ p <=? _); [discriminate|]. intros [= <-].
    destruct s; [by destruct m|].
    apply cents_value_not_negative, cents_not_negative.
Qed.

(** The client rows after the credit update of a created loan: a row is an
    old one, or holds a credit that is not below zero, as sent and as the
    column rounds it. *)
Lemma debit_rows_not_negative sel client amount cs c' :
  JS.valid (available_credit client) -> JS.valid amount ->
  JS.gt amount (available_credit client) = false ->
  In c' (map (fun c => if String.eqb (cl_id c) sel
                       then set_available_credit
                              (JS.sub (available_credit client) amount) (Some false) c
                       else c) cs) ->
  In c' cs \/
  (not_negative (available_credit c') /\
   forall held, Decimal.decimal 10 (available_credit c') = Some held ->
                not_negative held).
Proof.
  intros Hv1 Hv2 Hgt. rewrite in_map_iff.
  intros (c & <- & Hc). destruct (String.eqb (cl_id c) sel); [|by left].
  right. simpl.
  assert (Hn : not_negative (JS.sub (available_credit client) amount))
    by by apply NumberFacts.sub_not_negative.
  split; [exact Hn|]. intros held. by apply decimal_not_negative.
Qed.

(** C5, as stated, fails when the credit the screen holds is not the stored
    one, and when the second remote call is refused.  The screen holds the
    client with 1000 of credit while the table holds 300: a request of 500,
    above the stored credit, is granted, and the stored credit becomes
    1000 - 500 = 500, in the form and in the simulator.  And with the stored
    credit at 1000, a request of 350 whose credit update is refused leaves
    the loan inserted and the credit at 1000. *)
Lemma C5_stale_credit_counterexample :
  available_credit Sample.maria = JS.of_Z 1000 /\
  map available_credit (clients Sample.db300) = [JS.of_Z 300] /\
  JS.gt (Sample.parseFloat "500") (JS.of_Z 300) = true /\
  map loan_amount
      (loans (fst (LoanForm.handleSubmit Sample.parseFloat Sample.parseInt
                     [Sample.maria] "c1" "500" "4" (Some "u1") 0 "L1" None None
                     Sample.db300))) = [JS.of_Z 500] /\
  map available_credit
      (clients (fst (LoanForm.handleSubmit Sample.parseFloat Sample.parseInt
                       [Sample.maria] "c1" "500" "4" (Some "u1") 0 "L1" None None
                       Sample.db300))) = [JS.of_Z 500] /\
  map available_credit
      (clients (fst (LoanSimulator.handleLoanCreation [Sample.maria] "c1"
                       (JS.of_Z 500) (JS.of_Z 675) 4 7 (Some "u1") 0 "L1" None None
                       Sample.db300))) = [JS.of_Z 500] /\
  map loan_amount
      (loans (fst (LoanForm.handleSubmit Sample.parseFloat Sample.parseInt
                     [Sample.maria] "c1" "350" "4" (Some "u1") 0 "L1" None
                     (Some "denied") Sample.db0))) = [JS.of_Z 350] /\
  map available_credit
      (clients (fst (LoanForm.handleSubmit Sample.parseFloat Sample.parseInt
                       [Sample.maria] "c1" "350" "4" (Some "u1") 0 "L1" None
                       (Some "denied") Sample.db0))) = [JS.of_Z 1000].
Proof. repeat apply conj; vm_compute; reflexivity. Qed.

(** C5 (amended).  In the loan form and in the simulator, for a signed-in
    user, with [client] the selected client as the screen holds it:
    (1) when the amount exceeds the [available_credit] of [client], the
        store is returned unchanged and the error toast is shown;
    (2) otherwise, when the weeks parse and both remote calls succeed, one
        loan row of that amount is appended, and the stored row of the
        selected client gets [available_credit] = the [available_credit] of
        [client] minus the amount (subtraction of doubles) and
        [is_first_loan] = false, its other fields and the other rows staying
        as they were; so the stored credit goes down by the amount when the
        stored row had the credit the screen holds;
    (3) whatever the replies, a client row of the resulting store is a row
        of the store before or has an [available_credit] that is not below
        zero, as sent and as its [DECIMAL(10,2)] column holds it. *)
Theorem C5_credit_guard_on_loan_creation :
  (forall parseFloat parseInt clientsProp sel amt wks uid today newId
          loanError clientError db client,
     LoanForm.selectedClient clientsProp sel = Some client ->
     amt <> "" ->
     let amount := parseFloat amt in
     let res := LoanForm.handleSubmit parseFloat parseInt clientsProp sel amt wks
                  (Some uid) today newId loanError clientError db in
     (JS.gt amount (available_credit client) = true ->
      res = (db, [mkToast "Erro" destructive])) /\
     (JS.gt amount (available_credit client) = false ->
      forall w, parseInt wks = Some w -> loanError = None -> clientError = None ->
      (exists row, loans (fst res) = loans db ++ [row] /\ loan_amount row = amount) /\
      clients (fst res) =
        map (fun c => if String.eqb (cl_id c) sel
                      then mkClient (cl_id c) (full_name c) (credit_limit c)
                                    (JS.sub (available_credit client) amount) false
                      else c) (clients db) /\
      (forall c, In c (clients db) -> cl_id c = sel ->
                 available_credit c = available_credit client ->
                 In (mkClient (cl_id c) (full_name c) (credit_limit c)
                              (JS.sub (available_credit c) amount) false)
                    (clients (fst res)))) /\
     (JS.valid (available_credit client) -> JS.valid amount ->
      forall c', In c' (clients (fst res)) ->
                 In c' (clients db) \/
                 (not_negative (available_credit c') /\
                  forall held, Decimal.decimal 10 (available_credit c') = Some held ->
                               not_negative held)))
  /\
  (forall clientsState sel amount total wks fpd uid today newId
          loanError creditError db client,
     LoanSimulator.selectedClient clientsState sel = Some client ->
     let res := LoanSimulator.handleLoanCreation clientsState sel amount total wks fpd
                  (Some uid) today newId loanError creditError db in
     (JS.gt amount (available_credit client) = true ->
      res = (db, [mkToast "Erro" destructive])) /\
     (JS.gt amount (available_credit client) = false ->
      loanError = None -> creditError = None ->
      (exists row, loans (fst res) = loans db ++ [row] /\ loan_amount row = amount) /\
      clients (fst res) =
        map (fun c => if String.eqb (cl_id c) sel
                      then mkClient (cl_id c) (full_name c) (credit_limit c)
                                    (JS.sub (available_credit client) amount) false
                      else c) (clients db) /\
      (forall c, In c (clients db) -> cl_id c = sel ->
                 available_credit c = available_credit client ->
                 In (mkClient (cl_id c) (full_name c) (credit_limit c)
                              (JS.sub (available_credit c) amount) false)
                    (clients (fst res)))) /\
     (JS.valid (available_credit client) -> JS.valid amount ->
      forall c', In c' (clients (fst res)) ->
                 In c' (clients db) \/
                 (not_negative (available_credit c') /\
                  forall held, Decimal.decimal 10 (available_credit c') = Some held ->
                               not_negative held))).
Proof.
  split.
  - intros pf pi cs sel amt wks uid today newId e1 e2 db client Hsel Hamt amount res.
    assert (Hne : String.eqb amt "" = false) by by apply String.eqb_neq.
    repeat apply conj.
    + intros Hgt. subst res amount.
      unfold LoanForm.handleSubmit, LoanForm.loanDetails, LoanForm.calculateLoanDetails.
      rewrite Hsel, Hne. cbn [LoanForm.loanAmount]. by rewrite Hgt.
    + intros Hgt w Hw -> ->. subst res amount.
      rewrite (handleSubmit_success pf pi cs sel amt wks uid today newId None db
                 client w) by done.
      cbn [fst update_client insert_loan loans clients].
      repeat apply conj.
      * by eexists.
      * reflexivity.
      * intros c Hc Hid Hcr. apply in_map_iff. exists c. split; [|exact Hc].
        apply String.eqb_eq in Hid. by rewrite Hid, Hcr.
    + intros Hv1 Hv2 c' Hc'. subst res amount.
      revert Hc'.
      unfold LoanForm.handleSubmit, LoanForm.loanDetails, LoanForm.calculateLoanDetails.
      rewrite Hsel, Hne. cbn [LoanForm.loanAmount LoanForm.weeks].
      destruct (JS.gt _ _) eqn:Hgt; [by left|].
      destruct (pi wks) as [w|]; [|by left].
      destruct e1; [by left|]. destruct e2; [by left|].
      cbn [fst update_client insert_loan clients]. intros Hc'.
      by eapply debit_rows_not_negative.
  - intros cs sel amount total wks fpd uid today newId e1 e2 db client Hsel res.
    repeat apply conj.
    + intros Hgt. subst res.
      unfold LoanSimulator.handleLoanCreation, LoanSimulator.loanDetails,
        LoanSimulator.calculateLoanDetails.
      rewrite Hsel. cbn [LoanSimulator.loanAmount]. by rewrite Hgt.
    + intros Hgt -> ->. subst res.
      rewrite (handleLoanCreation_success cs sel amount total wks fpd uid today newId
                 None db client) by done.
      cbn [fst update_client insert_loan loans clients].
      repeat apply conj.
      * by eexists.
      * reflexivity.
      * intros c Hc Hid Hcr. apply in_map_iff. exists c. split; [|exact Hc].
        apply String.eqb_eq in Hid. by rewrite Hid, Hcr.
    + intros Hv1 Hv2 c' Hc'. subst res. revert Hc'.
      unfold LoanSimulator.handleLoanCreation, LoanSimulator.loanDetails,
        LoanSimulator.calculateLoanDetails.
      rewrite Hsel. cbn [LoanSimulator.loanAmount].
      destruct (JS.gt _ _) eqn:Hgt; [by left|].
      destruct e1; [by left|]. destruct e2; [by left|].
      cbn [fst update_client insert_loan clients]. intros Hc'.
      by eapply debit_rows_not_negative.
Qed.

(** C5 (amended) at a client with 1000 of credit, held so by the screen and
    by the table: a request of 1500 is refused and changes nothing, a
    request of 350 is granted and leaves 650, in the form and in the
    simulator. *)
Lemma C5_credit_guard_witness :
  let form amt :=
    LoanForm.handleSubmit Sample.parseFloat Sample.parseInt [Sample.maria]
      "c1" amt "3" (Some "u1") 0 "L1" None None Sample.db0 in
  let simulator amount total :=
    LoanSimulator.handleLoanCreation [Sample.maria] "c1" amount total 3 7
      (Some "u1") 0 "L1" None None Sample.db0 in
  form "1500" = (Sample.db0, [mkToast "Erro" destructive]) /\
  simulator (JS.of_Z 1500) (JS.of_Z 2025) = (Sample.db0, [mkToast "Erro" destructive]) /\
  clients (fst (form "350"))
    = [mkClient "c1" "Maria" (JS.of_Z 1000) (JS.of_Z 650) false] /\
  clients (fst (simulator (JS.of_Z 350) (JS.of_Z 470)))
    = [mkClient "c1" "Maria" (JS.of_Z 1000) (JS.of_Z 650) false] /\
  (forall c', In c' (clients (fst (form "350"))) ->
              In c' (clients Sample.db0) \/
              (not_negative (available_credit c') /\
               forall held, Decimal.decimal 10 (available_credit c') = Some held ->
                            not_negative held)).
Proof.
  intros form simulator.
  assert (Hsel : LoanForm.selectedClient [Sample.maria] "c1" = Some Sample.maria)
    by reflexivity.
  assert (Hsel' : LoanSimulator.selectedClient [Sample.maria] "c1" = Some Sample.maria)
    by reflexivity.
  assert (Hgt1 : JS.gt (Sample.parseFloat "1500") (available_credit Sample.maria) = true)
    by (vm_compute; reflexivity).
  assert (Hgt2 : JS.gt (Sample.parseFloat "350") (available_credit Sample.maria) = false)
    by (vm_compute; reflexivity).
  assert (Hgt3 : JS.gt (JS.of_Z 1500) (available_credit Sample.maria) = true)
    by (vm_compute; reflexivity).
  assert (Hgt4 : JS.gt (JS.of_Z 350) (available_credit Sample.maria) = false)
    by (vm_compute; reflexivity).
  destruct (proj1 C5_credit_guard_on_loan_creation
              Sample.parseFloat Sample.parseInt [Sample.maria] "c1" "1500" "3"
              "u1" 0 "L1" None None Sample.db0 Sample.maria
              Hsel ltac:(discriminate)) as (Hreject & _ & _).
  destruct (proj1 C5_credit_guard_on_loan_creation
              Sample.parseFloat Sample.parseInt [Sample.maria] "c1" "350" "3"
              "u1" 0 "L1" None None Sample.db0 Sample.maria
              Hsel ltac:(discriminate)) as (_ & Haccept & Hsign).
  destruct (proj2 C5_credit_guard_on_loan_creation
              [Sample.maria] "c1" (JS.of_Z 1500) (JS.of_Z 2025) 3 7
              "u1" 0 "L1" None None Sample.db0 Sample.maria Hsel')
    as (Hreject' & _ & _).
  destruct (proj2 C5_credit_guard_on_loan_creation
              [Sample.maria] "c1" (JS.of_Z 350) (JS.of_Z 470) 3 7
              "u1" 0 "L1" None None Sample.db0 Sample.maria Hsel')
    as (_ & Haccept' & _).
  destruct (Haccept Hgt2 3 eq_refl eq_refl eq_refl) as (_ & Hclients & _).
  destruct (Haccept' Hgt4 eq_refl eq_refl) as (_ & Hclients' & _).
  repeat apply conj.
  - exact (Hreject Hgt1).
  - exact (Hreject' Hgt3).
  - subst form. cbv beta. rewrite Hclients. vm_compute. reflexivity.
  - subst simulator. cbv beta. rewrite Hclients'. vm_compute. reflexivity.
  - apply Hsign; vm_compute; reflexivity.
Defined.

(** ** Next payment date *)


(** One week later on the host's calendar, read back as a UTC day: seven
    days later unless the host's offset from UTC has grown meanwhile. *)
Lemma nextPaymentDateIn_days zone previous :
  let d := new_Date previous in
  let s := HostDate.shift zone (HostDate.parseDate d) 7 in
  (- HostDate.msPerDay < s <= 0 -> LoanPayments.nextPaymentDateIn zone previous = d + 7) /\
  (0 < s <= HostDate.msPerDay -> LoanPayments.nextPaymentDateIn zone previous = d + 6).
Proof.
  intros d s.
  assert (Heq : HostDate.addWeeks zone (HostDate.parseDate d) 1
                = d * HostDate.msPerDay + 7 * HostDate.msPerDay - s).
  { subst s. unfold HostDate.addWeeks, HostDate.addDays, HostDate.setDatePlus,
      HostDate.shift, HostDate.parseDate. change (1 * 7) with 7.
    change (7 =? 0) with false. cbv iota. lia. }
  unfold LoanPayments.nextPaymentDateIn, HostDate.isoDate. fold d. rewrite Heq.
  unfold HostDate.msPerDay in *. split; intros Hs; symmetry.
  - apply (Z.div_unique _ _ _ (- s)); lia.
  - apply (Z.div_unique _ _ _ (86400000 - s)); lia.
Qed.

(** Where the host's offset from UTC is the same a week later, the
    registration in that host's zone is the registration on day numbers. *)
Lemma registerPaymentIn_steady zone user loansState clientId loanId today newId
    e1 e2 e3 e4 db :
  (forall loan, In loan loansState ->
     HostDate.shift zone
       (HostDate.parseDate (new_Date (next_payment_date loan))) 7 = 0) ->
  LoanPayments.registerPaymentIn zone user loansState clientId loanId today newId
    e1 e2 e3 e4 db
  = LoanPayments.registerPayment user loansState clientId loanId today newId
      e1 e2 e3 e4 db.
Proof.
  intros Hsteady.
  unfold LoanPayments.registerPaymentIn, LoanPayments.registerPayment.
  destruct user as [uid|]; [|done].
  destruct (List.find _ loansState) as [loan|] eqn:Hfind; [|done].
  apply find_some in Hfind as [Hin _].
  destruct (nextPaymentDateIn_days zone (next_payment_date loan)) as [H7 _].
  rewrite (Hsteady loan Hin) in H7. rewrite H7 by (unfold HostDate.msPerDay; lia).
  unfold addWeeks, addDays. by rewrite Z.mul_1_l.
Qed.



(** ** No transaction around payment registration *)

(** C6, as stated, fails on the per-client payments screen, whose first call
    is the update of the loan and whose second is the insert: when the
    update fails no payment is inserted although the insert would have
    succeeded, and when the insert fails the loan row stays updated with no
    payment row behind it. *)
Lemma C6_call_order_counterexample :
  fst (LoanPayments.registerPayment (Some "u1") [Sample.loan1] "c1" "L1" 12 "P1"
         (Some "update failed") None None None Sample.db1) = Sample.db1 /\
  (let db' := fst (LoanPayments.registerPayment (Some "u1") [Sample.loan1] "c1" "L1"
                     12 "P1" None (Some "insert failed") None None Sample.db1) in
   loan_payments db' = [] /\
   map weeks_paid (loans db') = [1] /\
   map weeks_paid (loans Sample.db1) = [0]).
Proof. repeat apply conj; vm_compute; reflexivity. Qed.

(** C6 (amended).  Payment registration is two remote calls with nothing
    around them.  On the client-detail screen the insert into
    [loan_payments] comes first and the update of [loans] second; on the
    per-client payments screen the update comes first and the insert
    second.  On either screen, when the first call succeeds and the second
    fails the store keeps the effect of the first call and only that, and
    the error toast is shown; when the first call fails nothing is written. *)
Theorem C6_second_call_failure_keeps_first :
  (forall uid clientId loan today newId err e3 e4 db,
     LoanDetails.handleRegisterPayment (Some uid) clientId loan today newId
       None (Some err) e3 e4 db =
     (insert_payment
        (mkPayment newId (ln_id loan) uid (weekly_payment loan) today
                   (weeks_paid loan + 1)) db,
      [mkToast "Erro ao registrar pagamento" destructive]) /\
     LoanDetails.handleRegisterPayment (Some uid) clientId loan today newId
       (Some err) None e3 e4 db =
     (db, [mkToast "Erro ao registrar pagamento" destructive]))
  /\
  (forall uid loansState clientId loanId today newId err e3 e4 db,
     let res1 := LoanPayments.registerPayment (Some uid) loansState clientId loanId
                   today newId None (Some err) e3 e4 db in
     let res0 := LoanPayments.registerPayment (Some uid) loansState clientId loanId
                   today newId (Some err) None e3 e4 db in
     match List.find (fun l => String.eqb (ln_id l) loanId) loansState with
     | Some loan =>
       res1 =
         (update_loan loanId
            (patch_loan (weeks_paid loan + 1)
               (if completes loan then "completed" else "pending")
               (if completes loan then None
                else Some (addDays (new_Date (next_payment_date loan)) 7))) db,
          [mkToast "Erro ao registrar pagamento" destructive]) /\
       res0 = (db, [mkToast "Erro ao registrar pagamento" destructive])
     | None => res1 = (db, []) /\ res0 = (db, [])
     end).
Proof.
  split.
  - intros. split; reflexivity.
  - intros uid ls clientId loanId today newId err e3 e4 db res1 res0.
    subst res1 res0. unfold LoanPayments.registerPayment, completes, addWeeks.
    destruct (List.find _ ls) as [loan|]; [|split; reflexivity].
    rewrite Z.mul_1_l. split; reflexivity.
Qed.

(** ** Credit restored by the final payment *)

Lemma find_unique_client (cs : list Client) id cd c :
  NoDup (map cl_id cs) ->
  List.find (fun c => String.eqb (cl_id c) id) cs = Some cd ->
  In c cs -> cl_id c = id -> c = cd.
Proof.
  induction cs as [|x cs IH]; simpl; [done|].
  intros Hnd Hfind Hin Hid. apply NoDup_cons in Hnd as [Hx Hnd].
  destruct (String.eqb (cl_id x) id) eqn:Hxid.
  - injection Hfind as <-. apply String.eqb_eq in Hxid.
    destruct Hin as [<-|Hin]; [done|].
    exfalso. apply Hx. apply list_elem_of_In, in_map_iff. exists c. split; [congruence|done].
  - destruct Hin as [<-|Hin].
    + apply String.eqb_neq in Hxid. done.
    + by apply IH.
Qed.



(** ** Facts about [Map] *)

Module JSMapFacts.
Section Facts.
Context {K V : Type} `{EqDecision K}.
Implicit Types (m : JSMap.t (K := K) (V := V)) (k : K) (v : V).

Lemma get_set_eq m k v : JSMap.get (JSMap.set m k v) k = Some v.
Proof.
  induction m as [|[k' v'] m IH]; simpl.
  - by rewrite decide_True.
  - destruct (decide (k' = k)) as [->|Hne]; simpl.
    + by rewrite decide_True.
    + by rewrite decide_False.
Qed.

Lemma get_set_ne m k k' v : k <> k' -> JSMap.get (JSMap.set m k v) k' = JSMap.get m k'.
Proof.
  intros Hne. induction m as [|[k0 v0] m IH]; simpl.
  - by rewrite decide_False.
  - destruct (decide (k0 = k)) as [->|Hne0]; simpl.
    + by rewrite !decide_False.
    + destruct (decide (k0 = k')); [done|exact IH].
Qed.

Lemma get_None_keys m k : JSMap.get m k = None <-> ~ In k (JSMap.keys m).
Proof.
  induction m as [|[k' v'] m IH]; simpl; [tauto|].
  destruct (decide (k' = k)) as [->|Hne].
  - split; [discriminate|]. intros H0. exfalso. apply H0. by left.
  - rewrite IH. tauto.
Qed.

Lemma keys_set_present m k v v0 :
  JSMap.get m k = Some v0 -> JSMap.keys (JSMap.set m k v) = JSMap.keys m.
Proof.
  induction m as [|[k' v'] m IH]; simpl; [discriminate|].
  destruct (decide (k' = k)) as [->|Hne]; simpl; [done|].
  intros Hg. by rewrite IH.
Qed.

Lemma keys_set_absent m k v :
  JSMap.get m k = None -> JSMap.keys (JSMap.set m k v) = JSMap.keys m ++ [k].
Proof.
  induction m as [|[k' v'] m IH]; simpl; [done|].
  destruct (decide (k' = k)) as [->|Hne]; simpl; [discriminate|].
  intros Hg. by rewrite IH.
Qed.

Lemma NoDup_keys_set m k v :
  NoDup (JSMap.keys m) -> NoDup (JSMap.keys (JSMap.set m k v)).
Proof.
  intros Hnd. destruct (JSMap.get m k) as [v0|] eqn:Hg.
  - by rewrite (keys_set_present _ _ _ _ Hg).
  - rewrite (keys_set_absent _ _ _ Hg).
    apply NoDup_app. repeat split; [done| |apply NoDup_singleton].
    intros x Hx Hx'. apply list_elem_of_singleton in Hx'. subst x.
    apply get_None_keys in Hg. apply Hg. by apply list_elem_of_In.
Qed.


Lemma get_Some_in m k v : JSMap.get m k = Some v -> In (k, v) m.
Proof.
  induction m as [|[k' v'] m IH]; simpl; [discriminate|].
  destruct (decide (k' = k)) as [->|Hne].
  - intros [= ->]. by left.
  - intros Hg. right. by apply IH.
Qed.

Lemma in_get_Some m k v :
  NoDup (JSMap.keys m) -> In (k, v) m -> JSMap.get m k = Some v.
Proof.
  induction m as [|[k' v'] m IH]; simpl; [done|].
  intros Hnd Hin. apply NoDup_cons in Hnd as [Hk Hnd].
  destruct Hin as [[= -> ->]|Hin].
  - by rewrite decide_True.
  - destruct (decide (k' = k)) as [->|Hne]; [|by apply IH].
    exfalso. apply Hk. apply list_elem_of_In.
    change k with (fst (k, v)). by apply in_map.
Qed.

(** With distinct keys, [set] replaces the entry under [k] and only it. *)
Lemma in_set_NoDup m k v kv :
  NoDup (JSMap.keys m) ->
  In kv (JSMap.set m k v) -> kv = (k, v) \/ (fst kv <> k /\ In kv m).
Proof.
  induction m as [|[k0 v0] m IH]; simpl.
  - intros _ [<-|[]]. by left.
  - intros Hnd. apply NoDup_cons in Hnd as [Hk Hnd].
    destruct (decide (k0 = k)) as [->|Hne]; simpl.
    + intros [<-|Hin]; [by left|]. right. split; [|by right].
      intros Heq. apply Hk. apply list_elem_of_In. rewrite <- Heq. by apply in_map.
    + intros [<-|Hin]; [right; split; [done|by left]|].
      destruct (IH Hnd Hin) as [?|[? ?]]; [by left|]. right. split; [done|by right].
Qed.

End Facts.
End JSMapFacts.

(** ** De-duplication by week number *)

Lemma dedup_inv_step ps m p :
  dedup_inv ps m -> dedup_inv (ps ++ [p]) (dedupStep m p).
Proof.
  intros (Hnd & Hent & Hcov). unfold dedupStep.
  assert (Hmono : forall kq, kept_ok ps kq ->
            (weekKey p = fst kq -> payment_date (snd kq) <= payment_date p) ->
            kept_ok (ps ++ [p]) kq).
  { intros kq (Hk & Hin & Hmin) Hp. split; [done|split; [apply in_or_app; by left|]].
    intros p' Hp' Hkey. apply in_app_or in Hp' as [Hp'|[<-|[]]]; auto. }
  destruct (JSMap.get m (weekKey p)) as [q|] eqn:Hget.
  - pose proof (JSMapFacts.get_Some_in _ _ _ Hget) as Hq.
    destruct (Hent _ Hq) as (Hqk & Hqin & Hqmin). simpl in *.
    destruct (payment_date p <? payment_date q) eqn:Hlt.
    + apply Z.ltb_lt in Hlt. split; [|split].
      * by apply JSMapFacts.NoDup_keys_set.
      * intros kq Hkq.
        destruct (JSMapFacts.in_set_NoDup _ _ _ _ Hnd Hkq) as [->|[Hne Hkq']].
        -- split; [done|split; [apply in_or_app; right; by left|]]; simpl.
           intros p' Hp' Hkey. apply in_app_or in Hp' as [Hp'|[<-|[]]]; [|lia].
           specialize (Hqmin p' Hp' Hkey). lia.
        -- apply Hmono; [by apply Hent|]. intros Hkey. by destruct Hne.
      * intros p' Hp'.
        destruct (decide (weekKey p = weekKey p')) as [<-|Hne].
        -- eexists. apply JSMapFacts.get_set_eq.
        -- rewrite JSMapFacts.get_set_ne by done.
           apply in_app_or in Hp' as [Hp'|[<-|[]]]; [by apply Hcov|done].
    + apply Z.ltb_ge in Hlt. split; [done|split].
      * intros kq Hkq. apply Hmono; [by apply Hent|]. intros Hkey.
        destruct kq as [k q']. simpl in *. subst k.
        pose proof (JSMapFacts.in_get_Some _ _ _ Hnd Hkq) as Hget'.
        rewrite Hget in Hget'. by injection Hget' as <-.
      * intros p' Hp'. apply in_app_or in Hp' as [Hp'|[<-|[]]]; [by apply Hcov|].
        by exists q.
  - split; [|split].
    + by apply JSMapFacts.NoDup_keys_set.
    + intros kq Hkq.
      destruct (JSMapFacts.in_set_NoDup _ _ _ _ Hnd Hkq) as [->|[Hne Hkq']].
      * split; [done|split; [apply in_or_app; right; by left|]]; simpl.
        intros p' Hp' Hkey. apply in_app_or in Hp' as [Hp'|[<-|[]]]; [|lia].
        destruct (Hcov p' Hp') as [q' Hq']. rewrite Hkey, Hget in Hq'. done.
      * apply Hmono; [by apply Hent|]. intros Hkey. by destruct Hne.
    + intros p' Hp'.
      destruct (decide (weekKey p = weekKey p')) as [<-|Hne].
      * eexists. apply JSMapFacts.get_set_eq.
      * rewrite JSMapFacts.get_set_ne by done.
        apply in_app_or in Hp' as [Hp'|[<-|[]]]; [by apply Hcov|done].
Qed.

Lemma uniquePayments_snoc ps p :
  uniquePayments (ps ++ [p]) = dedupStep (uniquePayments ps) p.
Proof. unfold uniquePayments. by rewrite fold_left_app. Qed.

Lemma uniquePayments_inv ps : dedup_inv ps (uniquePayments ps).
Proof.
  induction ps as [|p ps IH] using rev_ind.
  - split; [apply NoDup_nil_2|split; [intros kq []|intros p []]].
  - rewrite uniquePayments_snoc. by apply dedup_inv_step.
Qed.

(** A payment for a week that already holds a payment dated no later is
    dropped by the de-duplication. *)
Lemma dedupStep_later_duplicate ps d p :
  In p ps -> weekKey p = weekKey d -> payment_date p <= payment_date d ->
  dedupStep (uniquePayments ps) d = uniquePayments ps.
Proof.
  intros Hin Hkey Hdate.
  destruct (uniquePayments_inv ps) as (Hnd & Hent & Hcov).
  destruct (Hcov p Hin) as [q Hq]. rewrite Hkey in Hq.
  unfold dedupStep. rewrite Hq.
  destruct (Hent _ (JSMapFacts.get_Some_in _ _ _ Hq)) as (_ & _ & Hmin). simpl in Hmin.
  specialize (Hmin p Hin Hkey).
  destruct (payment_date d <? payment_date q) eqn:Hlt; [|done].
  apply Z.ltb_lt in Hlt. lia.
Qed.

Lemma uniquePayments_insert_duplicate l1 l2 d p :
  In p l1 -> weekKey p = weekKey d -> payment_date p <= payment_date d ->
  uniquePayments (l1 ++ d :: l2) = uniquePayments (l1 ++ l2).
Proof.
  intros Hin Hkey Hdate. unfold uniquePayments.
  rewrite !fold_left_app. simpl. f_equal.
  by apply (dedupStep_later_duplicate l1 d p).
Qed.

Lemma weekKey_of_week p d :
  week_number p = week_number d -> week_number d <> 0 -> weekKey p = weekKey d.
Proof.
  intros Hw Hnz. unfold weekKey. rewrite Hw.
  destruct (week_number d =? 0) eqn:H0; [|done].
  apply Z.eqb_eq in H0. done.
Qed.

Lemma NoDup_map_eq_in {A B : Type} (f : A -> B) (l : list A) x y :
  NoDup (map f l) -> In x l -> In y l -> f x = f y -> x = y.
Proof.
  induction l as [|a l IH]; simpl; [done|].
  intros Hnd Hx Hy Hf. apply NoDup_cons in Hnd as [Ha Hnd].
  destruct Hx as [<-|Hx], Hy as [<-|Hy]; auto.
  - exfalso. apply Ha. apply list_elem_of_In. rewrite Hf. by apply in_map.
  - exfalso. apply Ha. apply list_elem_of_In. rewrite <- Hf. by apply in_map.
Qed.

Lemma values_keys_weekKey ps :
  map weekKey (JSMap.values (uniquePayments ps)) = JSMap.keys (uniquePayments ps).
Proof.
  destruct (uniquePayments_inv ps) as (_ & Hent & _).
  unfold JSMap.values, JSMap.keys. rewrite map_map.
  apply map_ext_in. intros kq Hkq. by destruct (Hent kq Hkq).
Qed.

Lemma totalPaid_insert_duplicate l1 l2 d p :
  In p l1 -> weekKey p = weekKey d -> payment_date p <= payment_date d ->
  totalPaid (l1 ++ d :: l2) = totalPaid (l1 ++ l2).
Proof.
  intros. unfold totalPaid. by erewrite uniquePayments_insert_duplicate.
Qed.

Lemma cashflow_step_totalPaid acc loan name ps ps' :
  totalPaid ps = totalPaid ps' ->
  CashFlow.step acc (mkJoined loan name ps) = CashFlow.step acc (mkJoined loan name ps').
Proof.
  intros H. unfold CashFlow.step, CashFlow.summarize. simpl. by rewrite H.
Qed.

Lemma cashflow_process_totalPaid L1 L2 loan name ps ps' :
  totalPaid ps = totalPaid ps' ->
  CashFlow.process (L1 ++ mkJoined loan name ps :: L2) =
  CashFlow.process (L1 ++ mkJoined loan name ps' :: L2).
Proof.
  intros H. unfold CashFlow.process. rewrite !fold_left_app. simpl.
  by rewrite (cashflow_step_totalPaid _ loan name ps ps' H).
Qed.

Lemma monthReceived_insert_duplicate ms me L1 L2 loan name l1 l2 d p :
  In p l1 -> weekKey p = weekKey d -> payment_date p <= payment_date d ->
  in_month ms me p = true \/ in_month ms me d = false ->
  Reports.monthReceived ms me (L1 ++ mkJoined loan name (l1 ++ d :: l2) :: L2) =
  Reports.monthReceived ms me (L1 ++ mkJoined loan name (l1 ++ l2) :: L2).
Proof.
  intros Hin Hkey Hdate Hmonth. unfold Reports.monthReceived.
  rewrite !fold_left_app. simpl. f_equal. f_equal.
  rewrite !List.filter_app. simpl. fold (in_month ms me d).
  destruct (in_month ms me d) eqn:Hd; [|done].
  destruct Hmonth as [Hp|?]; [|done].
  apply (totalPaid_insert_duplicate _ _ d p); try done.
  apply filter_In. split; [done|exact Hp].
Qed.

Lemma uniqueWeeks_insert_present l1 l2 w :
  In w (l1 ++ l2) ->
  LoanList.uniqueWeeks (l1 ++ w :: l2) = LoanList.uniqueWeeks (l1 ++ l2).
Proof.
  intros Hin. unfold LoanList.uniqueWeeks.
  rewrite !list_to_set_app_L, list_to_set_cons.
  apply list_elem_of_In in Hin.
  apply elem_of_app in Hin.
  assert (w ∈ (list_to_set l1 : gset Z) ∨ w ∈ (list_to_set l2 : gset Z)) as Hw.
  { destruct Hin; [left|right]; by apply elem_of_list_to_set. }
  apply set_eq. intros x. rewrite !elem_of_union, elem_of_singleton.
  split; [intros [?|[->|?]]; tauto|tauto].
Qed.

Lemma withRealStatus_insert_present loan name l1 l2 d :
  In (week_number d) (map week_number (l1 ++ l2)) ->
  LoanList.withRealStatus (mkJoined loan name (l1 ++ d :: l2)) =
  LoanList.withRealStatus (mkJoined loan name (l1 ++ l2)).
Proof.
  intros Hin. unfold LoanList.withRealStatus. simpl.
  rewrite !map_app in *. simpl.
  by rewrite (uniqueWeeks_insert_present _ _ _ Hin).
Qed.

(** C4, as stated, fails.  (1) A second payment for week 1 that is dated
    before the one already counted replaces it in the sum: with 100 paid on
    day 10 and a duplicate of 50 dated day 5, the paid amount and the cash
    balance go from 100 to 50.  (2) The monthly report de-duplicates inside
    each month: with week 1 paid on day 31 and registered again on day 32,
    the month [1, 31] counts one and the month [32, 59] counts the other. *)
Lemma C4_duplicate_counterexample :
  let p1 := mkPayment "P1" "L1" "u1" (JS.of_Z 100) 10 1 in
  let d1 := mkPayment "P2" "L1" "u1" (JS.of_Z 50) 5 1 in
  let p2 := mkPayment "P1" "L1" "u1" (JS.of_Z 100) 31 1 in
  let d2 := mkPayment "P2" "L1" "u1" (JS.of_Z 100) 32 1 in
  let row ps := mkJoined Sample.loan1 (Some "Maria") ps in
  (totalPaid [p1] = JS.of_Z 100 /\
   totalPaid [p1; d1] = JS.of_Z 50 /\
   CashFlow.cashBalance (CashFlow.cashSummary (CashFlow.process [row [p1]])) = JS.of_Z 100 /\
   CashFlow.cashBalance (CashFlow.cashSummary (CashFlow.process [row [p1; d1]])) = JS.of_Z 50 /\
   JS.of_Z 100 <> JS.of_Z 50) /\
  (Reports.monthReceived 1 31 [row [p2; d2]] = JS.of_Z 100 /\
   Reports.monthReceived 32 59 [row [p2]] = JS.of_Z 0 /\
   Reports.monthReceived 32 59 [row [p2; d2]] = JS.of_Z 100 /\
   JS.of_Z 0 <> JS.of_Z 100).
Proof.
  repeat apply conj; try (vm_compute; reflexivity); vm_compute; discriminate.
Qed.

(** C4 (amended).  For the payments [ps] fetched with a loan:
    (1) the paid total of the cash-flow screen and of the client report is
        the sum over the payments kept by the de-duplication; these have
        pairwise different keys, so two of them never share a non-zero week
        number; each is one of [ps] and none of [ps] with its key is dated
        before it; and every payment of [ps] has its key represented;
    (2) a further payment [d] for a non-zero week, fetched after a payment
        [p] of the same week that is dated no later, changes neither the
        paid total nor anything the cash-flow screen computes, and does not
        change a month's received total when [p] is dated in that month or
        [d] is not;
    (3) a further payment whose week number is already present, wherever it
        is fetched, leaves the weeks paid and the status computed by the
        loan list unchanged. *)
Theorem C4_paid_total_counts_one_payment_per_week :
  (forall loan name ps,
     let kept := JSMap.values (uniquePayments ps) in
     totalPaid ps = JS.sum (map payment_amount kept) /\
     CashFlow.amount_paid (CashFlow.summarize (mkJoined loan name ps)) = totalPaid ps /\
     Reports.clientLoanPaid (mkJoined loan name ps) = totalPaid ps /\
     NoDup (map weekKey kept) /\
     (forall q1 q2, In q1 kept -> In q2 kept ->
                    week_number q1 = week_number q2 -> week_number q1 <> 0 -> q1 = q2) /\
     (forall q, In q kept ->
                In q ps /\
                forall p, In p ps -> weekKey p = weekKey q ->
                          payment_date q <= payment_date p) /\
     (forall p, In p ps -> exists q, In q kept /\ weekKey q = weekKey p))
  /\
  (forall l1 l2 d p,
     In p l1 -> week_number p = week_number d -> week_number d <> 0 ->
     payment_date p <= payment_date d ->
     totalPaid (l1 ++ d :: l2) = totalPaid (l1 ++ l2) /\
     (forall L1 L2 loan name,
        CashFlow.process (L1 ++ mkJoined loan name (l1 ++ d :: l2) :: L2) =
        CashFlow.process (L1 ++ mkJoined loan name (l1 ++ l2) :: L2)) /\
     (forall ms me L1 L2 loan name,
        in_month ms me p = true \/ in_month ms me d = false ->
        Reports.monthReceived ms me (L1 ++ mkJoined loan name (l1 ++ d :: l2) :: L2) =
        Reports.monthReceived ms me (L1 ++ mkJoined loan name (l1 ++ l2) :: L2)))
  /\
  (forall l1 l2 d loan name,
     In (week_number d) (map week_number (l1 ++ l2)) ->
     LoanList.withRealStatus (mkJoined loan name (l1 ++ d :: l2)) =
     LoanList.withRealStatus (mkJoined loan name (l1 ++ l2))).
Proof.
  repeat apply conj.
  - intros loan name ps kept. subst kept.
    pose proof (uniquePayments_inv ps) as (Hnd & Hent & Hcov).
    assert (Hkeys : NoDup (map weekKey (JSMap.values (uniquePayments ps))))
      by (by rewrite values_keys_weekKey).
    assert (Hval : forall q, In q (JSMap.values (uniquePayments ps)) ->
              In (weekKey q, q) (uniquePayments ps)).
    { intros q Hq. apply in_map_iff in Hq as ([k q'] & <- & Hq).
      destruct (Hent _ Hq) as (Hk & _). simpl in *. by rewrite Hk. }
    repeat apply conj; try done.
    + intros q1 q2 H1 H2 Hw Hnz.
      apply (NoDup_map_eq_in weekKey _ _ _ Hkeys H1 H2).
      apply weekKey_of_week; congruence.
    + intros q Hq. destruct (Hent _ (Hval q Hq)) as (_ & Hin & Hmin). by split.
    + intros p Hp. destruct (Hcov p Hp) as [q Hq]. exists q.
      apply JSMapFacts.get_Some_in in Hq.
      destruct (Hent _ Hq) as (Hk & _). split; [|exact Hk].
      apply in_map_iff. by exists (weekKey p, q).
  - intros l1 l2 d p Hin Hw Hnz Hdate.
    pose proof (weekKey_of_week p d Hw Hnz) as Hkey.
    repeat apply conj.
    + by apply (totalPaid_insert_duplicate _ _ d p).
    + intros L1 L2 loan name. apply cashflow_process_totalPaid.
      by apply (totalPaid_insert_duplicate _ _ d p).
    + intros ms me L1 L2 loan name Hmonth.
      by apply (monthReceived_insert_duplicate _ _ _ _ _ _ _ _ d p).
  - intros l1 l2 d loan name Hin. by apply withRealStatus_insert_present.
Qed.

(** C4 (amended) on three fetched payments, the second repeating week 1. *)
Lemma C4_paid_total_witness :
  let p1 := mkPayment "P1" "L1" "u1" (JS.of_Z 100) 10 1 in
  let d1 := mkPayment "P2" "L1" "u1" (JS.of_Z 100) 10 1 in
  let p2 := mkPayment "P3" "L1" "u1" (JS.of_Z 100) 17 2 in
  In p1 [p1] /\ week_number p1 = week_number d1 /\ week_number d1 <> 0 /\
  payment_date p1 <= payment_date d1 /\
  totalPaid ([p1] ++ d1 :: [p2]) = totalPaid ([p1] ++ [p2]) /\
  totalPaid ([p1] ++ [p2]) = JS.of_Z 200 /\
  LoanList.withRealStatus (mkJoined Sample.loan1 None ([p1] ++ d1 :: [p2])) =
  LoanList.withRealStatus (mkJoined Sample.loan1 None ([p1] ++ [p2])).
Proof.
  intros p1 d1 p2.
  assert (H1 : In p1 [p1]) by (by left).
  assert (H2 : week_number p1 = week_number d1) by reflexivity.
  assert (H3 : week_number d1 <> 0) by discriminate.
  assert (H4 : payment_date p1 <= payment_date d1) by (simpl; lia).
  destruct C4_paid_total_counts_one_payment_per_week as (_ & Hdup & Hstatus).
  destruct (Hdup [p1] [p2] d1 p1 H1 H2 H3 H4) as (Htotal & _ & _).
  assert (H5 : totalPaid ([p1] ++ [p2]) = JS.of_Z 200) by (vm_compute; reflexivity).
  assert (H6 : In (week_number d1) (map week_number ([p1] ++ [p2]))) by (by left).
  exact (conj H1 (conj H2 (conj H3 (conj H4 (conj Htotal (conj H5
           (Hstatus [p1] [p2] d1 Sample.loan1 None H6))))))).
Defined.

(** ** Activity log *)

(** C9.  After any call of [log] the list holds at most 1000 entries, its
    first entry is the one just added, and the entries behind it are the
    former list in its order, cut to 999; the same holds for the calls made
    through [logSystemAction] and [setCurrentUser]. *)
Theorem C9_log_keeps_bound_and_newest_first :
  (forall freshId now action entity entityId details type self,
     let res := ActivityLogger.log freshId now action entity entityId details type self in
     (length (ActivityLogger.logs (fst res)) <= 1000)%nat /\
     ActivityLogger.logs (fst res) = snd res :: take 999 (ActivityLogger.logs self) /\
     ActivityLogger.id (snd res) = freshId /\
     ActivityLogger.timestamp (snd res) = now)
  /\
  (forall freshId now action details self,
     let res := ActivityLogger.logSystemAction freshId now action details self in
     (length (ActivityLogger.logs (fst res)) <= 1000)%nat /\
     ActivityLogger.logs (fst res) = snd res :: take 999 (ActivityLogger.logs self))
  /\
  (forall freshId now username loginDetails self,
     let self' := ActivityLogger.setCurrentUser freshId now username loginDetails self in
     (length (ActivityLogger.logs self') <= 1000)%nat /\
     exists entry,
       ActivityLogger.logs self' = entry :: take 999 (ActivityLogger.logs self) /\
       ActivityLogger.user entry = username).
Proof.
  assert (Hlog : forall freshId now action entity entityId details type self,
            let res := ActivityLogger.log freshId now action entity entityId details type self in
            (length (ActivityLogger.logs (fst res)) <= 1000)%nat /\
            ActivityLogger.logs (fst res) = snd res :: take 999 (ActivityLogger.logs self)).
  { intros freshId now action entity entityId details type self res. subst res.
    unfold ActivityLogger.log. cbn [fst snd ActivityLogger.logs].
    set (e := ActivityLogger.mkLog _ _ _ _ _ _ _ _).
    destruct (1000 <? length (e :: ActivityLogger.logs self))%nat eqn:Hlen.
    - split.
      + rewrite length_take. lia.
      + reflexivity.
    - apply Nat.ltb_ge in Hlen. simpl in Hlen. split.
      + simpl. lia.
      + by rewrite take_ge by lia. }
  repeat apply conj.
  - intros freshId now action entity entityId details type self res.
    destruct (Hlog freshId now action entity entityId details type self) as [H1 H2].
    repeat apply conj; [exact H1|exact H2|reflexivity|reflexivity].
  - intros freshId now action details self. apply Hlog.
  - intros freshId now username loginDetails self self'. subst self'.
    unfold ActivityLogger.setCurrentUser.
    destruct (Hlog freshId now "Login realizado" "Sistema" None (Some loginDetails)
                ActivityLogger.login (ActivityLogger.mkLogger (ActivityLogger.logs self) username))
      as [H1 H2].
    split; [exact H1|]. eexists. split; [exact H2|reflexivity].
Qed.

(** ** formatCPF *)

Module FormatFacts.
Import Formatters FormatSpec.

Lemma formatCPF_mask value : formatCPF value = mask (removeNonDigits value).
Proof. reflexivity. Qed.

Lemma removeNonDigits_digit c s :
  isDigit c = true -> removeNonDigits (String c s) = String c (removeNonDigits s).
Proof. intros H. simpl. by rewrite H. Qed.

Lemma removeNonDigits_other c s :
  isDigit c = false -> removeNonDigits (String c s) = removeNonDigits s.
Proof. intros H. simpl. by rewrite H. Qed.

Lemma removeNonDigits_all_digits value : all_digits (removeNonDigits value).
Proof.
  induction value as [|c rest IH]; simpl; [done|].
  destruct (isDigit c) eqn:Hc; [|done]. by split.
Qed.

Lemma removeNonDigits_id s : all_digits s -> removeNonDigits s = s.
Proof.
  induction s as [|c rest IH]; simpl; [done|].
  intros [Hc Hrest]. by rewrite Hc, IH.
Qed.

Lemma all_digits_substring n s : all_digits s -> all_digits (String.substring 0 n s).
Proof.
  revert s. induction n as [|n IH]; intros [|c rest]; simpl; try done.
  intros [Hc Hrest]. split; [done|]. by apply IH.
Qed.

Ltac split_digits :=
  cbn [all_digits]; intros;
  repeat match goal with H : _ /\ _ |- _ => destruct H end.

Ltac strip_digits :=
  repeat first [ rewrite removeNonDigits_digit by assumption
               | rewrite removeNonDigits_other by reflexivity ].

(** Stripping the mask gives back the first 11 digits. *)
Lemma removeNonDigits_mask s :
  all_digits s -> removeNonDigits (mask s) = slice s 0 11.
Proof.
  do 12 (destruct s as [|? s];
         [split_digits; cbv -[removeNonDigits isDigit]; strip_digits; reflexivity|]).
  split_digits. cbv -[removeNonDigits isDigit]. strip_digits. reflexivity.
Qed.

(** The mask reads only the first 11 digits. *)
Lemma mask_first_11 s : mask (slice s 0 11) = mask s.
Proof.
  do 12 (destruct s as [|? s]; [reflexivity|]). reflexivity.
Qed.

End FormatFacts.

(** C10.  [formatCPF] applied to its own output returns that output; its
    output is that of the digit characters of the input alone, and that of
    their first 11 alone. *)
Theorem C10_formatCPF_idempotent :
  forall value,
    Formatters.formatCPF (Formatters.formatCPF value) = Formatters.formatCPF value /\
    Formatters.formatCPF value =
      Formatters.formatCPF (Formatters.removeNonDigits value) /\
    Formatters.formatCPF value =
      Formatters.formatCPF (Formatters.slice (Formatters.removeNonDigits value) 0 11).
Proof.
  intros value.
  pose proof (FormatFacts.removeNonDigits_all_digits value) as Hd.
  rewrite !FormatFacts.formatCPF_mask. repeat apply conj.
  - rewrite FormatFacts.removeNonDigits_mask by done.
    apply FormatFacts.mask_first_11.
  - by rewrite (FormatFacts.removeNonDigits_id (Formatters.removeNonDigits value)).
  - rewrite (FormatFacts.removeNonDigits_id
               (Formatters.slice (Formatters.removeNonDigits value) 0 11))
      by (by apply FormatFacts.all_digits_substring).
    symmetry. apply FormatFacts.mask_first_11.
Qed.

(** ** Cleanup of duplicate payments *)

Module CleanupFacts.
Import LoanList CleanupSpec.

(** *** The group key separates loans and weeks *)

Lemma pretty_N_char_not_underscore x : pretty_N_char x <> "_"%char.
Proof. unfold pretty_N_char. repeat case_match; discriminate. Qed.

Lemma pretty_N_go_no_underscore x s :
  ~ occurs "_" s -> ~ occurs "_" (pretty_N_go x s).
Proof.
  revert s. induction (N.lt_wf_0 x) as [x _ IH]. intros s Hs.
  destruct (decide (x = 0)%N) as [->|Hx].
  - by rewrite pretty_N_go_0.
  - rewrite pretty_N_go_step by lia. apply IH.
    + apply N.div_lt; lia.
    + simpl. intros [Hc|Hr]; [|done]. by apply pretty_N_char_not_underscore in Hc.
Qed.

Lemma pretty_N_no_underscore (x : N) : ~ occurs "_" (pretty x).
Proof.
  unfold pretty, pretty_N. destruct (decide (x = 0)%N).
  - simpl. intros [H|[]]. discriminate.
  - apply pretty_N_go_no_underscore. simpl. tauto.
Qed.

Lemma pretty_Z_no_underscore (z : Z) : ~ occurs "_" (pretty z).
Proof.
  destruct z as [|p|p]; unfold pretty, pretty_Z.
  - simpl. intros [H|[]]. discriminate.
  - apply pretty_N_no_underscore.
  - simpl. intros [H|H]; [discriminate|]. by apply (pretty_N_no_underscore (N.pos p)).
Qed.

Lemma append_nil s : "" +:+ s = s.
Proof. reflexivity. Qed.

Lemma append_cons c a s : String c a +:+ s = String c (a +:+ s).
Proof. reflexivity. Qed.

Lemma append_underscore_inj a b u v :
  ~ occurs "_" u -> ~ occurs "_" v ->
  a +:+ "_" +:+ u = b +:+ "_" +:+ v -> a = b /\ u = v.
Proof.
  intros Hu Hv.
  assert (Hocc : forall w x, occurs "_" (w +:+ "_" +:+ x)).
  { intros w x. induction w as [|c w IHw];
      repeat first [rewrite append_nil | rewrite append_cons];
      simpl; [by left|by right]. }
  revert b. induction a as [|c a IH]; intros [|c' b] H;
    repeat first [rewrite append_nil in H | rewrite append_cons in H].
  - by injection H as ->.
  - injection H as _ ->. exfalso. apply Hu, Hocc.
  - injection H as _ <-. exfalso. apply Hv, Hocc.
  - injection H as -> H. destruct (IH b H) as [-> ->]. done.
Qed.

Lemma groupKey_inj p q :
  groupKey p = groupKey q <-> loan_id p = loan_id q /\ week_number p = week_number q.
Proof.
  unfold groupKey. split.
  - intros H. apply append_underscore_inj in H as [Hl Hw];
      try apply pretty_Z_no_underscore.
    split; [done|]. by apply (inj pretty).
  - by intros [-> ->].
Qed.

(** *** What [paymentGroups] holds *)

Lemma same_key_in_group q p :
  same_key (groupKey q) p = in_group (loan_id q) (week_number q) p.
Proof.
  unfold same_key, in_group.
  destruct (String.eqb (groupKey p) (groupKey q)) eqn:Hk.
  - apply String.eqb_eq, groupKey_inj in Hk as [-> ->].
    by rewrite String.eqb_refl, Z.eqb_refl.
  - symmetry. apply andb_false_iff.
    destruct (String.eqb (loan_id p) (loan_id q)) eqn:Hl; [|by left].
    right. apply Z.eqb_neq. intros Hw.
    apply String.eqb_eq in Hl. apply String.eqb_neq in Hk.
    apply Hk. by apply groupKey_inj.
Qed.

Lemma filter_none {A : Type} (f : A -> bool) (l : list A) :
  (forall x, In x l -> f x = false) -> List.filter f l = [].
Proof.
  induction l as [|a l IH]; simpl; [done|].
  intros H. rewrite (H a) by (by left). apply IH. intros x Hx. apply H. by right.
Qed.

Lemma group_inv_step ps m p :
  group_inv ps m -> group_inv (ps ++ [p]) (groupStep m p).
Proof.
  intros (Hnd & Hent & Hcov). unfold groupStep, JSMap.has.
  assert (Hother : forall kg, fst kg <> groupKey p -> In kg m ->
            snd kg = List.filter (same_key (fst kg)) (ps ++ [p]) /\ snd kg <> []).
  { intros kg Hne Hkg. destruct (Hent kg Hkg) as [Hg Hnil]. split; [|done].
    rewrite List.filter_app. simpl. unfold same_key at 2.
    destruct (String.eqb (groupKey p) (fst kg)) eqn:Hk.
    - apply String.eqb_eq in Hk. by destruct Hne.
    - by rewrite app_nil_r. }
  assert (Hcover : forall (m' : JSMap.t (K := string) (V := list LoanPayment)) g,
            (forall k, k <> groupKey p -> JSMap.get m' k = JSMap.get m k) ->
            JSMap.get m' (groupKey p) = Some g ->
            forall p', In p' (ps ++ [p]) -> exists g', JSMap.get m' (groupKey p') = Some g').
  { intros m' g Hsame Hg p' Hp'.
    destruct (decide (groupKey p' = groupKey p)) as [->|Hne]; [by exists g|].
    rewrite Hsame by done.
    apply in_app_or in Hp' as [Hp'|[<-|[]]]; [by apply Hcov|done]. }
  destruct (JSMap.get m (groupKey p)) as [g|] eqn:Hget.
  - rewrite Hget.
    pose proof (JSMapFacts.get_Some_in _ _ _ Hget) as Hin.
    destruct (Hent _ Hin) as [Hg _]. simpl in Hg.
    split; [by apply JSMapFacts.NoDup_keys_set|split].
    + intros kg Hkg.
      destruct (JSMapFacts.in_set_NoDup _ _ _ _ Hnd Hkg) as [->|[Hne Hkg']];
        [|by apply Hother].
      simpl. split; [|by destruct g].
      rewrite List.filter_app, <- Hg. simpl. unfold same_key.
      by rewrite String.eqb_refl.
    + apply (Hcover _ (g ++ [p])); [|apply JSMapFacts.get_set_eq].
      intros k Hk. by apply JSMapFacts.get_set_ne.
  - rewrite JSMapFacts.get_set_eq.
    assert (Hnd1 : NoDup (JSMap.keys (JSMap.set m (groupKey p) [])))
      by (by apply JSMapFacts.NoDup_keys_set).
    split; [by apply JSMapFacts.NoDup_keys_set|split].
    + intros kg Hkg.
      destruct (JSMapFacts.in_set_NoDup _ _ _ _ Hnd1 Hkg) as [->|[Hne Hkg']].
      * simpl. split; [|done].
        rewrite List.filter_app. simpl. unfold same_key at 2.
        rewrite String.eqb_refl.
        rewrite filter_none; [done|].
        intros x Hx. unfold same_key. apply String.eqb_neq. intros Hk.
        destruct (Hcov x Hx) as [g' Hg']. rewrite Hk, Hget in Hg'. done.
      * destruct (JSMapFacts.in_set_NoDup _ _ _ _ Hnd Hkg') as [->|[_ Hkg'']];
          [by destruct Hne|by apply Hother].
    + apply (Hcover _ ([] ++ [p])); [|apply JSMapFacts.get_set_eq].
      intros k Hk. rewrite !JSMapFacts.get_set_ne by done. done.
Qed.

Lemma paymentGroups_inv ps : group_inv ps (paymentGroups ps).
Proof.
  induction ps as [|p ps IH] using rev_ind.
  - split; [apply NoDup_nil_2|split; [intros kg []|intros p []]].
  - unfold paymentGroups. rewrite fold_left_app. simpl.
    by apply group_inv_step.
Qed.

(** *** The rows the cleanup deletes *)

Lemma toDelete_drop g : toDelete g = drop 1 g.
Proof. destruct g as [|x [|y g]]; reflexivity. Qed.

Lemma filter_filter {A : Type} (f g : A -> bool) (l : list A) :
  List.filter g (List.filter f l) = List.filter (fun x => f x && g x) l.
Proof.
  induction l as [|a l IH]; simpl; [done|].
  destruct (f a); simpl; [|done]. destruct (g a); simpl; by rewrite IH.
Qed.

Section Deletes.
Variable deleteReply : string -> Reply.
Hypothesis replies_ok : forall id, deleteReply id = None.

Lemma deletes_effect D db :
  let db' := fold_left (deleteOne deleteReply) D db in
  clients db' = clients db /\ loans db' = loans db /\
  loan_payments db' = List.filter (keep D) (loan_payments db).
Proof.
  revert db. induction D as [|d D IH]; intros db; simpl.
  - repeat split. induction (loan_payments db) as [|a l IHl]; simpl; [done|].
    by rewrite <- IHl.
  - destruct (IH (deleteOne deleteReply db d)) as (Hc & Hl & Hp).
    rewrite Hc, Hl, Hp. unfold deleteOne. rewrite replies_ok. simpl.
    repeat split. rewrite filter_filter. apply filter_ext.
    intros p. unfold keep. simpl. by rewrite negb_orb.
Qed.

Lemma cleanup_as_deletes uid payments db :
  cleanupDuplicatePayments (Some uid) None payments deleteReply db =
  fold_left (deleteOne deleteReply) (doomed (paymentGroups payments)) db.
Proof.
  unfold cleanupDuplicatePayments, doomed.
  generalize (paymentGroups payments). intros groups. revert db.
  induction groups as [|[key group] groups IH]; intros db; simpl; [done|].
  by rewrite fold_left_app, IH.
Qed.

End Deletes.

Lemma find_hd_filter {A : Type} (f : A -> bool) (l : list A) :
  List.find f l = hd_error (List.filter f l).
Proof.
  induction l as [|a l IH]; simpl; [done|]. by destruct (f a).
Qed.

Lemma find_ext {A : Type} (f g : A -> bool) (l : list A) :
  (forall x, f x = g x) -> List.find f l = List.find g l.
Proof.
  intros H. induction l as [|a l IH]; simpl; [done|]. by rewrite H, IH.
Qed.

Lemma find_exists {A : Type} (f : A -> bool) (l : list A) x :
  In x l -> f x = true -> exists y, List.find f l = Some y.
Proof.
  induction l as [|a l IH]; simpl; [done|].
  intros [<-|Hx] Hf.
  - rewrite Hf. by eexists.
  - destruct (f a); [by eexists|by apply IH].
Qed.

Lemma ascending_find_least ps f q :
  ascending ps = true -> List.find f ps = Some q ->
  forall p, In p ps -> f p = true -> payment_date q <= payment_date p.
Proof.
  induction ps as [|a ps IH]; simpl; [done|].
  intros [Hall Hasc]%andb_prop Hfind p Hp Hf.
  destruct (f a) eqn:Hfa.
  - injection Hfind as <-. destruct Hp as [<-|Hp]; [lia|].
    rewrite forallb_forall in Hall. specialize (Hall p Hp). lia.
  - destruct Hp as [<-|Hp]; [congruence|]. by apply IH.
Qed.

Lemma in_drop_1 {A : Type} (x : A) (l : list A) : In x (drop 1 l) -> In x l.
Proof. destruct l as [|a l]; simpl; [done|]. rewrite drop_0. by right. Qed.

Lemma doomed_in ps d :
  In d (doomed (paymentGroups ps)) ->
  exists k g, In (k, g) (paymentGroups ps) /\ In d (drop 1 g).
Proof.
  unfold doomed. rewrite in_concat. intros (l & Hl & Hd).
  apply in_map_iff in Hl as ([k g] & <- & Hkg).
  exists k, g. split; [done|]. by rewrite <- toDelete_drop.
Qed.

Lemma in_doomed ps k g d :
  In (k, g) (paymentGroups ps) -> In d (drop 1 g) ->
  In d (doomed (paymentGroups ps)).
Proof.
  intros Hkg Hd. unfold doomed. rewrite in_concat.
  exists (toDelete g). split; [|by rewrite toDelete_drop].
  apply in_map_iff. by exists (k, g).
Qed.

Lemma keep_false_iff D p :
  keep D p = false <-> exists d, In d D /\ p_id p = p_id d.
Proof.
  unfold keep. rewrite negb_false_iff, existsb_exists.
  split; intros (d & Hd & Hid); exists d; split; try done.
  - by apply String.eqb_eq.
  - by apply String.eqb_eq.
Qed.

(** A fetched row survives exactly when it is the first fetched row of its
    group. *)
Lemma keep_iff_first ps p :
  NoDup (map p_id ps) -> In p ps ->
  keep (doomed (paymentGroups ps)) p = true <->
  List.find (same_key (groupKey p)) ps = Some p.
Proof.
  intros Hids Hp.
  assert (Hnodup : NoDup ps) by (by apply (NoDup_fmap_1 p_id)).
  destruct (paymentGroups_inv ps) as (Hnd & Hent & Hcov).
  destruct (Hcov p Hp) as [g Hget].
  pose proof (JSMapFacts.get_Some_in _ _ _ Hget) as Hin.
  destruct (Hent _ Hin) as [Hg _]. simpl in Hg.
  assert (Hpg : In p g).
  { rewrite Hg. apply filter_In. split; [done|]. unfold same_key. apply String.eqb_refl. }
  rewrite find_hd_filter, <- Hg.
  destruct g as [|h t]; [done|]. simpl.
  split.
  - intros Hkeep. destruct Hpg as [->|Hpt]; [done|].
    assert (keep (doomed (paymentGroups ps)) p = false) as Hk; [|congruence].
    apply keep_false_iff. exists p. split; [|done].
    by apply (in_doomed ps (groupKey p) (h :: t)).
  - intros [= ->].
    destruct (keep (doomed (paymentGroups ps)) p) eqn:Hkeep; [done|].
    exfalso. apply keep_false_iff in Hkeep as (d & Hd & Hid).
    apply doomed_in in Hd as (k' & g' & Hkg' & Hd).
    destruct (Hent _ Hkg') as [Hg' _]. simpl in Hg'.
    assert (Hdg' : In d g') by (by apply in_drop_1).
    assert (Hdps : In d ps) by (rewrite Hg' in Hdg'; by apply filter_In in Hdg' as [? _]).
    assert (d = p) as -> by (by apply (NoDup_map_eq_in p_id ps)).
    rewrite Hg' in Hdg'. apply filter_In in Hdg' as [_ Hk].
    apply String.eqb_eq in Hk. subst k'.
    pose proof (JSMapFacts.in_get_Some _ _ _ Hnd Hkg') as Hget'.
    rewrite Hget in Hget'. injection Hget' as <-.
    simpl in Hd. rewrite drop_0 in Hd.
    assert (NoDup (p :: t)) as Hpt.
    { rewrite Hg. clear -Hnodup. induction ps as [|a ps IH]; simpl; [constructor|].
      apply NoDup_cons in Hnodup as [Ha Hnodup].
      destruct (same_key _ a); [|by apply IH].
      apply NoDup_cons. split; [|by apply IH].
      intros Hin. apply Ha. apply list_elem_of_In in Hin.
      apply list_elem_of_In. by apply filter_In in Hin as [? _]. }
    apply NoDup_cons in Hpt as [Hnot _]. apply Hnot. by apply list_elem_of_In.
Qed.

End CleanupFacts.

Lemma syncLoanStatus_keeps_payments user selectError loansData updateReply db :
  loan_payments (LoanList.syncLoanStatus user selectError loansData updateReply db) =
  loan_payments db.
Proof.
  unfold LoanList.syncLoanStatus.
  destruct user; [|done]. destruct selectError; [done|].
  revert db. induction loansData as [|l ls IH]; intros db; simpl; [done|].
  rewrite IH. unfold LoanList.syncOne.
  repeat break_match; reflexivity.
Qed.

(** C7, as stated, fails when a delete is refused: the routine does not
    read the reply of a delete, and the duplicate stays.  With week 1 of a
    loan registered twice and both deletes refused, the group still holds
    its two payments after the cleanup. *)
Lemma C7_refused_delete_counterexample :
  map p_id (loan_payments Sample.dbTwice) = ["P1"; "P2"] /\
  map p_id
      (loan_payments
         (LoanList.cleanupDuplicatePayments (Some "u1") None
            [Sample.paidDay10; Sample.paidDay12] (fun _ => Some "denied")
            Sample.dbTwice))
    = ["P1"; "P2"] /\
  length (List.filter (CleanupSpec.in_group "L1" 1)
            (loan_payments
               (LoanList.cleanupDuplicatePayments (Some "u1") None
                  [Sample.paidDay10; Sample.paidDay12] (fun _ => Some "denied")
                  Sample.dbTwice))) = 2%nat.
Proof. repeat apply conj; vm_compute; reflexivity. Qed.

(** C7 (amended).  Let the select of the cleanup return the rows of
    [loan_payments] sorted by [payment_date], let payment ids be unique and
    let every delete succeed.  After [cleanupDuplicatePayments]:
    - the other tables are untouched and no row is added;
    - every (loan_id, week_number) group holds at most one payment;
    - a payment still present is the first fetched one of its group, and no
      payment of its group was dated before it;
    - every group that had a payment still has one;
    and [syncLoanStatus] never touches [loan_payments]. *)
Theorem C7_cleanup_keeps_earliest_of_each_group :
  forall uid payments deleteReply db,
    (forall id, deleteReply id = None) ->
    Permutation payments (loan_payments db) ->
    CleanupSpec.ascending payments = true ->
    NoDup (map p_id (loan_payments db)) ->
    let db' := LoanList.cleanupDuplicatePayments (Some uid) None payments deleteReply db in
    (clients db' = clients db /\ loans db' = loans db) /\
    (forall lid w,
       (length (List.filter (CleanupSpec.in_group lid w) (loan_payments db')) <= 1)%nat) /\
    (forall q, In q (loan_payments db') ->
       In q (loan_payments db) /\
       List.find (CleanupSpec.in_group (loan_id q) (week_number q)) payments = Some q /\
       forall p, In p (loan_payments db) ->
                 CleanupSpec.in_group (loan_id q) (week_number q) p = true ->
                 payment_date q <= payment_date p) /\
    (forall p, In p (loan_payments db) ->
       exists q, In q (loan_payments db') /\
                 CleanupSpec.in_group (loan_id p) (week_number p) q = true) /\
    (forall user selectError loansData updateReply,
       loan_payments (LoanList.syncLoanStatus user selectError loansData updateReply db') =
       loan_payments db').
Proof.
  intros uid ps r db Hr Hperm Hasc Hids db'. subst db'.
  rewrite (CleanupFacts.cleanup_as_deletes r uid ps db).
  destruct (CleanupFacts.deletes_effect r Hr (CleanupSpec.doomed (LoanList.paymentGroups ps)) db)
    as (Hc & Hl & Hp).
  set (db' := fold_left _ _ db) in *.
  assert (Hmem : forall p, In p ps <-> In p (loan_payments db)).
  { intros p. rewrite <- !list_elem_of_In. by rewrite Hperm. }
  assert (Hids' : NoDup (map p_id ps)).
  { apply NoDup_ListNoDup.
    eapply Permutation_NoDup; [|apply NoDup_ListNoDup; exact Hids].
    symmetry. by apply Permutation_map. }
  assert (Hfirst : forall q, In q (loan_payments db') <->
            In q ps /\
            List.find (CleanupSpec.in_group (loan_id q) (week_number q)) ps = Some q).
  { intros q. rewrite Hp, filter_In, <- Hmem. split.
    - intros [Hq Hk]. split; [done|].
      apply (CleanupFacts.keep_iff_first ps q Hids' Hq) in Hk.
      rewrite <- Hk. apply CleanupFacts.find_ext. intros x.
      symmetry. apply CleanupFacts.same_key_in_group.
    - intros [Hq Hf]. split; [done|].
      apply (CleanupFacts.keep_iff_first ps q Hids' Hq).
      rewrite <- Hf. apply CleanupFacts.find_ext. intros x.
      apply CleanupFacts.same_key_in_group. }
  assert (Hgrp : forall lid w q, CleanupSpec.in_group lid w q = true ->
            loan_id q = lid /\ week_number q = w).
  { intros lid w q [H1 H2]%andb_prop. split; [by apply String.eqb_eq|by apply Z.eqb_eq]. }
  repeat apply conj.
  - exact Hc.
  - exact Hl.
  - intros lid w.
    assert (Hnd : NoDup (List.filter (CleanupSpec.in_group lid w) (loan_payments db'))).
    { rewrite Hp. apply (NoDup_fmap_1 p_id) in Hids. clear -Hids.
      assert (Hf : forall (f : LoanPayment -> bool) l, NoDup l -> NoDup (List.filter f l)).
      { intros f l. induction l as [|a l IH]; simpl; [done|].
        intros [Ha Hnd]%NoDup_cons. destruct (f a); [|by apply IH].
        apply NoDup_cons. split; [|by apply IH].
        intros Hin%list_elem_of_In%filter_In. apply Ha, list_elem_of_In. tauto. }
      by apply Hf, Hf. }
    assert (Hall : forall x y,
              In x (List.filter (CleanupSpec.in_group lid w) (loan_payments db')) ->
              In y (List.filter (CleanupSpec.in_group lid w) (loan_payments db')) ->
              x = y).
    { intros x y [Hx Hgx]%filter_In [Hy Hgy]%filter_In.
      apply Hfirst in Hx as [_ Hx]. apply Hfirst in Hy as [_ Hy].
      destruct (Hgrp _ _ _ Hgx) as [Hx1 Hx2]. destruct (Hgrp _ _ _ Hgy) as [Hy1 Hy2].
      rewrite Hx1, Hx2 in Hx. rewrite Hy1, Hy2 in Hy. congruence. }
    destruct (List.filter _ (loan_payments db')) as [|x [|y l]]; simpl; try lia.
    exfalso. apply NoDup_cons in Hnd as [Hx _]. apply Hx.
    rewrite (Hall x y); [by left|by left|right; by left].
  - intros q Hq. apply Hfirst in Hq as [Hq Hf].
    split; [by apply Hmem|split; [exact Hf|]].
    intros p Hp' Hg. apply (CleanupFacts.ascending_find_least ps _ q Hasc Hf p); [|done].
    by apply Hmem.
  - intros p Hp'. apply Hmem in Hp'.
    destruct (CleanupFacts.find_exists
                (CleanupSpec.in_group (loan_id p) (week_number p)) ps p Hp')
      as [q Hq].
    { unfold CleanupSpec.in_group. by rewrite String.eqb_refl, Z.eqb_refl. }
    pose proof (find_some _ _ Hq) as [Hqin Hqg].
    exists q. split; [|done].
    apply Hfirst. split; [done|].
    destruct (Hgrp _ _ _ Hqg) as [-> ->]. exact Hq.
  - intros. apply syncLoanStatus_keeps_payments.
Qed.

(** C7 on a table where week 1 of a loan was registered twice: the row dated
    day 10 stays, the row dated day 12 goes. *)
Lemma C7_cleanup_witness :
  let a := mkPayment "P1" "L1" "u1" (JS.of_Z 100) 12 1 in
  let b := mkPayment "P2" "L1" "u1" (JS.of_Z 100) 10 1 in
  let c := mkPayment "P3" "L1" "u1" (JS.of_Z 100) 17 2 in
  let db := mkStore [Sample.maria] [Sample.loan1] [a; b; c] in
  let db' := LoanList.cleanupDuplicatePayments (Some "u1") None [b; a; c]
               (fun _ => None) db in
  Permutation [b; a; c] (loan_payments db) /\
  CleanupSpec.ascending [b; a; c] = true /\
  NoDup (map p_id (loan_payments db)) /\
  loan_payments db' = [b; c] /\
  (length (List.filter (CleanupSpec.in_group "L1" 1) (loan_payments db')) <= 1)%nat.
Proof.
  intros a b c db db'.
  assert (H1 : Permutation [b; a; c] (loan_payments db)) by apply perm_swap.
  assert (H2 : CleanupSpec.ascending [b; a; c] = true) by reflexivity.
  assert (H3 : NoDup (map p_id (loan_payments db))).
  { apply (bool_decide_unpack (NoDup (map p_id (loan_payments db)))). vm_compute. exact I. }
  assert (H4 : loan_payments db' = [b; c]) by (vm_compute; reflexivity).
  destruct (C7_cleanup_keeps_earliest_of_each_group "u1" [b; a; c] (fun _ => None) db
              (fun _ => eq_refl) H1 H2 H3) as (_ & Hone & _).
  exact (conj H1 (conj H2 (conj H3 (conj H4 (Hone "L1" 1))))).
Defined.

(** ** Worked examples *)

Example formatCPF_full : Formatters.formatCPF "12345678901" = "123.456.789-01".
Proof. reflexivity. Qed.

Example formatCPF_partial : Formatters.formatCPF "123.4a5" = "123.45".
Proof. reflexivity. Qed.

Example formatCPF_overlong : Formatters.formatCPF "123456789012345" = "123.456.789-01".
Proof. reflexivity. Qed.

Example loan_form_500_over_4 :
  map (fun l => (total_amount l, weekly_payment l))
      (loans (fst (LoanForm.handleSubmit Sample.parseFloat Sample.parseInt
                     [Sample.maria] "c1" "500" "4" (Some "u1") 0 "L1" None None
                     Sample.db0))) =
  [(JS.of_Z 675, JS.div (JS.of_Z 675) (JS.of_Z 4))].
Proof. vm_compute. reflexivity. Qed.

Example log_on_empty :
  length (ActivityLogger.logs
            (fst (ActivityLogger.logSystemAction "log_1" "t0" "Sistema iniciado"
                    "FinCerta" ActivityLogger.init))) = 1%nat.
Proof. reflexivity. Qed.

(** * Further properties *)

(** ** The two input masks *)

Module MaskFacts.
Import Formatters FormatSpec FormatFacts.

Lemma formatPhone_mask value : formatPhone value = phoneMask (removeNonDigits value).
Proof. reflexivity. Qed.

(** Stripping the phone mask gives back the first 11 digits. *)
Lemma removeNonDigits_phoneMask s :
  all_digits s -> removeNonDigits (phoneMask s) = slice s 0 11.
Proof.
  do 12 (destruct s as [|? s];
         [split_digits; cbv -[removeNonDigits isDigit]; strip_digits; reflexivity|]).
  split_digits. cbv -[removeNonDigits isDigit]. strip_digits. reflexivity.
Qed.

Lemma phoneMask_first_11 s : phoneMask (slice s 0 11) = phoneMask s.
Proof.
  do 12 (destruct s as [|? s]; [reflexivity|]). reflexivity.
Qed.

Lemma mask_length s : (String.length (mask s) <= 14)%nat.
Proof.
  do 12 (destruct s as [|? s]; [cbv; lia|]). cbv. lia.
Qed.

Lemma phoneMask_length s : (String.length (phoneMask s) <= 15)%nat.
Proof.
  do 12 (destruct s as [|? s]; [cbv; lia|]). cbv. lia.
Qed.

Lemma mask_empty s : String.eqb (mask s) "" = String.eqb s "".
Proof.
  do 12 (destruct s as [|? s]; [reflexivity|]). reflexivity.
Qed.

Lemma phoneMask_empty s : String.eqb (phoneMask s) "" = String.eqb s "".
Proof.
  do 12 (destruct s as [|? s]; [reflexivity|]). reflexivity.
Qed.

End MaskFacts.

(** X1.  [formatPhone] applied to its own output returns that output, and
    its output is that of the first 11 digit characters of the input
    alone. *)
Theorem formatPhone_idempotent :
  forall value,
    Formatters.formatPhone (Formatters.formatPhone value) = Formatters.formatPhone value /\
    Formatters.formatPhone value =
      Formatters.formatPhone (Formatters.slice (Formatters.removeNonDigits value) 0 11).
Proof.
  intros value.
  pose proof (FormatFacts.removeNonDigits_all_digits value) as Hd.
  rewrite !MaskFacts.formatPhone_mask. split.
  - rewrite MaskFacts.removeNonDigits_phoneMask by done.
    apply MaskFacts.phoneMask_first_11.
  - rewrite (FormatFacts.removeNonDigits_id
               (Formatters.slice (Formatters.removeNonDigits value) 0 11))
      by (by apply FormatFacts.all_digits_substring).
    symmetry. apply MaskFacts.phoneMask_first_11.
Qed.

(** X2.  The digits of [formatCPF value] are the first 11 digits of [value],
    in order (all of them when there are at most 11); the output is at most
    14 characters long, and it is empty exactly when [value] has no
    digit. *)
Theorem formatCPF_keeps_first_digits :
  forall value,
    Formatters.removeNonDigits (Formatters.formatCPF value) =
      Formatters.slice (Formatters.removeNonDigits value) 0 11 /\
    (String.length (Formatters.formatCPF value) <= 14)%nat /\
    String.eqb (Formatters.formatCPF value) "" =
      String.eqb (Formatters.removeNonDigits value) "".
Proof.
  intros value. rewrite !FormatFacts.formatCPF_mask. repeat apply conj.
  - apply FormatFacts.removeNonDigits_mask, FormatFacts.removeNonDigits_all_digits.
  - apply MaskFacts.mask_length.
  - apply MaskFacts.mask_empty.
Qed.

(** X3.  The digits of [formatPhone value] are the first 11 digits of
    [value], in order; the output is at most 15 characters long, and it is
    empty (no opening parenthesis) exactly when [value] has no digit. *)
Theorem formatPhone_keeps_first_digits :
  forall value,
    Formatters.removeNonDigits (Formatters.formatPhone value) =
      Formatters.slice (Formatters.removeNonDigits value) 0 11 /\
    (String.length (Formatters.formatPhone value) <= 15)%nat /\
    String.eqb (Formatters.formatPhone value) "" =
      String.eqb (Formatters.removeNonDigits value) "".
Proof.
  intros value. rewrite !MaskFacts.formatPhone_mask. repeat apply conj.
  - apply MaskFacts.removeNonDigits_phoneMask, FormatFacts.removeNonDigits_all_digits.
  - apply MaskFacts.phoneMask_length.
  - apply MaskFacts.phoneMask_empty.
Qed.

(** ** Cash flow: the two lists *)

Lemma cashflow_fold acc loansData :
  let acc' := fold_left CashFlow.step loansData acc in
  CashFlow.activeLoansData acc' =
    CashFlow.activeLoansData acc
    ++ map CashFlow.summarize (List.filter cash_active loansData) /\
  CashFlow.completedLoansData acc' =
    CashFlow.completedLoansData acc
    ++ map CashFlow.summarize
         (List.filter (fun loan => negb (cash_active loan)) loansData) /\
  CashFlow.totalLoanedAmount acc' =
    fold_left JS.add (map (fun loan => loan_amount (jl_loan loan)) loansData)
              (CashFlow.totalLoanedAmount acc) /\
  CashFlow.totalReceivedAmount acc' =
    fold_left JS.add (map (fun loan => totalPaid (jl_payments loan)) loansData)
              (CashFlow.totalReceivedAmount acc).
Proof.
  revert acc. induction loansData as [|loan rest IH]; intros acc; simpl.
  - by rewrite !app_nil_r.
  - destruct (IH (CashFlow.step acc loan)) as (Ha & Hc & Hl & Hr).
    rewrite Ha, Hc, Hl, Hr. clear IH Ha Hc Hl Hr.
    unfold CashFlow.step, cash_active. simpl.
    destruct (String.eqb (status (jl_loan loan)) "pending" && _); simpl;
      by rewrite <- ?app_assoc.
Qed.

Lemma cashflow_lists_partition_helper loansData :
  CashFlow.activeLoans (CashFlow.process loansData) =
    map CashFlow.summarize (List.filter cash_active loansData) /\
  CashFlow.completedLoans (CashFlow.process loansData) =
    map CashFlow.summarize
        (List.filter (fun loan => negb (cash_active loan)) loansData).
Proof.
  destruct (cashflow_fold (CashFlow.mkAcc [] [] (JS.of_Z 0) (JS.of_Z 0)) loansData)
    as (Ha & Hc & _).
  split; [exact Ha | exact Hc].
Qed.

(** X4.  The cash-flow screen files every fetched loan in exactly one of its
    two lists, in fetch order: the active list holds the loans with status
    ["pending"] and a positive remainder, the completed list all the others
    (whatever their status); the two counts add up to the number of loans,
    the loaned and received totals are the sums over all loans, and the cash
    balance is the received total. *)
Theorem cashflow_lists_partition_the_loans :
  forall loansData,
    let st := CashFlow.process loansData in
    CashFlow.activeLoans st =
      map CashFlow.summarize (List.filter cash_active loansData) /\
    CashFlow.completedLoans st =
      map CashFlow.summarize
          (List.filter (fun loan => negb (cash_active loan)) loansData) /\
    (CashFlow.activeLoansCount (CashFlow.cashSummary st)
     + CashFlow.completedLoansCount (CashFlow.cashSummary st))%nat
      = length loansData /\
    CashFlow.totalLoaned (CashFlow.cashSummary st) =
      JS.sum (map (fun loan => loan_amount (jl_loan loan)) loansData) /\
    CashFlow.totalReceived (CashFlow.cashSummary st) =
      JS.sum (map (fun loan => totalPaid (jl_payments loan)) loansData) /\
    CashFlow.cashBalance (CashFlow.cashSummary st) =
      CashFlow.totalReceived (CashFlow.cashSummary st).
Proof.
  intros loansData st. subst st. unfold CashFlow.process. simpl.
  destruct (cashflow_fold (CashFlow.mkAcc [] [] (JS.of_Z 0) (JS.of_Z 0)) loansData)
    as (Ha & Hc & Hl & Hr).
  simpl in Ha, Hc, Hl, Hr. rewrite Ha, Hc, Hl, Hr.
  repeat apply conj; try reflexivity.
  rewrite !length_map.
  clear. induction loansData as [|loan rest IH]; simpl; [done|].
  destruct (cash_active loan); simpl; lia.
Qed.

Lemma app_tail_inj {A} (l1 l2 : list A) x y :
  l1 ++ [x] = l2 ++ [y] -> l1 = l2 /\ x = y.
Proof. intros H. by apply app_inj_tail in H. Qed.

Lemma app_tail_neq {A} (l : list A) x : l <> l ++ [x].
Proof.
  intros H. apply (f_equal (@length A)) in H.
  rewrite length_app in H. simpl in H. lia.
Qed.

Lemma cash_active_pending loan : cash_active loan = true -> status (jl_loan loan) = "pending".
Proof.
  unfold cash_active. intros H. apply andb_prop in H as [H _].
  by apply String.eqb_eq.
Qed.

(** X5.  A loan as the loan form stores it (status ["active"]) is filed by
    the cash-flow screen under the completed loans, whatever has been paid:
    the active list of that screen holds loans of status ["pending"]
    only. *)
Theorem loan_form_loan_is_filed_as_completed :
  forall parseFloat parseInt clientsProp sel amt wks user today newId
         loanError clientError db row,
    loans (fst (LoanForm.handleSubmit parseFloat parseInt clientsProp sel amt wks
                  user today newId loanError clientError db)) = loans db ++ [row] ->
    forall name payments before after,
      let joined := mkJoined row name payments in
      let st := CashFlow.process (before ++ joined :: after) in
      In (CashFlow.summarize joined) (CashFlow.completedLoans st) /\
      List.Forall (fun s => CashFlow.s_status s = "pending") (CashFlow.activeLoans st).
Proof.
  intros pf pi cs sel amt wks user today newId e1 e2 db row Hrow
         name payments before after joined st.
  assert (Hst : status row = "active").
  { destruct (handleSubmit_loans pf pi cs sel amt wks user today newId e1 e2 db)
      as [H | (uid & d & w & _ & _ & _ & _ & H)]; rewrite Hrow in H.
    - symmetry in H. by apply app_tail_neq in H.
    - apply app_tail_inj in H as [_ ->]. reflexivity. }
  destruct (cashflow_lists_partition_helper (before ++ joined :: after)) as (Ha & Hc).
  subst st. rewrite Ha, Hc. split.
  - apply in_map, filter_In. split; [apply in_elt|].
    unfold cash_active, joined. simpl. by rewrite Hst.
  - apply List.Forall_forall. intros s Hs.
    apply in_map_iff in Hs as (loan & <- & Hloan).
    apply filter_In in Hloan as [_ Hloan]. simpl.
    by apply cash_active_pending.
Qed.

(** X5 at the form's loan of 500 over 4 weeks, alone in the list. *)
Lemma loan_form_loan_is_filed_as_completed_witness :
  exists row,
    loans (fst (LoanForm.handleSubmit Sample.parseFloat Sample.parseInt
                  [Sample.maria] "c1" "500" "4" (Some "u1") 0 "L1" None None
                  Sample.db0)) = loans Sample.db0 ++ [row] /\
    In (CashFlow.summarize (mkJoined row (Some "Maria") []))
       (CashFlow.completedLoans (CashFlow.process [mkJoined row (Some "Maria") []])).
Proof.
  eexists. split; [vm_compute; reflexivity|].
  match goal with
  | |- In (CashFlow.summarize (mkJoined ?r _ _)) _ =>
    exact (proj1 (loan_form_loan_is_filed_as_completed
                    Sample.parseFloat Sample.parseInt [Sample.maria] "c1" "500" "4"
                    (Some "u1") 0 "L1" None None Sample.db0 r eq_refl
                    (Some "Maria") [] [] []))
  end.
Defined.

(** ** The simulator's amount handlers *)

Module MinMaxFacts.

(** [Math.min(x, y)] is never above [x] either. *)
Lemma Math_min_not_above_l x y : JS.gt (JS.Math_min x y) x = false.
Proof.
  unfold JS.gt.
  assert (Hgen : SFltb x (if SFltb y x then y else x) = false).
  { destruct (SFltb y x) eqn:H; [by apply NumberFacts.SFltb_asym|apply NumberFacts.SFltb_irrefl]. }
  destruct x as [sx|sx| |sx mx ex], y as [sy|sy| |sy my ey];
    try exact Hgen; reflexivity.
Qed.

(** [Math.max(x, y)] is never below [y]. *)
Lemma Math_max_not_below x y : JS.lt (JS.Math_max x y) y = false.
Proof.
  unfold JS.lt.
  assert (Hgen : SFltb (if SFltb x y then y else x) y = false).
  { destruct (SFltb x y) eqn:H; [apply NumberFacts.SFltb_irrefl|exact H]. }
  destruct x as [sx|sx| |sx mx ex], y as [sy|sy| |sy my ey];
    try exact Hgen; reflexivity.
Qed.

(** [Math.max] returns one of its arguments, or NaN. *)
Lemma Math_max_cases x y :
  JS.Math_max x y = x \/ JS.Math_max x y = y \/ JS.Math_max x y = JS.NaN.
Proof.
  destruct x as [sx|sx| |sx mx ex], y as [sy|sy| |sy my ey]; simpl; auto;
    try (destruct sx, sy; simpl; auto);
    try (destruct (SFltb _ _); auto).
Qed.

End MinMaxFacts.

(** X6.  With a client selected, the amount the simulator keeps after
    [handleAmountChange], and the amount it suggests for a first loan, are
    never above the client's available credit (the suggestion is not above
    500 either); so [handleLoanCreation] run on the state after
    [handleAmountChange] never answers with the credit error, and stores a
    loan of that amount as soon as the user is signed in and the insert
    succeeds. *)
Theorem simulator_amount_stays_within_credit :
  forall clientsState sel amount total wks fpd value client,
    LoanSimulator.selectedClient clientsState sel = Some client ->
    let next := LoanSimulator.handleAmountChange clientsState sel amount total value in
    let suggested := LoanSimulator.suggestOnSelect clientsState sel amount total in
    JS.gt (fst next) (available_credit client) = false /\
    (is_first_loan client = true ->
     JS.gt (fst suggested) (available_credit client) = false /\
     JS.gt (fst suggested) (JS.of_Z 500) = false) /\
    forall user today newId loanError creditError db,
      let res := LoanSimulator.handleLoanCreation clientsState sel (fst next) (snd next)
                   wks fpd user today newId loanError creditError db in
      snd res <> [mkToast "Erro" destructive] /\
      (user <> None -> loanError = None ->
       exists row, loans (fst res) = loans db ++ [row] /\
                   loan_amount row = fst next /\ total_amount row = snd next).
Proof.
  intros cs sel amount total wks fpd value client Hsel next suggested.
  assert (Hnext : fst next = JS.Math_min value (available_credit client)).
  { subst next. unfold LoanSimulator.handleAmountChange. rewrite Hsel.
    by destruct (_ && _). }
  assert (Hle : JS.gt (fst next) (available_credit client) = false).
  { rewrite Hnext. apply NumberFacts.Math_min_not_above. }
  split; [exact Hle|]. split.
  - intros Hfirst. subst suggested. unfold LoanSimulator.suggestOnSelect.
    rewrite Hsel, Hfirst. cbn [fst]. split.
    + apply NumberFacts.Math_min_not_above.
    + apply MinMaxFacts.Math_min_not_above_l.
  - intros user today newId e1 e2 db res. subst res.
    unfold LoanSimulator.handleLoanCreation, LoanSimulator.loanDetails,
      LoanSimulator.calculateLoanDetails.
    rewrite Hsel. cbn [LoanSimulator.loanAmount LoanSimulator.totalAmount].
    rewrite Hle. split.
    + destruct user; [|done]. destruct e1; [done|]. by destruct e2.
    + intros Hu ->. destruct user as [uid|]; [|done].
      eexists. split.
      * destruct e2; reflexivity.
      * split; reflexivity.
Qed.

(** X6 at a client with 1000 of credit and a request of 1500: the amount
    kept is 1000 and the loan is stored. *)
Lemma simulator_amount_stays_within_credit_witness :
  LoanSimulator.selectedClient [Sample.maria] "c1" = Some Sample.maria /\
  fst (LoanSimulator.handleAmountChange [Sample.maria] "c1" (JS.of_Z 500)
         (JS.of_Z 675) (JS.of_Z 1500)) = JS.of_Z 1000 /\
  JS.gt (fst (LoanSimulator.handleAmountChange [Sample.maria] "c1" (JS.of_Z 500)
                (JS.of_Z 675) (JS.of_Z 1500)))
        (available_credit Sample.maria) = false.
Proof.
  assert (H1 : LoanSimulator.selectedClient [Sample.maria] "c1" = Some Sample.maria)
    by reflexivity.
  assert (H2 : fst (LoanSimulator.handleAmountChange [Sample.maria] "c1" (JS.of_Z 500)
                      (JS.of_Z 675) (JS.of_Z 1500)) = JS.of_Z 1000)
    by (vm_compute; reflexivity).
  exact (conj H1 (conj H2
           (proj1 (simulator_amount_stays_within_credit [Sample.maria] "c1"
                     (JS.of_Z 500) (JS.of_Z 675) 4 7 (JS.of_Z 1500) Sample.maria H1)))).
Defined.

(** X7.  With a client selected, the total the simulator keeps after
    [handleTotalAmountChange] is the value entered, the loan amount plus 50,
    or NaN, and it is never below the loan amount plus 50.  The bound is
    not kept by [handleAmountChange], which scales the interest with the
    amount: from 500 repaid as 550, halving the amount leaves 250 repaid as
    275. *)
Theorem simulator_total_has_minimum_interest :
  (forall clientsState sel amount total value client,
     LoanSimulator.selectedClient clientsState sel = Some client ->
     let total' := LoanSimulator.handleTotalAmountChange clientsState sel amount total value in
     let minTotal := JS.add amount (JS.of_Z 50) in
     JS.lt total' minTotal = false /\
     (total' = value \/ total' = minTotal \/ total' = JS.NaN)) /\
  (let next := LoanSimulator.handleAmountChange [Sample.maria] "c1"
                 (JS.of_Z 500) (JS.of_Z 550) (JS.of_Z 250) in
   next = (JS.of_Z 250, JS.of_Z 275) /\
   JS.lt (snd next) (JS.add (fst next) (JS.of_Z 50)) = true).
Proof.
  split.
  - intros cs sel amount total value client Hsel total' minTotal.
    subst total' minTotal. unfold LoanSimulator.handleTotalAmountChange.
    rewrite Hsel. split.
    + apply MinMaxFacts.Math_max_not_below.
    + apply MinMaxFacts.Math_max_cases.
  - split; vm_compute; reflexivity.
Qed.

(** X7 at a client selected, amount 500 and an entered total of 510: the
    total kept is 550. *)
Lemma simulator_total_has_minimum_interest_witness :
  LoanSimulator.selectedClient [Sample.maria] "c1" = Some Sample.maria /\
  LoanSimulator.handleTotalAmountChange [Sample.maria] "c1" (JS.of_Z 500)
    (JS.of_Z 675) (JS.of_Z 510) = JS.of_Z 550 /\
  JS.lt (LoanSimulator.handleTotalAmountChange [Sample.maria] "c1" (JS.of_Z 500)
           (JS.of_Z 675) (JS.of_Z 510))
        (JS.add (JS.of_Z 500) (JS.of_Z 50)) = false.
Proof.
  assert (H1 : LoanSimulator.selectedClient [Sample.maria] "c1" = Some Sample.maria)
    by reflexivity.
  assert (H2 : LoanSimulator.handleTotalAmountChange [Sample.maria] "c1" (JS.of_Z 500)
                 (JS.of_Z 675) (JS.of_Z 510) = JS.of_Z 550)
    by (vm_compute; reflexivity).
  exact (conj H1 (conj H2
           (proj1 (proj1 simulator_total_has_minimum_interest [Sample.maria] "c1"
                     (JS.of_Z 500) (JS.of_Z 675) (JS.of_Z 510) Sample.maria H1)))).
Defined.

(** ** Deleting a loan *)

Lemma deleteLoan_clients loan r1 r2 r3 r4 db :
  let res := LoanList.deleteLoan true loan r1 r2 r3 r4 db in
  (status loan = "completed" -> clients (fst res) = clients db) /\
  (forall client,
     status loan <> "completed" -> r2 = None -> r3 = None ->
     select_client (client_id loan) db = Some client ->
     clients (fst res) =
       map (fun c => if String.eqb (cl_id c) (client_id loan)
                     then mkClient (cl_id c) (full_name c) (credit_limit c)
                            (JS.add (available_credit client) (loan_amount loan))
                            (is_first_loan c)
                     else c) (clients db)).
Proof.
  unfold LoanList.deleteLoan. cbn [negb]. split.
  - intros ->. change (String.eqb "completed" "completed") with true. cbn [negb].
    destruct r1, r4; reflexivity.
  - intros client Hst -> -> Hsel.
    apply String.eqb_neq in Hst. rewrite Hst. cbn [negb].
    assert (Hfetch : forall db1, clients db1 = clients db ->
              fetch_client (client_id loan) None db1 = Some client).
    { intros db1 H1. unfold fetch_client, select_client. rewrite H1. exact Hsel. }
    destruct r1; rewrite Hfetch by reflexivity; destruct r4; reflexivity.
Qed.

(** X8.  [deleteLoan], once confirmed and when the delete of the loan row
    succeeds, leaves no loan row with that id and no payment of that loan,
    keeps every other loan and payment in order, and reports success; the
    clients table is untouched for a loan shown as completed, and otherwise
    (the client row being read and updated) the rows of the loan's client
    get as [available_credit] the available credit read plus the whole
    principal, their other fields and the other rows staying as they were.
    Unconfirmed, it does nothing. *)
Theorem deleteLoan_removes_loan_and_payments :
  forall loan r1 r2 r3 db,
    let res := LoanList.deleteLoan true loan r1 r2 r3 None db in
    snd res = [mkToast "EXCLUÍDO!" plain] /\
    loans (fst res) = other_loans (ln_id loan) (loans db) /\
    loan_payments (fst res) = other_payments (ln_id loan) (loan_payments db) /\
    (forall l, In l (loans (fst res)) -> ln_id l <> ln_id loan) /\
    (forall p, In p (loan_payments (fst res)) -> loan_id p <> ln_id loan) /\
    (status loan = "completed" -> clients (fst res) = clients db) /\
    (forall client,
       status loan <> "completed" -> r2 = None -> r3 = None ->
       select_client (client_id loan) db = Some client ->
       clients (fst res) =
         map (fun c => if String.eqb (cl_id c) (client_id loan)
                       then mkClient (cl_id c) (full_name c) (credit_limit c)
                              (JS.add (available_credit client) (loan_amount loan))
                              (is_first_loan c)
                       else c) (clients db)) /\
    (forall r4, LoanList.deleteLoan false loan r1 r2 r3 r4 db = (db, [])).
Proof.
  intros loan r1 r2 r3 db res.
  destruct (deleteLoan_clients loan r1 r2 r3 None db) as [Hc1 Hc2]. fold res in Hc1, Hc2.
  assert (Hl : loans (fst res) = other_loans (ln_id loan) (loans db)).
  { subst res. unfold LoanList.deleteLoan. cbn [negb].
    repeat break_match; reflexivity. }
  assert (Hp : loan_payments (fst res) = other_payments (ln_id loan) (loan_payments db)).
  { subst res. unfold LoanList.deleteLoan, other_payments. cbn [negb].
    repeat break_match; try reflexivity;
      cbn [fst delete_loan delete_payments_of update_client loan_payments];
      rewrite CleanupFacts.filter_filter; apply filter_ext; intros p;
      apply andb_diag. }
  repeat apply conj; try assumption.
  - subst res. unfold LoanList.deleteLoan. reflexivity.
  - intros l. rewrite Hl. unfold other_loans. rewrite filter_In.
    intros [_ H] Heq. rewrite Heq, String.eqb_refl in H. discriminate.
  - intros p. rewrite Hp. unfold other_payments. rewrite filter_In.
    intros [_ H] Heq. rewrite Heq, String.eqb_refl in H. discriminate.
  - reflexivity.
Qed.

(** X8 on a store with the sample loan of 500 and one payment of it, the
    client having 1000 of credit: the loan and the payment go, and the
    credit becomes 1500. *)
Lemma deleteLoan_removes_loan_and_payments_witness :
  let db := mkStore [Sample.maria] [Sample.loan1]
              [mkPayment "p1" "L1" "u1" (JS.of_Z 100) 10 1] in
  let res := LoanList.deleteLoan true Sample.loan1 None None None None db in
  status Sample.loan1 <> "completed" /\
  select_client (client_id Sample.loan1) db = Some Sample.maria /\
  loans (fst res) = [] /\ loan_payments (fst res) = [] /\
  clients (fst res) = [mkClient "c1" "Maria" (JS.of_Z 1000) (JS.of_Z 1500) true].
Proof.
  intros db res.
  assert (H1 : status Sample.loan1 <> "completed") by discriminate.
  assert (H2 : select_client (client_id Sample.loan1) db = Some Sample.maria)
    by reflexivity.
  destruct (deleteLoan_removes_loan_and_payments Sample.loan1 None None None db)
    as (_ & Hl & Hp & _ & _ & _ & Hc & _).
  assert (H3 : clients (fst res)
               = [mkClient "c1" "Maria" (JS.of_Z 1000) (JS.of_Z 1500) true]).
  { etransitivity; [exact (Hc Sample.maria H1 eq_refl eq_refl H2)|].
    vm_compute. reflexivity. }
  exact (conj H1 (conj H2 (conj Hl (conj Hp H3)))).
Defined.

(** X9.  [deleteLoan] is not a transaction.  When it is confirmed, the
    delete of the payments goes through and the delete of the loan row is
    refused, the error is reported and the loan row stays, but the payments
    of the loan are gone; and the credit is already changed as on success:
    untouched for a loan shown as completed, and otherwise (the client row
    being read and updated) the rows of the loan's client hold the
    available credit read plus the whole principal. *)
Theorem deleteLoan_failure_keeps_earlier_steps :
  forall loan r2 r3 e db,
    let res := LoanList.deleteLoan true loan None r2 r3 (Some e) db in
    snd res = [mkToast "ERRO!" destructive] /\
    loans (fst res) = loans db /\
    loan_payments (fst res) = other_payments (ln_id loan) (loan_payments db) /\
    (status loan = "completed" -> clients (fst res) = clients db) /\
    (forall client,
       status loan <> "completed" -> r2 = None -> r3 = None ->
       select_client (client_id loan) db = Some client ->
       clients (fst res) =
         map (fun c => if String.eqb (cl_id c) (client_id loan)
                       then mkClient (cl_id c) (full_name c) (credit_limit c)
                              (JS.add (available_credit client) (loan_amount loan))
                              (is_first_loan c)
                       else c) (clients db)).
Proof.
  intros loan r2 r3 e db res.
  destruct (deleteLoan_clients loan None r2 r3 (Some e) db) as [Hc1 Hc2].
  fold res in Hc1, Hc2.
  repeat apply conj; try assumption.
  - reflexivity.
  - subst res. unfold LoanList.deleteLoan. cbn [negb].
    repeat break_match; reflexivity.
  - subst res. unfold LoanList.deleteLoan. cbn [negb].
    repeat break_match; reflexivity.
Qed.

(** X9 on a store with the sample loan of 500 and one payment of it, the
    client having 1000 of credit: the loan row stays, the payment is gone
    and the credit is 1500. *)
Lemma deleteLoan_failure_keeps_earlier_steps_witness :
  let db := mkStore [Sample.maria] [Sample.loan1]
              [mkPayment "p1" "L1" "u1" (JS.of_Z 100) 10 1] in
  let res := LoanList.deleteLoan true Sample.loan1 None None None (Some "denied") db in
  status Sample.loan1 <> "completed" /\
  select_client (client_id Sample.loan1) db = Some Sample.maria /\
  snd res = [mkToast "ERRO!" destructive] /\
  loans (fst res) = [Sample.loan1] /\ loan_payments (fst res) = [] /\
  clients (fst res) = [mkClient "c1" "Maria" (JS.of_Z 1000) (JS.of_Z 1500) true].
Proof.
  intros db res.
  assert (H1 : status Sample.loan1 <> "completed") by discriminate.
  assert (H2 : select_client (client_id Sample.loan1) db = Some Sample.maria)
    by reflexivity.
  destruct (deleteLoan_failure_keeps_earlier_steps Sample.loan1 None None "denied" db)
    as (Ht & Hl & Hp & _ & Hc).
  assert (H3 : clients (fst res)
               = [mkClient "c1" "Maria" (JS.of_Z 1000) (JS.of_Z 1500) true]).
  { etransitivity; [exact (Hc Sample.maria H1 eq_refl eq_refl H2)|].
    vm_compute. reflexivity. }
  exact (conj H1 (conj H2 (conj Ht (conj Hl (conj Hp H3))))).
Defined.

(** ** Simple payments of the loan list *)

(** X10.  [registerSimplePaymentForLoan] (and [registerSimplePayment] on the
    selected loan) writes nothing but one payment row: the clients and
    loans tables are never changed, so no credit is given back even by the
    last installment; a refused insert leaves the store as it was, and an
    accepted one appends a payment of the loan's weekly amount for week
    [weeks_paid + 1], dated today, under a user id that is never empty. *)
Theorem simple_payment_only_appends_a_payment :
  forall user loan today newId paymentError receiptError db,
    let res := LoanList.registerSimplePaymentForLoan user loan today newId
                 paymentError receiptError db in
    LoanList.registerSimplePayment user (Some loan) today newId
      paymentError receiptError db = res /\
    clients (fst res) = clients db /\
    loans (fst res) = loans db /\
    (paymentError <> None -> fst res = db) /\
    (paymentError = None ->
     exists p,
       loan_payments (fst res) = loan_payments db ++ [p] /\
       p_id p = newId /\ loan_id p = ln_id loan /\
       week_number p = weeks_paid loan + 1 /\
       payment_amount p = weekly_payment loan /\
       payment_date p = today /\
       p_user_id p <> "").
Proof.
  intros user loan today newId e r db res. subst res.
  unfold LoanList.registerSimplePayment, LoanList.registerSimplePaymentForLoan.
  repeat apply conj.
  - reflexivity.
  - destruct e, r; reflexivity.
  - destruct e, r; reflexivity.
  - intros He. destruct e; [reflexivity|done].
  - intros ->. eexists. split; [destruct r; reflexivity|].
    repeat apply conj; try reflexivity.
    cbn [p_user_id]. destruct user as [uid|]; [|discriminate].
    destruct (String.eqb uid "") eqn:Hu; [discriminate|].
    by apply String.eqb_neq.
Qed.

(** X10 at the sample loan. *)
Lemma simple_payment_only_appends_a_payment_witness :
  let res := LoanList.registerSimplePaymentForLoan None Sample.loan1 12 "p1"
               None None Sample.db1 in
  clients (fst res) = clients Sample.db1 /\
  exists p, loan_payments (fst res) = loan_payments Sample.db1 ++ [p] /\
            week_number p = 1.
Proof.
  intros res.
  destruct (simple_payment_only_appends_a_payment None Sample.loan1 12 "p1"
              None None Sample.db1) as (_ & Hc & _ & _ & Hp).
  destruct (Hp eq_refl) as (p & Hp1 & _ & _ & Hw & _).
  exact (conj Hc (ex_intro _ p (conj Hp1 Hw))).
Defined.

Lemma size_weeks_snoc (ws : list Z) (w : Z) :
  size (LoanList.uniqueWeeks (ws ++ [w])) =
    if decide (w ∈ ws) then size (LoanList.uniqueWeeks ws)
    else S (size (LoanList.uniqueWeeks ws)).
Proof.
  unfold LoanList.uniqueWeeks. rewrite list_to_set_app_L. simpl.
  rewrite (right_id_L ∅ (∪)).
  destruct (decide (w ∈ ws)) as [Hin|Hnin].
  - f_equal. apply set_eq. intros x.
    rewrite elem_of_union, elem_of_singleton, !elem_of_list_to_set.
    split; [intros [H| ->]; assumption|tauto].
  - rewrite size_union.
    + rewrite size_singleton. lia.
    + intros x. rewrite elem_of_list_to_set, elem_of_singleton. intros H ->. done.
Qed.

Lemma weeks_below_count_fresh (ws : list Z) :
  List.Forall (fun w => w <= Z.of_nat (size (LoanList.uniqueWeeks ws))) ws ->
  ~ (Z.of_nat (size (LoanList.uniqueWeeks ws)) + 1) ∈ ws.
Proof.
  intros Hall Hin. rewrite List.Forall_forall in Hall.
  apply list_elem_of_In, Hall in Hin. lia.
Qed.

(** X11.  The loan list shows weeks paid as the number of distinct week
    numbers among the payments, and registers a simple payment for week
    [weeks_paid + 1] of the loan as shown.  Once that payment is among the
    loan's payments, the list shows one week more when that week number was
    not recorded yet, and the same count when it was (the payment is stored
    but moves nothing).  When no recorded week number exceeds the count
    shown, the payment always moves the count by one, and that condition
    holds again afterwards. *)
Theorem simple_payment_advances_the_recomputed_week :
  forall user j today newId db,
    let shown := LoanList.withRealStatus j in
    let res := LoanList.registerSimplePaymentForLoan user shown today newId
                 None None db in
    exists p,
      loan_payments (fst res) = loan_payments db ++ [p] /\
      let shown' := LoanList.withRealStatus (with_payment j p) in
      (In (week_number p) (map week_number (jl_payments j)) ->
       weeks_paid shown' = weeks_paid shown) /\
      (~ In (week_number p) (map week_number (jl_payments j)) ->
       weeks_paid shown' = weeks_paid shown + 1) /\
      (List.Forall (fun q => week_number q <= weeks_paid shown) (jl_payments j) ->
       weeks_paid shown' = weeks_paid shown + 1 /\
       List.Forall (fun q => week_number q <= weeks_paid shown')
                   (jl_payments (with_payment j p))).
Proof.
  intros user j today newId db shown res.
  eexists. split; [reflexivity|].
  cbn [week_number]. unfold shown, LoanList.withRealStatus, with_payment.
  cbn [weeks_paid patch_loan jl_payments jl_loan].
  rewrite map_app. cbn [map week_number].
  set (ws := map week_number (jl_payments j)).
  set (k := size (LoanList.uniqueWeeks ws)).
  pose proof (size_weeks_snoc ws (Z.of_nat k + 1)) as Hsize. fold k in Hsize.
  repeat apply conj.
  - intros Hin. apply list_elem_of_In in Hin.
    rewrite Hsize. by rewrite decide_True.
  - intros Hnin. rewrite Hsize. rewrite decide_False; [lia|].
    intros H. by apply Hnin, list_elem_of_In.
  - intros Hall.
    assert (Hws : List.Forall (fun w => w <= Z.of_nat k) ws).
    { unfold ws. rewrite List.Forall_forall in *. intros w Hw.
      apply in_map_iff in Hw as (q & <- & Hq). by apply Hall. }
    pose proof (weeks_below_count_fresh ws Hws) as Hfresh. fold k in Hfresh.
    rewrite Hsize, decide_False by exact Hfresh.
    split; [lia|].
    apply Forall_app. split.
    + eapply Forall_impl; [exact Hall|]. intros q Hq. simpl in Hq. lia.
    + constructor; [|constructor]. simpl. lia.
Qed.

(** X11 at a loan with weeks 1 and 2 paid: the third payment shows three
    weeks paid. *)
Lemma simple_payment_advances_the_recomputed_week_witness :
  let j := mkJoined Sample.loan1 (Some "Maria")
             [mkPayment "p1" "L1" "u1" (JS.of_Z 100) 10 1;
              mkPayment "p2" "L1" "u1" (JS.of_Z 100) 17 2] in
  exists p,
    week_number p = 3 /\
    List.Forall (fun q => week_number q <= weeks_paid (LoanList.withRealStatus j))
                (jl_payments j) /\
    weeks_paid (LoanList.withRealStatus (with_payment j p)) =
      weeks_paid (LoanList.withRealStatus j) + 1.
Proof.
  intros j.
  assert (Hall : List.Forall
                   (fun q => week_number q <= weeks_paid (LoanList.withRealStatus j))
                   (jl_payments j)).
  { repeat constructor; vm_compute; discriminate. }
  destruct (simple_payment_advances_the_recomputed_week (Some "u1") j 24 "p3"
              Sample.db1) as (p & Hp & _ & _ & Hadv).
  exists p. split.
  - apply app_tail_inj in Hp as [_ <-]. vm_compute. reflexivity.
  - exact (conj Hall (proj1 (Hadv Hall))).
Defined.

(** ** Dashboard figures *)

Lemma activeLoansOf_snoc uid db row cs ps :
  Dashboard.activeLoansOf uid (mkStore cs (loans db ++ [row]) ps) =
    Dashboard.activeLoansOf uid db
    ++ (if String.eqb (ln_user_id row) uid && String.eqb (status row) "active"
        then [row] else []).
Proof.
  unfold Dashboard.activeLoansOf. cbn [loans].
  rewrite List.filter_app. reflexivity.
Qed.

Lemma activeLoansOf_loans uid db db' :
  loans db' = loans db -> Dashboard.activeLoansOf uid db' = Dashboard.activeLoansOf uid db.
Proof. unfold Dashboard.activeLoansOf. by intros ->. Qed.

(** X12.  The dashboard counts the loans of status ["active"] only.  A run
    of the simulator's [handleLoanCreation], which stores its loan as
    ["pending"], never changes the dashboard figures; a loan stored by the
    loan form for the signed-in user adds one to the active loans and its
    number of weeks to the pending payments. *)
Theorem dashboard_counts_form_loans_only :
  (forall clientsState sel amount total wks fpd user today newId loanError
          creditError db viewer activeError loanStats,
     Dashboard.fetchLoanStats viewer activeError
       (fst (LoanSimulator.handleLoanCreation clientsState sel amount total wks fpd
               user today newId loanError creditError db)) loanStats =
     Dashboard.fetchLoanStats viewer activeError db loanStats) /\
  (forall parseFloat parseInt clientsProp sel amt wks uid today newId loanError
          clientError db row loanStats,
     let db' := fst (LoanForm.handleSubmit parseFloat parseInt clientsProp sel amt wks
                       (Some uid) today newId loanError clientError db) in
     loans db' = loans db ++ [row] ->
     let before := Dashboard.fetchLoanStats (Some uid) None db loanStats in
     let after := Dashboard.fetchLoanStats (Some uid) None db' loanStats in
     Dashboard.activeLoans after = S (Dashboard.activeLoans before) /\
     Dashboard.pendingPayments after =
       Dashboard.pendingPayments before + total_weeks row).
Proof.
  split.
  - intros cs sel amount total wks fpd user today newId e1 e2 db viewer err stats.
    unfold Dashboard.fetchLoanStats.
    destruct viewer as [v|]; [|reflexivity]. destruct err; [reflexivity|].
    assert (H : Dashboard.activeLoansOf v
                  (fst (LoanSimulator.handleLoanCreation cs sel amount total wks fpd
                          user today newId e1 e2 db)) =
                Dashboard.activeLoansOf v db); [|by rewrite H].
    destruct (handleLoanCreation_loans cs sel amount total wks fpd user today newId
                e1 e2 db) as [H | (uid & d & _ & _ & _ & H)].
    + by apply activeLoansOf_loans.
    + unfold Dashboard.activeLoansOf. rewrite H, List.filter_app. simpl.
      rewrite andb_false_r. by rewrite app_nil_r.
  - intros pf pi cs sel amt wks uid today newId e1 e2 db row stats db' Hrow before after.
    assert (Hr : ln_user_id row = uid /\ status row = "active" /\ weeks_paid row = 0).
    { destruct (handleSubmit_loans pf pi cs sel amt wks (Some uid) today newId e1 e2 db)
        as [H | (uid' & d & w & [= <-] & _ & _ & _ & H)]; fold db' in H; rewrite Hrow in H.
      - symmetry in H. by apply app_tail_neq in H.
      - apply app_tail_inj in H as [_ ->]. done. }
    destruct Hr as (Hu & Hs & Hw).
    assert (Hact : Dashboard.activeLoansOf uid db' = Dashboard.activeLoansOf uid db ++ [row]).
    { unfold Dashboard.activeLoansOf. rewrite Hrow, List.filter_app. simpl.
      by rewrite Hu, Hs, String.eqb_refl. }
    subst before after. unfold Dashboard.fetchLoanStats.
    cbn [Dashboard.activeLoans Dashboard.pendingPayments].
    rewrite Hact. split.
    + rewrite length_app. simpl. lia.
    + rewrite fold_left_app. simpl. lia.
Qed.

(** X12 at the form's loan of 500 over 4 weeks in an empty loans table. *)
Lemma dashboard_counts_form_loans_only_witness :
  let db' := fst (LoanForm.handleSubmit Sample.parseFloat Sample.parseInt
                    [Sample.maria] "c1" "500" "4" (Some "u1") 0 "L1" None None
                    Sample.db0) in
  exists row,
    loans db' = loans Sample.db0 ++ [row] /\
    Dashboard.activeLoans
      (Dashboard.fetchLoanStats (Some "u1") None db' (Dashboard.mkStats 0 (JS.of_Z 0) 0))
    = 1%nat.
Proof.
  intros db'. eexists. split; [vm_compute; reflexivity|].
  match goal with
  | |- _ = _ =>
    exact (proj1 (proj2 dashboard_counts_form_loans_only
                    Sample.parseFloat Sample.parseInt [Sample.maria] "c1" "500" "4"
                    "u1" 0 "L1" None None Sample.db0 _
                    (Dashboard.mkStats 0 (JS.of_Z 0) 0) eq_refl))
  end.
Defined.

(** ** Payments from the upcoming-payments screen *)



(** ** The payment schedule of a loan *)

(** X14.  The schedule shown for a loan has one row per week 1 to
    [total_weeks], in order (none when [total_weeks] is not positive); the
    row of week [w] is dated [w] weeks after the loan date and carries the
    weekly payment; it is marked paid exactly when a payment with that week
    number is held, overdue only when unpaid and its day has started,
    current exactly when [w = weeks_paid + 1], so no row is both paid and
    overdue, and an unpaid row before an overdue one is overdue too. *)
Theorem payment_schedule_rows :
  forall now loanPayments loan,
    let rows := LoanDetails.generatePaymentSchedule now loanPayments loan in
    map LoanDetails.week rows = weeks_upto (Z.to_nat (total_weeks loan)) /\
    List.Forall
      (fun row =>
         LoanDetails.row_date row = loan_date loan + 7 * LoanDetails.week row /\
         LoanDetails.amount row = weekly_payment loan /\
         LoanDetails.isPaid row =
           existsb (fun p => week_number p =? LoanDetails.week row) loanPayments /\
         LoanDetails.isOverdue row =
           negb (LoanDetails.isPaid row)
           && (LoanDetails.startOfDay (LoanDetails.row_date row) <? now) /\
         LoanDetails.isCurrent row = (LoanDetails.week row =? weeks_paid loan + 1) /\
         LoanDetails.isPaid row && LoanDetails.isOverdue row = false)
      rows /\
    (forall r1 r2,
       In r1 rows -> In r2 rows ->
       LoanDetails.week r1 <= LoanDetails.week r2 ->
       LoanDetails.isOverdue r2 = true -> LoanDetails.isPaid r1 = false ->
       LoanDetails.isOverdue r1 = true).
Proof.
  intros now ps loan rows.
  assert (Hall : List.Forall
      (fun row =>
         LoanDetails.row_date row = loan_date loan + 7 * LoanDetails.week row /\
         LoanDetails.amount row = weekly_payment loan /\
         LoanDetails.isPaid row =
           existsb (fun p => week_number p =? LoanDetails.week row) ps /\
         LoanDetails.isOverdue row =
           negb (LoanDetails.isPaid row)
           && (LoanDetails.startOfDay (LoanDetails.row_date row) <? now) /\
         LoanDetails.isCurrent row = (LoanDetails.week row =? weeks_paid loan + 1) /\
         LoanDetails.isPaid row && LoanDetails.isOverdue row = false)
      rows).
  { apply List.Forall_forall. intros row Hrow.
    apply in_map_iff in Hrow as (i & <- & _).
    cbn [LoanDetails.row_date LoanDetails.week LoanDetails.amount LoanDetails.isPaid
         LoanDetails.isOverdue LoanDetails.isCurrent].
    repeat apply conj; try reflexivity.
    - unfold addDays. lia.
    - generalize (Z.of_nat i + 1). intros w. clear.
      induction ps as [|p ps IH]; simpl; [done|].
      destruct (week_number p =? w); [done|exact IH].
    - by destruct (List.find _ ps). }
  repeat apply conj.
  - subst rows. unfold LoanDetails.generatePaymentSchedule, weeks_upto.
    by rewrite map_map.
  - exact Hall.
  - intros r1 r2 H1 H2 Hle Hover Hunpaid.
    rewrite List.Forall_forall in Hall.
    destruct (Hall r1 H1) as (Hd1 & _ & _ & Ho1 & _).
    destruct (Hall r2 H2) as (Hd2 & _ & _ & Ho2 & _).
    rewrite Ho1, Hunpaid. rewrite Ho2 in Hover.
    apply andb_prop in Hover as [_ Hover].
    unfold LoanDetails.startOfDay in *. simpl. lia.
Qed.

(** X14 at the sample loan with its first week paid, read on day 20: week 1
    is paid, week 2 (day 17) is overdue. *)
Lemma payment_schedule_rows_witness :
  let rows := LoanDetails.generatePaymentSchedule (LoanDetails.startOfDay 20 + 1)
                [mkPayment "p1" "L1" "u1" (JS.of_Z 100) 10 1] Sample.loan1 in
  map LoanDetails.week rows = [1; 2; 3; 4] /\
  map LoanDetails.isPaid rows = [true; false; false; false] /\
  map LoanDetails.isOverdue rows = [false; true; false; false] /\
  (forall r1 r2,
     In r1 rows -> In r2 rows ->
     LoanDetails.week r1 <= LoanDetails.week r2 ->
     LoanDetails.isOverdue r2 = true -> LoanDetails.isPaid r1 = false ->
     LoanDetails.isOverdue r1 = true).
Proof.
  intros rows.
  assert (H1 : map LoanDetails.week rows = [1; 2; 3; 4]) by reflexivity.
  assert (H2 : map LoanDetails.isPaid rows = [true; false; false; false])
    by reflexivity.
  assert (H3 : map LoanDetails.isOverdue rows = [false; true; false; false])
    by reflexivity.
  exact (conj H1 (conj H2 (conj H3
           (proj2 (proj2 (payment_schedule_rows (LoanDetails.startOfDay 20 + 1)
                            [mkPayment "p1" "L1" "u1" (JS.of_Z 100) 10 1]
                            Sample.loan1)))))).
Defined.





(** ** The activity log: reading, counting, clearing *)

Module LogFacts.
Import ActivityLogger LogSpec.

Lemma filter_true {A} (l : list A) : List.filter (fun _ => true) l = l.
Proof. induction l as [|a l IH]; simpl; [done|]. by rewrite IH. Qed.

Lemma filter_all {A} (f : A -> bool) (l : list A) :
  List.Forall (fun a => f a = true) l -> List.filter f l = l.
Proof.
  induction 1 as [|a l Ha _ IH]; simpl; [done|]. by rewrite Ha, IH.
Qed.

Lemma filter_is_sublist {A} (f : A -> bool) (l : list A) : sublist (List.filter f l) l.
Proof.
  induction l as [|a l IH]; simpl; [constructor|].
  destruct (f a); by constructor.
Qed.

Lemma filter_length_le {A} (f : A -> bool) (l : list A) :
  (length (List.filter f l) <= length l)%nat.
Proof. apply sublist_length, filter_is_sublist. Qed.

Lemma filter_length_all {A} (f : A -> bool) (l : list A) :
  length (List.filter f l) = length l -> List.filter f l = l.
Proof.
  induction l as [|a l IH]; simpl; [done|].
  destruct (f a); simpl.
  - intros [= H]. by rewrite IH.
  - intros H. pose proof (filter_length_le f l). lia.
Qed.

Lemma slice_to_sublist {A} (l : list A) k : sublist (slice_to l k) l.
Proof. unfold slice_to. destruct (k <? 0); apply sublist_take. Qed.

Lemma slice_to_pos {A} (l : list A) k : 0 < k -> slice_to l k = take (Z.to_nat k) l.
Proof. intros H. unfold slice_to. destruct (k <? 0) eqn:Hk; [lia|done]. Qed.

Section Host.
Variable toLowerCase : string -> string.
Variable parseDate : string -> option Z.

Lemma getLogs_filter f self :
  getLogs toLowerCase parseDate (Some f) self =
    cut (f_limit f) (List.filter (matches toLowerCase parseDate f) (logs self)).
Proof.
  unfold getLogs, cut.
  set (l0 := logs self).
  set (pu := fun log => match f_user f with
                        | Some u => String.eqb u ""
                                    || includes (toLowerCase (user log)) (toLowerCase u)
                        | None => true end).
  set (pt := fun log => match f_type f with
                        | Some ty => bool_decide (type log = ty)
                        | None => true end).
  set (pe := fun log => match f_entity f with
                        | Some e => String.eqb e ""
                                    || includes (toLowerCase (entity log)) (toLowerCase e)
                        | None => true end).
  set (ps := fun log => match f_startDate f with
                        | Some d => date_ge (parseDate (timestamp log)) d
                        | None => true end).
  set (pn := fun log => match f_endDate f with
                        | Some d => date_le (parseDate (timestamp log)) d
                        | None => true end).
  set (l1 := match f_user f with Some _ => _ | None => _ end).
  assert (H1 : l1 = List.filter pu l0).
  { subst l1 pu. destruct (f_user f) as [u|]; [|by rewrite filter_true].
    destruct (String.eqb u ""); [by rewrite filter_true|done]. }
  set (l2 := match f_type f with Some _ => _ | None => _ end).
  assert (H2 : l2 = List.filter pt l1).
  { subst l2 pt. destruct (f_type f); [done|by rewrite filter_true]. }
  set (l3 := match f_entity f with Some _ => _ | None => _ end).
  assert (H3 : l3 = List.filter pe l2).
  { subst l3 pe. destruct (f_entity f) as [e|]; [|by rewrite filter_true].
    destruct (String.eqb e ""); [by rewrite filter_true|done]. }
  set (l4 := match f_startDate f with Some _ => _ | None => _ end).
  assert (H4 : l4 = List.filter ps l3).
  { subst l4 ps. destruct (f_startDate f); [done|by rewrite filter_true]. }
  set (l5 := match f_endDate f with Some _ => _ | None => _ end).
  assert (H5 : l5 = List.filter pn l4).
  { subst l5 pn. destruct (f_endDate f); [done|by rewrite filter_true]. }
  assert (H : l5 = List.filter (matches toLowerCase parseDate f) l0).
  { rewrite H5, H4, H3, H2, H1. rewrite !CleanupFacts.filter_filter.
    apply filter_ext. intros log. unfold matches. fold (pu log) (pt log) (pe log)
      (ps log) (pn log). by rewrite !andb_assoc. }
  by rewrite H.
Qed.

Lemma cut_sublist limit l : sublist (cut limit l) l.
Proof.
  unfold cut. destruct limit as [n|]; [|done].
  destruct (n =? 0); [done|apply slice_to_sublist].
Qed.

Lemma sublist_In {A} (l1 l2 : list A) x : sublist l1 l2 -> In x l1 -> In x l2.
Proof.
  intros Hsub Hin. apply list_elem_of_In. eapply sublist_submseteq in Hsub.
  eapply elem_of_submseteq; [|exact Hsub]. by apply list_elem_of_In.
Qed.

End Host.

End LogFacts.

(** X16.  [getLogs] returns the stored entries that pass all the given
    tests together, in stored order, cut to the first [limit] of them when
    a positive limit is given; a limit of 0 cuts nothing, like no limit,
    and an empty user or entity text tests nothing.  So the result is
    always a sub-sequence of the log, every entry of it passes the tests,
    and without a filter it is the whole log. *)
Theorem getLogs_filters_then_cuts :
  forall toLowerCase parseDate self,
    ActivityLogger.getLogs toLowerCase parseDate None self = ActivityLogger.logs self /\
    forall f,
      let result := ActivityLogger.getLogs toLowerCase parseDate (Some f) self in
      let passing := List.filter (LogSpec.matches toLowerCase parseDate f)
                                 (ActivityLogger.logs self) in
      result = LogSpec.cut (ActivityLogger.f_limit f) passing /\
      sublist result (ActivityLogger.logs self) /\
      (forall log, In log result ->
                   In log (ActivityLogger.logs self) /\
                   LogSpec.matches toLowerCase parseDate f log = true) /\
      (ActivityLogger.f_limit f = None \/ ActivityLogger.f_limit f = Some 0 ->
       result = passing) /\
      (forall n, ActivityLogger.f_limit f = Some n -> 0 < n ->
                 result = take (Z.to_nat n) passing /\
                 (length result <= Z.to_nat n)%nat).
Proof.
  intros lower parse self. split; [reflexivity|].
  intros f result passing.
  assert (Hres : result = LogSpec.cut (ActivityLogger.f_limit f) passing)
    by apply LogFacts.getLogs_filter.
  assert (Hsub : sublist result passing) by (rewrite Hres; apply LogFacts.cut_sublist).
  repeat apply conj.
  - exact Hres.
  - etrans; [exact Hsub|apply LogFacts.filter_is_sublist].
  - intros log Hin. apply (LogFacts.sublist_In _ _ _ Hsub) in Hin.
    by apply filter_In in Hin.
  - rewrite Hres. by intros [-> | ->].
  - intros n Hn Hpos. rewrite Hres, Hn. unfold LogSpec.cut.
    destruct (n =? 0) eqn:H0; [lia|].
    rewrite LogFacts.slice_to_pos by done. split; [done|].
    rewrite length_take. lia.
Qed.

(** X16 on a log of three entries read with a limit of 2. *)
Lemma getLogs_filters_then_cuts_witness :
  let entry i := ActivityLogger.mkLog i "t" "ana" "Criar" "Cliente" None "d"
                   ActivityLogger.create in
  let self := ActivityLogger.mkLogger [entry "3"; entry "2"; entry "1"] "ana" in
  let f := ActivityLogger.mkFilter None None None (Some 2) None None in
  ActivityLogger.f_limit f = Some 2 /\ 0 < 2 /\
  ActivityLogger.getLogs id (fun _ => None) (Some f) self = [entry "3"; entry "2"] /\
  (length (ActivityLogger.getLogs id (fun _ => None) (Some f) self) <= Z.to_nat 2)%nat.
Proof.
  intros entry self f.
  assert (H1 : ActivityLogger.f_limit f = Some 2) by reflexivity.
  assert (H2 : 0 < 2) by lia.
  assert (H3 : ActivityLogger.getLogs id (fun _ => None) (Some f) self
               = [entry "3"; entry "2"]) by reflexivity.
  destruct (proj2 (getLogs_filters_then_cuts id (fun _ => None) self) f)
    as (_ & _ & _ & _ & Hlim).
  exact (conj H1 (conj H2 (conj H3 (proj2 (Hlim 2 H1 H2))))).
Defined.

(** X17.  What the log viewer loads is the first 200 entries of the log,
    newest first; right after an entry is logged, that entry heads what the
    viewer loads, followed by the first 199 entries of before. *)
Theorem viewer_loads_newest_200 :
  forall toLowerCase parseDate logger,
    ActivityLogs.loadSystemLogs toLowerCase parseDate logger =
      take 200 (ActivityLogger.logs logger) /\
    (length (ActivityLogs.loadSystemLogs toLowerCase parseDate logger) <= 200)%nat /\
    forall freshId now action entity entityId details type,
      let logged := ActivityLogger.log freshId now action entity entityId details
                      type logger in
      ActivityLogs.loadSystemLogs toLowerCase parseDate (fst logged) =
        snd logged :: take 199 (ActivityLogger.logs logger).
Proof.
  intros lower parse logger.
  assert (Hload : forall lg, ActivityLogs.loadSystemLogs lower parse lg =
                             take 200 (ActivityLogger.logs lg)).
  { intros lg. unfold ActivityLogs.loadSystemLogs.
    rewrite LogFacts.getLogs_filter. cbn [ActivityLogger.f_limit LogSpec.cut].
    change (200 =? 0) with false. cbv iota.
    rewrite LogFacts.slice_to_pos by lia.
    rewrite LogFacts.filter_all; [reflexivity|].
    apply List.Forall_forall. intros log _. reflexivity. }
  repeat apply conj.
  - apply Hload.
  - rewrite Hload, length_take. lia.
  - intros freshId now action entity entityId details type logged. subst logged.
    rewrite Hload. unfold ActivityLogger.log. cbn [fst snd ActivityLogger.logs].
    destruct (1000 <? _)%nat.
    + rewrite take_take. reflexivity.
    + reflexivity.
Qed.

Module ClearFacts.
Import ActivityLogger LogSpec.

Lemma filter_drops {A} (f : A -> bool) (l : list A) :
  forallb f l = false -> (length (List.filter f l) < length l)%nat.
Proof.
  induction l as [|a l IH]; simpl; [done|].
  destruct (f a); simpl.
  - intros H. apply IH in H. lia.
  - intros _. pose proof (LogFacts.filter_length_le f l). lia.
Qed.

Lemma log_logs freshId now action entity entityId details type self :
  logs (fst (log freshId now action entity entityId details type self)) =
    snd (log freshId now action entity entityId details type self)
    :: take 999 (logs self).
Proof.
  unfold log. cbn [fst snd logs].
  destruct (1000 <? _)%nat eqn:Hlen; [reflexivity|].
  apply Nat.ltb_ge in Hlen. simpl in Hlen.
  rewrite take_ge by lia. reflexivity.
Qed.

End ClearFacts.

(** X18.  [clearOldLogs] keeps the current user and never makes the log
    longer.  When no entry is older than the cutoff ([daysToKeep] days
    before now) it changes nothing and writes nothing; otherwise the log
    becomes one new system entry ["Limpeza de logs"], whose details give
    the number of entries removed, followed by the first 999 of the entries
    that are not older than the cutoff, in their order.  An entry whose
    timestamp does not parse counts as old. *)
Theorem clearOldLogs_drops_old_entries :
  forall parseDate freshId nowIso now daysToKeep self,
    let cutoff := now - daysToKeep * 86400000 in
    let kept := List.filter (LogSpec.recent parseDate cutoff) (ActivityLogger.logs self) in
    let self' := ActivityLogger.clearOldLogs parseDate freshId nowIso now daysToKeep self in
    ActivityLogger.currentUser self' = ActivityLogger.currentUser self /\
    (length (ActivityLogger.logs self') <= length (ActivityLogger.logs self))%nat /\
    (forallb (LogSpec.recent parseDate cutoff) (ActivityLogger.logs self) = true ->
     self' = self) /\
    (forallb (LogSpec.recent parseDate cutoff) (ActivityLogger.logs self) = false ->
     exists e,
       ActivityLogger.logs self' = e :: take 999 kept /\
       ActivityLogger.type e = ActivityLogger.system /\
       ActivityLogger.action e = "Limpeza de logs" /\
       ActivityLogger.user e = ActivityLogger.currentUser self /\
       ActivityLogger.details e =
         "Removidos "
         +:+ pretty (Z.of_nat (length (ActivityLogger.logs self) - length kept))
         +:+ " logs antigos (mais de " +:+ pretty daysToKeep +:+ " dias)") /\
    (forall log, In log kept -> parseDate (ActivityLogger.timestamp log) <> None).
Proof.
  intros parse freshId nowIso now days self cutoff kept self'.
  assert (Hle : (length kept <= length (ActivityLogger.logs self))%nat)
    by apply LogFacts.filter_length_le.
  assert (Hsame : forallb (LogSpec.recent parse cutoff) (ActivityLogger.logs self) = true ->
                  self' = self).
  { intros Hall. subst self'. unfold ActivityLogger.clearOldLogs.
    fold cutoff. fold (LogSpec.recent parse cutoff). fold kept.
    assert (Hk : kept = ActivityLogger.logs self).
    { apply LogFacts.filter_all, List.Forall_forall. intros log Hin.
      rewrite forallb_forall in Hall. by apply Hall. }
    rewrite Hk, Nat.sub_diag. change (0 <? 0)%nat with false. cbv iota.
    by destruct self. }
  assert (Hdrop : forallb (LogSpec.recent parse cutoff) (ActivityLogger.logs self) = false ->
                  self' = fst (ActivityLogger.logSystemAction freshId nowIso
                                 "Limpeza de logs"
                                 ("Removidos "
                                  +:+ pretty (Z.of_nat (length (ActivityLogger.logs self)
                                                        - length kept))
                                  +:+ " logs antigos (mais de " +:+ pretty days
                                  +:+ " dias)")
                                 (ActivityLogger.mkLogger kept
                                    (ActivityLogger.currentUser self)))).
  { intros Hsome. apply ClearFacts.filter_drops in Hsome. fold kept in Hsome.
    subst self'. unfold ActivityLogger.clearOldLogs.
    fold cutoff. fold (LogSpec.recent parse cutoff). fold kept.
    destruct (0 <? _)%nat eqn:Hpos; [reflexivity|].
    apply Nat.ltb_ge in Hpos. lia. }
  repeat apply conj.
  - destruct (forallb (LogSpec.recent parse cutoff) (ActivityLogger.logs self)) eqn:Hb.
    + by rewrite Hsame.
    + rewrite Hdrop by done. reflexivity.
  - destruct (forallb (LogSpec.recent parse cutoff) (ActivityLogger.logs self)) eqn:Hb.
    + by rewrite Hsame.
    + pose proof (ClearFacts.filter_drops _ _ Hb) as Hlt. fold kept in Hlt.
      rewrite Hdrop by done. unfold ActivityLogger.logSystemAction.
      rewrite ClearFacts.log_logs. cbn [length ActivityLogger.logs].
      rewrite length_take. lia.
  - exact Hsame.
  - intros Hb. rewrite Hdrop by done. unfold ActivityLogger.logSystemAction.
    rewrite ClearFacts.log_logs. eexists. split; [reflexivity|].
    repeat apply conj; reflexivity.
  - intros log Hin. apply filter_In in Hin as [_ Hr].
    unfold LogSpec.recent, ActivityLogger.date_ge in Hr.
    by destruct (parse (ActivityLogger.timestamp log)).
Qed.

(** X18 on a log with one old and one recent entry, timestamps read as
    decimal numbers. *)
Lemma clearOldLogs_drops_old_entries_witness :
  let entry ts := ActivityLogger.mkLog "i" ts "ana" "Criar" "Cliente" None "d"
                    ActivityLogger.create in
  let self := ActivityLogger.mkLogger [entry "5000000000"; entry "1"] "ana" in
  let self' := ActivityLogger.clearOldLogs Sample.parseInt "n" "5000000001"
                 5000000001 30 self in
  forallb (LogSpec.recent Sample.parseInt (5000000001 - 30 * 86400000))
          (ActivityLogger.logs self) = false /\
  map ActivityLogger.action (ActivityLogger.logs self') = ["Limpeza de logs"; "Criar"] /\
  map ActivityLogger.details (ActivityLogger.logs self') =
    ["Removidos 1 logs antigos (mais de 30 dias)"; "d"] /\
  exists e,
    ActivityLogger.logs self' =
      e :: take 999 (List.filter
                       (LogSpec.recent Sample.parseInt (5000000001 - 30 * 86400000))
                       (ActivityLogger.logs self)).
Proof.
  intros entry self self'.
  assert (H1 : forallb (LogSpec.recent Sample.parseInt (5000000001 - 30 * 86400000))
                       (ActivityLogger.logs self) = false) by (vm_compute; reflexivity).
  assert (H2 : map ActivityLogger.action (ActivityLogger.logs self')
               = ["Limpeza de logs"; "Criar"]) by (vm_compute; reflexivity).
  assert (H3 : map ActivityLogger.details (ActivityLogger.logs self') =
               ["Removidos 1 logs antigos (mais de 30 dias)"; "d"])
    by (vm_compute; reflexivity).
  destruct (clearOldLogs_drops_old_entries Sample.parseInt "n" "5000000001"
              5000000001 30 self) as (_ & _ & _ & Hdrop & _).
  destruct (Hdrop H1) as (e & He & _).
  exact (conj H1 (conj H2 (conj H3 (ex_intro _ e He)))).
Defined.

Module StatsFacts.
Import ActivityLogger LogSpec.

Implicit Types (m : JSMap.t (K := LogType) (V := nat)).

Lemma sum_values_set m k v :
  (list_sum (JSMap.values (JSMap.set m k v)) + held m k
   = list_sum (JSMap.values m) + v)%nat.
Proof.
  unfold held, JSMap.values.
  induction m as [|[k' v'] m IH]; simpl.
  - lia.
  - destruct (decide (k' = k)) as [->|Hne]; simpl; lia.
Qed.

Lemma count_type_snoc ty l log :
  count_type ty (l ++ [log]) =
    (count_type ty l + if decide (type log = ty) then 1 else 0)%nat.
Proof.
  unfold count_type. rewrite List.filter_app, length_app. simpl.
  destruct (decide (type log = ty)) as [Heq|Hne].
  - by rewrite bool_decide_true.
  - by rewrite bool_decide_false.
Qed.

Lemma counted_step l m log :
  counted l m -> counted (l ++ [log]) (countUp m (type log)).
Proof.
  intros (Hnd & Hget & Hsum). unfold countUp. repeat apply conj.
  - by apply JSMapFacts.NoDup_keys_set.
  - intros ty. rewrite count_type_snoc.
    destruct (decide (type log = ty)) as [<-|Hne].
    + rewrite JSMapFacts.get_set_eq, Hget.
      destruct (decide (count_type (type log) l = 0%nat)) as [H0|H0].
      * rewrite H0. reflexivity.
      * rewrite decide_False by lia. reflexivity.
    + rewrite JSMapFacts.get_set_ne by done. rewrite Hget, Nat.add_0_r. reflexivity.
  - pose proof (sum_values_set m (type log) (held m (type log) + 1)) as H.
    fold (held m (type log)). rewrite length_app. simpl. lia.
Qed.

Lemma counted_fold l :
  counted l (fold_left (fun acc log => countUp acc (type log)) l JSMap.empty).
Proof.
  induction l as [|log l IH] using rev_ind.
  - repeat apply conj; [apply NoDup_nil_2|done|done].
  - rewrite fold_left_app. simpl. by apply counted_step.
Qed.

End StatsFacts.

(** X19.  In the statistics of the log, [total] is the number of entries;
    [byType] has one key per type that occurs, holding the number of
    entries of that type (a type that does not occur has no key), so its
    counts add up to [total]; and [todayLogs], the number of entries whose
    timestamp parses and is not before today's midnight, is at most
    [total]. *)
Theorem getStats_counts_every_entry_once :
  forall parseDate today self,
    let st := ActivityLogger.getStats parseDate today self in
    ActivityLogger.total st = length (ActivityLogger.logs self) /\
    NoDup (JSMap.keys (ActivityLogger.byType st)) /\
    (forall ty,
       JSMap.get (ActivityLogger.byType st) ty =
         if decide (LogSpec.count_type ty (ActivityLogger.logs self) = 0%nat) then None
         else Some (LogSpec.count_type ty (ActivityLogger.logs self))) /\
    list_sum (JSMap.values (ActivityLogger.byType st)) = ActivityLogger.total st /\
    ActivityLogger.todayLogs st =
      length (List.filter (LogSpec.recent parseDate today) (ActivityLogger.logs self)) /\
    (ActivityLogger.todayLogs st <= ActivityLogger.total st)%nat.
Proof.
  intros parse today self st.
  destruct (StatsFacts.counted_fold (ActivityLogger.logs self)) as (Hnd & Hget & Hsum).
  repeat apply conj; try done.
  apply LogFacts.filter_length_le.
Qed.

(** ** The log viewer's filters *)

Module ViewerFacts.
Import ActivityLogger ActivityLogs.

Lemma uniqueInOrder_In xs x : In x (uniqueInOrder xs) <-> In x xs.
Proof.
  induction xs as [|y xs IH]; simpl; [done|].
  rewrite filter_In, IH. split.
  - intros [H|[H _]]; auto.
  - intros [H|H]; [by left|].
    destruct (String.eqb x y) eqn:Hxy.
    + apply String.eqb_eq in Hxy. left. congruence.
    + right. by split.
Qed.

Lemma uniqueInOrder_NoDup xs : List.NoDup (uniqueInOrder xs).
Proof.
  induction xs as [|y xs IH]; simpl; constructor.
  - rewrite filter_In. intros [_ H]. by rewrite String.eqb_refl in H.
  - by apply List.NoDup_filter.
Qed.

Lemma typeName_inj ty ty' : typeName ty = typeName ty' -> ty = ty'.
Proof. destruct ty, ty'; simpl; intros H; try reflexivity; discriminate. Qed.

Lemma typeName_not_all ty : String.eqb (typeName ty) "all" = false.
Proof. by destruct ty. Qed.

End ViewerFacts.

(** X20.  The log viewer's [filterLogs] returns a sub-sequence of the loaded
    logs; with the initial filters (empty search, type and user ["all"]) it
    returns them all, and with only a type chosen it returns exactly the
    entries of that type.  [getUniqueUsers] lists each user of the loaded
    logs once, except ["Sistema"], which is never listed. *)
Theorem viewer_filters_and_users :
  forall toLowerCase logsState,
    (forall searchTerm typeFilter userFilter,
       sublist (ActivityLogs.filterLogs toLowerCase logsState searchTerm typeFilter
                                        userFilter) logsState) /\
    ActivityLogs.filterLogs toLowerCase logsState "" "all" "all" = logsState /\
    (forall ty,
       ActivityLogs.filterLogs toLowerCase logsState "" (ActivityLogs.typeName ty) "all" =
       List.filter (fun log => bool_decide (ActivityLogger.type log = ty)) logsState) /\
    List.NoDup (ActivityLogs.getUniqueUsers logsState) /\
    (forall u, In u (ActivityLogs.getUniqueUsers logsState) <->
               u <> "Sistema" /\ In u (map ActivityLogger.user logsState)).
Proof.
  intros lower logsState. repeat apply conj.
  - intros searchTerm typeFilter userFilter. unfold ActivityLogs.filterLogs.
    destruct (negb (String.eqb userFilter "all"));
      destruct (negb (String.eqb typeFilter "all"));
      destruct (String.eqb searchTerm "");
      repeat (etrans; [apply LogFacts.filter_is_sublist|]); reflexivity.
  - reflexivity.
  - intros ty. unfold ActivityLogs.filterLogs.
    rewrite ViewerFacts.typeName_not_all. simpl.
    apply filter_ext. intros log.
    destruct (bool_decide_reflect (ActivityLogger.type log = ty)) as [->|Hne].
    + apply String.eqb_refl.
    + apply String.eqb_neq. intros H. by apply ViewerFacts.typeName_inj in H.
  - unfold ActivityLogs.getUniqueUsers. apply List.NoDup_filter.
    apply ViewerFacts.uniqueInOrder_NoDup.
  - intros u. unfold ActivityLogs.getUniqueUsers.
    rewrite filter_In, ViewerFacts.uniqueInOrder_In, negb_true_iff, String.eqb_neq.
    tauto.
Qed.

(** ** The loan list: status recomputed from the payments *)

Lemma size_weeks_le (ws : list Z) : (size (LoanList.uniqueWeeks ws) <= length ws)%nat.
Proof.
  induction ws as [|w ws IH] using rev_ind; [done|].
  rewrite size_weeks_snoc, length_app. simpl.
  destruct (decide (w ∈ ws)); lia.
Qed.

(** X21.  The loan list shows every fetched loan, in order, with weeks paid
    and status recomputed: weeks paid is the number of distinct week
    numbers among its payments (so between 0 and the number of payments,
    and the same in whatever order the payments come), the status is
    ["completed"] when that number reaches [total_weeks] and ["pending"]
    otherwise, whatever the stored status was, and the other columns are
    the stored ones. *)
Theorem fetchLoans_recomputes_status :
  forall data,
    map ln_id (LoanList.fetchLoans data) = map (fun j => ln_id (jl_loan j)) data /\
    forall j,
      let shown := LoanList.withRealStatus j in
      same_terms (jl_loan j) shown /\
      next_payment_date shown = next_payment_date (jl_loan j) /\
      0 <= weeks_paid shown <= Z.of_nat (length (jl_payments j)) /\
      status shown = (if total_weeks shown <=? weeks_paid shown
                      then "completed" else "pending") /\
      (forall payments',
         Permutation payments' (jl_payments j) ->
         LoanList.withRealStatus (mkJoined (jl_loan j) (jl_client_name j) payments')
           = shown).
Proof.
  intros data. split.
  - unfold LoanList.fetchLoans. rewrite map_map. reflexivity.
  - intros j shown. subst shown. unfold LoanList.withRealStatus.
    repeat apply conj; try reflexivity.
    + cbn [weeks_paid patch_loan]. lia.
    + cbn [weeks_paid patch_loan].
      pose proof (size_weeks_le (map week_number (jl_payments j))) as H.
      rewrite length_map in H. lia.
    + intros ps Hperm. cbn [jl_payments jl_loan].
      assert (Hset : LoanList.uniqueWeeks (map week_number ps) =
                     LoanList.uniqueWeeks (map week_number (jl_payments j))).
      { unfold LoanList.uniqueWeeks. apply list_to_set_perm_L.
        by apply Permutation_map. }
      by rewrite Hset.
Qed.

(** X21 at a loan whose week 1 was paid twice and week 2 once. *)
Lemma fetchLoans_recomputes_status_witness :
  let a := mkPayment "P1" "L1" "u1" (JS.of_Z 100) 12 1 in
  let b := mkPayment "P2" "L1" "u1" (JS.of_Z 100) 10 1 in
  let c := mkPayment "P3" "L1" "u1" (JS.of_Z 100) 17 2 in
  let j := mkJoined Sample.loan1 (Some "Maria") [a; b; c] in
  Permutation [c; b; a] (jl_payments j) /\
  weeks_paid (LoanList.withRealStatus j) = 2 /\
  LoanList.withRealStatus (mkJoined Sample.loan1 (Some "Maria") [c; b; a]) =
    LoanList.withRealStatus j.
Proof.
  intros a b c j.
  assert (H1 : Permutation [c; b; a] (jl_payments j)).
  { simpl. etrans; [apply perm_swap|]. etrans; [apply perm_skip, perm_swap|].
    apply perm_swap. }
  assert (H2 : weeks_paid (LoanList.withRealStatus j) = 2) by (vm_compute; reflexivity).
  destruct (proj2 (fetchLoans_recomputes_status [j]) j) as (_ & _ & _ & _ & Hperm).
  exact (conj H1 (conj H2 (Hperm [c; b; a] H1))).
Defined.

(** ** Cleanup and the loan list *)

Lemma cleanup_payments uid payments deleteReply db :
  (forall id, deleteReply id = None) ->
  Permutation payments (loan_payments db) ->
  NoDup (map p_id (loan_payments db)) ->
  let db' := LoanList.cleanupDuplicatePayments (Some uid) None payments deleteReply db in
  forall q, In q (loan_payments db') <->
            In q (loan_payments db) /\
            List.find (CleanupSpec.in_group (loan_id q) (week_number q)) payments = Some q.
Proof.
  intros Hr Hperm Hids db' q. subst db'.
  rewrite (CleanupFacts.cleanup_as_deletes deleteReply uid payments db).
  destruct (CleanupFacts.deletes_effect deleteReply Hr
              (CleanupSpec.doomed (LoanList.paymentGroups payments)) db)
    as (_ & _ & Hp).
  assert (Hmem : forall p, In p payments <-> In p (loan_payments db)).
  { intros p. rewrite <- !list_elem_of_In. by rewrite Hperm. }
  assert (Hids' : NoDup (map p_id payments)).
  { apply NoDup_ListNoDup.
    eapply Permutation_NoDup; [|apply NoDup_ListNoDup; exact Hids].
    symmetry. by apply Permutation_map. }
  rewrite Hp, filter_In. split.
  - intros [Hq Hk]. split; [done|]. apply Hmem in Hq.
    apply (CleanupFacts.keep_iff_first payments q Hids' Hq) in Hk.
    rewrite <- Hk. apply CleanupFacts.find_ext. intros x.
    symmetry. apply CleanupFacts.same_key_in_group.
  - intros [Hq Hf]. split; [done|]. apply Hmem in Hq.
    apply (CleanupFacts.keep_iff_first payments q Hids' Hq).
    rewrite <- Hf. apply CleanupFacts.find_ext. intros x.
    apply CleanupFacts.same_key_in_group.
Qed.

(** X22.  Let the select of the cleanup return the rows of [loan_payments]
    (in any order), let payment ids be unique and let every delete succeed.
    Then [cleanupDuplicatePayments] removes no week of any loan: the week
    numbers recorded for a loan are the same before and after, so the loan
    list shows every loan with the same weeks paid and status as before. *)
Theorem cleanup_keeps_what_the_list_shows :
  forall uid payments deleteReply db,
    (forall id, deleteReply id = None) ->
    Permutation payments (loan_payments db) ->
    NoDup (map p_id (loan_payments db)) ->
    let db' := LoanList.cleanupDuplicatePayments (Some uid) None payments deleteReply db in
    forall l name,
      LoanList.uniqueWeeks (map week_number (payments_of (ln_id l) db')) =
        LoanList.uniqueWeeks (map week_number (payments_of (ln_id l) db)) /\
      LoanList.withRealStatus (joined_from db' l name) =
        LoanList.withRealStatus (joined_from db l name).
Proof.
  intros uid ps r db Hr Hperm Hids db' l name.
  pose proof (cleanup_payments uid ps r db Hr Hperm Hids) as Hsurv. fold db' in Hsurv.
  assert (Hmem : forall p, In p ps <-> In p (loan_payments db)).
  { intros p. rewrite <- !list_elem_of_In. by rewrite Hperm. }
  assert (Hset : LoanList.uniqueWeeks (map week_number (payments_of (ln_id l) db')) =
                 LoanList.uniqueWeeks (map week_number (payments_of (ln_id l) db))).
  { unfold LoanList.uniqueWeeks, payments_of. apply set_eq. intros w.
    rewrite !elem_of_list_to_set, !list_elem_of_In, !in_map_iff. split.
    - intros (q & <- & Hq). apply filter_In in Hq as [Hq Hid].
      apply Hsurv in Hq as [Hq _]. exists q. split; [done|]. by apply filter_In.
    - intros (p & <- & Hp). apply filter_In in Hp as [Hp Hid].
      destruct (CleanupFacts.find_exists
                  (CleanupSpec.in_group (loan_id p) (week_number p)) ps p)
        as [q Hq]; [by apply Hmem| |].
      { unfold CleanupSpec.in_group. by rewrite String.eqb_refl, Z.eqb_refl. }
      pose proof (find_some _ _ Hq) as [Hqin Hqg].
      unfold CleanupSpec.in_group in Hqg. apply andb_prop in Hqg as [Hq1 Hq2].
      apply String.eqb_eq in Hq1. apply Z.eqb_eq in Hq2.
      exists q. split; [done|]. apply filter_In. split.
      + apply Hsurv. split; [by apply Hmem|]. by rewrite Hq1, Hq2.
      + by rewrite Hq1.
  }
  split; [exact Hset|].
  unfold LoanList.withRealStatus, joined_from. cbn [jl_payments jl_loan].
  by rewrite Hset.
Qed.

(** X22 on a table where week 1 of the sample loan was registered twice. *)
Lemma cleanup_keeps_what_the_list_shows_witness :
  let a := mkPayment "P1" "L1" "u1" (JS.of_Z 100) 12 1 in
  let b := mkPayment "P2" "L1" "u1" (JS.of_Z 100) 10 1 in
  let c := mkPayment "P3" "L1" "u1" (JS.of_Z 100) 17 2 in
  let db := mkStore [Sample.maria] [Sample.loan1] [a; b; c] in
  let db' := LoanList.cleanupDuplicatePayments (Some "u1") None [b; a; c]
               (fun _ => None) db in
  Permutation [b; a; c] (loan_payments db) /\
  NoDup (map p_id (loan_payments db)) /\
  loan_payments db' = [b; c] /\
  LoanList.withRealStatus (joined_from db' Sample.loan1 (Some "Maria")) =
    LoanList.withRealStatus (joined_from db Sample.loan1 (Some "Maria")).
Proof.
  intros a b c db db'.
  assert (H1 : Permutation [b; a; c] (loan_payments db)) by apply perm_swap.
  assert (H2 : NoDup (map p_id (loan_payments db))).
  { apply (bool_decide_unpack (NoDup (map p_id (loan_payments db)))). vm_compute. exact I. }
  assert (H3 : loan_payments db' = [b; c]) by (vm_compute; reflexivity).
  exact (conj H1 (conj H2 (conj H3
           (proj2 (cleanup_keeps_what_the_list_shows "u1" [b; a; c] (fun _ => None) db
                     (fun _ => eq_refl) H1 H2 Sample.loan1 (Some "Maria")))))).
Defined.

(** ** Synchronising the stored status *)

Module SyncFacts.
Import SyncSpec.

Lemma update_loan_id id db : update_loan id (fun l => l) db = db.
Proof.
  unfold update_loan. destruct db as [cs ls ps]. simpl. f_equal.
  induction ls as [|l ls IH]; simpl; [done|].
  rewrite IH. by destruct (String.eqb (ln_id l) id).
Qed.

Lemma repaired_id j l : ln_id (repaired j l) = ln_id l.
Proof. unfold repaired. by destruct (synced j). Qed.

Lemma syncOne_repairs updateReply db j :
  updateReply (ln_id (jl_loan j)) = None ->
  LoanList.syncOne updateReply db j = update_loan (ln_id (jl_loan j)) (repaired j) db.
Proof.
  intros Hr. unfold LoanList.syncOne, repaired, synced. fold (actual j). rewrite Hr.
  destruct (weeks_paid (jl_loan j) =? actual j),
           (total_weeks (jl_loan j) <=? actual j),
           (String.eqb (status (jl_loan j)) "completed"); simpl; try reflexivity;
    symmetry; apply update_loan_id.
Qed.

Lemma syncOne_synced updateReply db j :
  synced j = true -> LoanList.syncOne updateReply db j = db.
Proof.
  unfold LoanList.syncOne, synced. fold (actual j).
  destruct (weeks_paid (jl_loan j) =? actual j),
           (total_weeks (jl_loan j) <=? actual j),
           (String.eqb (status (jl_loan j)) "completed"); simpl; done.
Qed.

Lemma stored_update id id' f db :
  (forall l, ln_id (f l) = ln_id l) ->
  stored id' (update_loan id f db) =
    if String.eqb id' id then option_map f (stored id' db) else stored id' db.
Proof.
  intros Hf. unfold stored, update_loan. cbn [loans].
  induction (loans db) as [|l ls IH]; simpl.
  - by destruct (String.eqb id' id).
  - destruct (String.eqb (ln_id l) id) eqn:Hl.
    + rewrite Hf. apply String.eqb_eq in Hl. rewrite Hl.
      destruct (String.eqb id id') eqn:Hid.
      * apply String.eqb_eq in Hid. subst id'. by rewrite String.eqb_refl.
      * rewrite IH. done.
    + destruct (String.eqb (ln_id l) id') eqn:Hl'; [|exact IH].
      apply String.eqb_eq in Hl'. subst id'. by rewrite Hl.
Qed.

Lemma sync_fold_other updateReply data db id :
  (forall i, updateReply i = None) ->
  ~ In id (map (fun j => ln_id (jl_loan j)) data) ->
  stored id (fold_left (LoanList.syncOne updateReply) data db) = stored id db.
Proof.
  intros Hr. revert db. induction data as [|j data IH]; intros db Hnin; simpl; [done|].
  simpl in Hnin. rewrite IH by tauto.
  rewrite syncOne_repairs by done.
  rewrite stored_update by apply repaired_id.
  destruct (String.eqb id (ln_id (jl_loan j))) eqn:Hid; [|done].
  apply String.eqb_eq in Hid. exfalso. apply Hnin. by left.
Qed.

Lemma sync_fold_stored updateReply data db j :
  (forall i, updateReply i = None) ->
  List.NoDup (map (fun j => ln_id (jl_loan j)) data) ->
  In j data ->
  stored (ln_id (jl_loan j)) db = Some (jl_loan j) ->
  stored (ln_id (jl_loan j)) (fold_left (LoanList.syncOne updateReply) data db) =
    Some (repaired j (jl_loan j)).
Proof.
  intros Hr. revert db. induction data as [|j0 data IH]; intros db Hnd Hin Hst; [done|].
  simpl. inversion Hnd as [|? ? Hnot Hnd']; subst.
  destruct (decide (ln_id (jl_loan j) = ln_id (jl_loan j0))) as [Heq|Hne].
  - assert (j = j0) as ->.
    { destruct Hin as [->|Hin]; [done|]. exfalso. apply Hnot. rewrite <- Heq.
      by apply (in_map (fun j => ln_id (jl_loan j))). }
    rewrite sync_fold_other by done.
    rewrite syncOne_repairs by done.
    rewrite stored_update by apply repaired_id.
    by rewrite String.eqb_refl, Hst.
  - destruct Hin as [->|Hin]; [done|].
    apply IH; [done|done|].
    rewrite syncOne_repairs by done.
    rewrite stored_update by apply repaired_id.
    apply String.eqb_neq in Hne. by rewrite Hne.
Qed.

Lemma repaired_synced j :
  synced (mkJoined (repaired j (jl_loan j)) (jl_client_name j) (jl_payments j)) = true.
Proof.
  unfold repaired. destruct (synced j) eqn:Hs.
  - by destruct j.
  - unfold synced, actual. cbn [jl_loan jl_payments patch_loan weeks_paid status total_weeks].
    rewrite Z.eqb_refl. simpl.
    by destruct (total_weeks (jl_loan j) <=? _).
Qed.

Lemma sync_fold_synced updateReply data db :
  List.Forall (fun j => synced j = true) data ->
  fold_left (LoanList.syncOne updateReply) data db = db.
Proof.
  induction 1 as [|j data Hj _ IH]; simpl; [done|].
  by rewrite syncOne_synced.
Qed.

Lemma sync_frame user selectError loansData updateReply db :
  let db' := LoanList.syncLoanStatus user selectError loansData updateReply db in
  clients db' = clients db /\ map ln_id (loans db') = map ln_id (loans db).
Proof.
  unfold LoanList.syncLoanStatus.
  destruct user; [|done]. destruct selectError; [done|].
  revert db. induction loansData as [|j ls IH]; intros db; simpl; [done|].
  destruct (IH (LoanList.syncOne updateReply db j)) as [Hc Hl].
  rewrite Hc, Hl. unfold LoanList.syncOne.
  repeat break_match; try done;
    unfold update_loan; cbn [clients loans]; (split; [done|]);
    rewrite map_map; apply map_ext; intros l;
    by destruct (String.eqb (ln_id l) _).
Qed.

End SyncFacts.

(** X23.  Let [syncLoanStatus] fetch each loan at most once, every fetched
    row being the one stored under its id, and let every update succeed.
    Afterwards the clients and payments tables and the ids of the loans are
    as before, and for every fetched loan the stored row has the terms it
    had, [weeks_paid] equal to the number of distinct weeks paid, and the
    status ["completed"] exactly when that number reaches [total_weeks], as
    the loan list shows it.  A second run on the rows fetched again changes
    nothing, whatever the replies. *)
Theorem syncLoanStatus_repairs_and_settles :
  forall uid loansData updateReply db,
    (forall id, updateReply id = None) ->
    List.NoDup (map (fun j => ln_id (jl_loan j)) loansData) ->
    (forall j, In j loansData ->
               SyncSpec.stored (ln_id (jl_loan j)) db = Some (jl_loan j)) ->
    let db' := LoanList.syncLoanStatus (Some uid) None loansData updateReply db in
    clients db' = clients db /\
    loan_payments db' = loan_payments db /\
    map ln_id (loans db') = map ln_id (loans db) /\
    (forall j, In j loansData ->
       exists l',
         SyncSpec.stored (ln_id (jl_loan j)) db' = Some l' /\
         same_terms (jl_loan j) l' /\
         weeks_paid l' = weeks_paid (LoanList.withRealStatus j) /\
         String.eqb (status l') "completed" =
           String.eqb (status (LoanList.withRealStatus j)) "completed" /\
         SyncSpec.synced (SyncSpec.refetched db' j) = true) /\
    (forall uid' updateReply',
       LoanList.syncLoanStatus (Some uid') None
         (map (SyncSpec.refetched db') loansData) updateReply' db' = db').
Proof.
  intros uid data r db Hr Hnd Hst db'.
  destruct (SyncFacts.sync_frame (Some uid) None data r db) as [Hc Hl].
  fold db' in Hc, Hl.
  assert (Hrow : forall j, In j data ->
            SyncSpec.stored (ln_id (jl_loan j)) db' =
              Some (SyncSpec.repaired j (jl_loan j))).
  { intros j Hj. subst db'. unfold LoanList.syncLoanStatus.
    apply SyncFacts.sync_fold_stored; auto. }
  assert (Hre : forall j, In j data ->
            SyncSpec.refetched db' j =
              mkJoined (SyncSpec.repaired j (jl_loan j)) (jl_client_name j)
                       (jl_payments j)).
  { intros j Hj. unfold SyncSpec.refetched. by rewrite Hrow. }
  repeat apply conj.
  - exact Hc.
  - apply syncLoanStatus_keeps_payments.
  - exact Hl.
  - intros j Hj. exists (SyncSpec.repaired j (jl_loan j)).
    split; [by apply Hrow|].
    assert (Hsync : SyncSpec.synced (SyncSpec.refetched db' j) = true).
    { rewrite Hre by done. apply SyncFacts.repaired_synced. }
    split; [|split; [|split; [|exact Hsync]]].
    + unfold SyncSpec.repaired, same_terms.
      destruct (SyncSpec.synced j); simpl; repeat split.
    + unfold SyncSpec.repaired, LoanList.withRealStatus.
      destruct (SyncSpec.synced j) eqn:Hs; [|reflexivity].
      unfold SyncSpec.synced in Hs. apply andb_prop in Hs as [Hs _].
      apply Z.eqb_eq in Hs. exact Hs.
    + unfold SyncSpec.repaired, LoanList.withRealStatus.
      fold (SyncSpec.actual j). cbn [status patch_loan].
      destruct (SyncSpec.synced j) eqn:Hs.
      * unfold SyncSpec.synced in Hs. apply andb_prop in Hs as [_ Hs].
        apply Bool.eqb_prop in Hs. rewrite Hs.
        by destruct (total_weeks (jl_loan j) <=? SyncSpec.actual j).
      * reflexivity.
  - intros uid' r'. unfold LoanList.syncLoanStatus at 1.
    apply SyncFacts.sync_fold_synced.
    apply List.Forall_forall. intros j' Hj'.
    apply in_map_iff in Hj' as (j & <- & Hj).
    rewrite Hre by done. apply SyncFacts.repaired_synced.
Qed.

(** X23 on the sample loan, stored with no week paid, with two of its weeks
    paid: the stored row comes to two weeks paid. *)
Lemma syncLoanStatus_repairs_and_settles_witness :
  let ps := [mkPayment "P1" "L1" "u1" (JS.of_Z 100) 10 1;
             mkPayment "P2" "L1" "u1" (JS.of_Z 100) 17 2] in
  let db := mkStore [Sample.maria] [Sample.loan1] ps in
  let j := mkJoined Sample.loan1 None ps in
  let db' := LoanList.syncLoanStatus (Some "u1") None [j] (fun _ => None) db in
  List.NoDup (map (fun j => ln_id (jl_loan j)) [j]) /\
  SyncSpec.stored (ln_id (jl_loan j)) db = Some (jl_loan j) /\
  map weeks_paid (loans db') = [2] /\
  LoanList.syncLoanStatus (Some "u1") None (map (SyncSpec.refetched db') [j])
    (fun _ => Some "denied") db' = db'.
Proof.
  intros ps db j db'.
  assert (H1 : List.NoDup (map (fun j => ln_id (jl_loan j)) [j])).
  { constructor; [intros []|constructor]. }
  assert (H2 : SyncSpec.stored (ln_id (jl_loan j)) db = Some (jl_loan j))
    by reflexivity.
  assert (H3 : map weeks_paid (loans db') = [2]) by (vm_compute; reflexivity).
  assert (Hall : forall j', In j' [j] ->
                   SyncSpec.stored (ln_id (jl_loan j')) db = Some (jl_loan j')).
  { intros j' [<-|[]]. exact H2. }
  destruct (syncLoanStatus_repairs_and_settles "u1" [j] (fun _ => None) db
              (fun _ => eq_refl) H1 Hall) as (_ & _ & _ & _ & Hidem).
  exact (conj H1 (conj H2 (conj H3 (Hidem "u1" (fun _ => Some "denied"))))).
Defined.

(** ** Client reports *)

Module ReportFacts.
Import Reports ReportSpec.











End ReportFacts.



(** ** The client form *)

(** X25.  The client form keeps its CPF and phone fields masked: in the
    initial state and after every [handleChange], each of the two fields is
    a text its own formatter leaves unchanged, and fits its input (14 and
    15 characters); a change to one input leaves the other fields as they
    were. *)
Theorem client_form_fields_stay_masked :
  forall capitalizeWords,
    well_masked ClientForm.initialFormData /\
    forall name value prev,
      let next := ClientForm.handleChange capitalizeWords name value prev in
      (well_masked prev -> well_masked next) /\
      ClientForm.fd_credit_limit next = ClientForm.fd_credit_limit prev /\
      (name <> ClientForm.full_name_input ->
       ClientForm.fd_full_name next = ClientForm.fd_full_name prev) /\
      (name <> ClientForm.cpf_input -> ClientForm.cpf next = ClientForm.cpf prev) /\
      (name <> ClientForm.phone_input -> ClientForm.phone next = ClientForm.phone prev) /\
      (name <> ClientForm.address_input ->
       ClientForm.address next = ClientForm.address prev).
Proof.
  intros cap. split.
  - repeat split; simpl; lia.
  - intros name value prev next. subst next. repeat apply conj.
    + intros (Hc & Hp & Hlc & Hlp). unfold well_masked.
      destruct name; cbn [ClientForm.handleChange ClientForm.cpf ClientForm.phone];
        repeat apply conj; try assumption.
      * rewrite !FormatFacts.formatCPF_mask.
        rewrite FormatFacts.removeNonDigits_mask
          by apply FormatFacts.removeNonDigits_all_digits.
        apply FormatFacts.mask_first_11.
      * rewrite FormatFacts.formatCPF_mask. apply MaskFacts.mask_length.
      * rewrite !MaskFacts.formatPhone_mask.
        rewrite MaskFacts.removeNonDigits_phoneMask
          by apply FormatFacts.removeNonDigits_all_digits.
        apply MaskFacts.phoneMask_first_11.
      * rewrite MaskFacts.formatPhone_mask. apply MaskFacts.phoneMask_length.
    + by destruct name.
    + by destruct name.
    + by destruct name.
    + by destruct name.
    + by destruct name.
Qed.

(** X25 after typing a CPF into the initial form. *)
Lemma client_form_fields_stay_masked_witness :
  let next := ClientForm.handleChange (fun s => s) ClientForm.cpf_input "12345678901"
                ClientForm.initialFormData in
  well_masked ClientForm.initialFormData /\
  ClientForm.cpf next = "123.456.789-01" /\
  well_masked next.
Proof.
  intros next.
  destruct (client_form_fields_stay_masked (fun s => s)) as [Hinit Hstep].
  exact (conj Hinit (conj eq_refl
           (proj1 (Hstep ClientForm.cpf_input "12345678901" ClientForm.initialFormData)
                  Hinit))).
Defined.

(** X26.  The list of references of the client form is never empty: it
    starts with one blank reference, and none of its three handlers empties
    a non-empty list.  [removeReference] leaves a single reference alone,
    and otherwise removes exactly the entry at a valid index, keeping the
    others in order; removing the entry just added gives the list back;
    [handleReferenceChange] keeps the number of references. *)
Theorem references_never_empty :
  ClientForm.initialReferences <> [] /\
  forall references,
    references <> [] ->
    (forall index field value,
       let next := ClientForm.handleReferenceChange index field value references in
       next <> [] /\ length next = length references) /\
    ClientForm.addReference references <> [] /\
    ClientForm.removeReference (length references) (ClientForm.addReference references)
      = references /\
    (forall index,
       let next := ClientForm.removeReference index references in
       next <> [] /\
       (length references = 1%nat -> next = references) /\
       ((1 < length references)%nat -> (index < length references)%nat ->
        next = take index references ++ drop (S index) references /\
        length next = (length references - 1)%nat)).
Proof.
  split; [done|]. intros references Hne.
  assert (Hlen : (0 < length references)%nat).
  { destruct references; [done|simpl; lia]. }
  assert (Hnil : forall l : list ClientForm.Reference, (0 < length l)%nat -> l <> []).
  { intros l H ->. simpl in H. lia. }
  repeat apply conj.
  - intros index field value next.
    assert (Hl : length next = length references).
    { subst next. unfold ClientForm.handleReferenceChange.
      destruct (references !! index); [|done]. by rewrite length_insert. }
    split; [|done]. apply Hnil. lia.
  - unfold ClientForm.addReference. apply Hnil. rewrite length_app. simpl. lia.
  - unfold ClientForm.removeReference, ClientForm.addReference.
    rewrite length_app. simpl.
    destruct (1 <? length references + 1)%nat eqn:H1.
    + rewrite delete_take_drop, take_app_length, drop_ge, app_nil_r; [done|].
      rewrite length_app. simpl. lia.
    + apply Nat.ltb_ge in H1. lia.
  - intros index next. subst next. unfold ClientForm.removeReference.
    destruct (1 <? length references)%nat eqn:H1.
    + apply Nat.ltb_lt in H1. repeat apply conj.
      * apply Hnil. destruct (decide (index < length references)%nat).
        -- rewrite length_delete by (by apply lookup_lt_is_Some_2). lia.
        -- rewrite delete_take_drop, take_ge, drop_ge, app_nil_r by lia. lia.
      * lia.
      * intros _ Hi. split; [apply delete_take_drop|].
        rewrite length_delete by (by apply lookup_lt_is_Some_2). lia.
    + apply Nat.ltb_ge in H1. repeat apply conj; try done. lia.
Qed.

(** X26 on two references, removing the first. *)
Lemma references_never_empty_witness :
  let a := ClientForm.mkReference "Ana" "(11) 99999-0000" "irma" in
  let b := ClientForm.mkReference "Bia" "(11) 98888-0000" "amiga" in
  [a; b] <> [] /\ (1 < length [a; b])%nat /\ (0 < length [a; b])%nat /\
  ClientForm.removeReference 0 [a; b] = [b] /\
  ClientForm.removeReference 0 [b] = [b].
Proof.
  intros a b.
  assert (H1 : [a; b] <> []) by discriminate.
  assert (H2 : (1 < length [a; b])%nat) by (simpl; lia).
  assert (H3 : (0 < length [a; b])%nat) by (simpl; lia).
  destruct (proj2 references_never_empty [a; b] H1) as (_ & _ & _ & Hrem).
  destruct (Hrem 0%nat) as (_ & _ & Hcut).
  assert (H5 : ClientForm.removeReference 0 [b] = [b]) by reflexivity.
  exact (conj H1 (conj H2 (conj H3 (conj (proj1 (Hcut H2 H3)) H5)))).
Defined.

(** ** Credit given back outside the client-detail screen *)

(** X27.  On the per-client payments screen and on both loan lists, when
    the payment being registered is the last one (or the loan was already
    paid in full) and every remote call succeeds, the client row read back
    gets [available_credit + loan_amount] with no cap; so, with client ids
    unique, whenever that sum is above the client's [credit_limit] the
    stored available credit ends above the limit. *)
Theorem final_payment_elsewhere_restores_uncapped_credit :
  forall uid loansState clientId loan today newId db clientData,
    completes loan = true ->
    select_client clientId db = Some clientData ->
    (List.find (fun l => String.eqb (ln_id l) (ln_id loan)) loansState = Some loan ->
     clients (fst (LoanPayments.registerPayment (Some uid) loansState clientId
                     (ln_id loan) today newId None None None None db)) =
       added_back clientId clientData loan (clients db)) /\
    (client_id loan = clientId ->
     clients (fst (LoanList.markPayment (Some uid) (ln_id loan) loan today newId
                     None None None db)) =
       added_back clientId clientData loan (clients db) /\
     clients (fst (LoanList003.markPayment (Some uid) (ln_id loan) loan today newId
                     None None None None db)) =
       added_back clientId clientData loan (clients db)) /\
    (NoDup (map cl_id (clients db)) ->
     JS.gt (JS.add (available_credit clientData) (loan_amount loan))
           (credit_limit clientData) = true ->
     forall c', In c' (added_back clientId clientData loan (clients db)) ->
                cl_id c' = clientId ->
                JS.gt (available_credit c') (credit_limit c') = true).
Proof.
  intros uid ls clientId loan today newId db clientData Hc Hsel.
  unfold completes in Hc. repeat apply conj.
  - intros Hfind. unfold LoanPayments.registerPayment, fetch_client, select_client.
    rewrite Hfind, Hc. simpl.
    unfold select_client in Hsel. rewrite Hsel. reflexivity.
  - intros <-. unfold select_client in Hsel. split.
    + unfold LoanList.markPayment, fetch_client, select_client.
      rewrite Hc. simpl. rewrite Hsel. reflexivity.
    + unfold LoanList003.markPayment, fetch_client, select_client.
      rewrite Hc. simpl. rewrite Hsel. reflexivity.
  - intros Hnd Hgt c'. unfold added_back. rewrite in_map_iff.
    intros (c & <- & Hin) Hid.
    destruct (String.eqb (cl_id c) clientId) eqn:Hcid.
    + apply String.eqb_eq in Hcid. simpl.
      by rewrite (find_unique_client _ _ _ _ Hnd Hsel Hin Hcid).
    + apply String.eqb_neq in Hcid. done.
Qed.

(** X27 at a client with limit 1000 and 600 available who pays off a loan
    of 500 on the per-client payments screen: 1100 is stored. *)
Lemma final_payment_elsewhere_restores_uncapped_credit_witness :
  let loan := patch_loan 3 "active" (Some 31) Sample.loan1 in
  let maria' := mkClient "c1" "Maria" (JS.of_Z 1000) (JS.of_Z 600) true in
  let db := mkStore [maria'] [loan] [] in
  completes loan = true /\
  select_client "c1" db = Some maria' /\
  List.find (fun l => String.eqb (ln_id l) (ln_id loan)) [loan] = Some loan /\
  map available_credit
      (clients (fst (LoanPayments.registerPayment (Some "u1") [loan] "c1" (ln_id loan)
                       31 "P4" None None None None db))) = [JS.of_Z 1100] /\
  map credit_limit (clients db) = [JS.of_Z 1000].
Proof.
  intros loan maria' db.
  assert (Hc : completes loan = true) by reflexivity.
  assert (Hs : select_client "c1" db = Some maria') by reflexivity.
  assert (Hf : List.find (fun l => String.eqb (ln_id l) (ln_id loan)) [loan] = Some loan)
    by reflexivity.
  destruct (final_payment_elsewhere_restores_uncapped_credit "u1" [loan] "c1" loan 31
              "P4" db maria' Hc Hs) as (Heq & _).
  repeat apply conj; try assumption.
  - rewrite (Heq Hf). vm_compute. reflexivity.
  - vm_compute. reflexivity.
Defined.
